(** * Subscription lifecycle of the meal-plan application

    A shallow embedding of the route handlers that keep the local
    [Profile] and [Subscription] tables consistent with the payment
    provider, together with the properties the specification states
    about them.

    Conventions of the embedding:
    - a JavaScript [Date] is its time value, the number of milliseconds
      since the epoch, as a [Z]; the handlers run on a server whose
      local time is UTC ([JSDate]), and what a monthly or a yearly
      period comes to is stated for a server in any zone that keeps a
      fixed offset from UTC ([JSDateLocal]);
    - every handler invocation reads the clock once: the argument [now]
      stands for each [new Date()] of that invocation;
    - a JSON field that is missing, [null] or [undefined] is [None]
      where the code only tests it for truthiness or compares it with a
      string; where the code renders a field of a request body as text
      or hands it to the store, the missing field, [null] and the string
      are kept apart ([Field]); the empty string is falsy as in
      JavaScript;
    - the persistence layer is the pair of tables of the Prisma schema,
      kept as lists in insertion order, with the schema's unique and
      foreign-key constraints checked where Prisma checks them;
    - the payment provider is an oracle (what each SDK call answers)
      and a log of the calls that were sent to it. *)

From Stdlib Require Import ZArith String List Bool Lia Ascii.
Import ListNotations.
Local Open Scope string_scope.
Local Open Scope Z_scope.

(* ================================================================== *)
(** * JavaScript dates *)
(* ================================================================== *)

Module JSDate.

Definition msPerDay : Z := 86400000.

Definition Day (t : Z) : Z := t / msPerDay.
Definition TimeWithinDay (t : Z) : Z := t mod msPerDay.

(** The proleptic Gregorian calendar, counted in 400-year eras of
    146097 days that start on 1 March: a day of an era against its
    year of the era, month (1..12) and day of the month. *)
Definition civil_of_doe (doe : Z) : Z * Z * Z :=
  let yoe := (doe - doe / 1460 + doe / 36524 - doe / 146096) / 365 in
  let doy := doe - (365 * yoe + yoe / 4 - yoe / 100) in
  let mp := (5 * doy + 2) / 153 in
  let d := doy - (153 * mp + 2) / 5 + 1 in
  let m := if mp <? 10 then mp + 3 else mp - 9 in
  (yoe, m, d).

Definition doe_of_civil (yoe m d : Z) : Z :=
  let mp := if 2 <? m then m - 3 else m + 9 in
  let doy := (153 * mp + 2) / 5 + d - 1 in
  yoe * 365 + yoe / 4 - yoe / 100 + doy.

(** January and February belong to the era year that started the
    March before. *)
Definition year_shift (m : Z) : Z := if m <=? 2 then 1 else 0.

(** Days since the epoch of the civil date [y]-[m]-[d], [m] in 1..12. *)
Definition days_from_civil (y m d : Z) : Z :=
  let y' := y - year_shift m in
  (y' / 400) * 146097 + doe_of_civil (y' mod 400) m d - 719468.

(** The civil date (year, month in 1..12, day of month) of a day
    number. *)
Definition civil_from_days (z : Z) : Z * Z * Z :=
  let z' := z + 719468 in
  let '(yoe, m, d) := civil_of_doe (z' mod 146097) in
  (yoe + (z' / 146097) * 400 + year_shift m, m, d).

(** [getFullYear], [getMonth] (0..11) and [getDate] (1..31), in UTC:
    the accessors of a server whose local time is UTC. *)
Definition getFullYear (t : Z) : Z := fst (fst (civil_from_days (Day t))).
Definition getMonth (t : Z) : Z := snd (fst (civil_from_days (Day t))) - 1.
Definition getDate (t : Z) : Z := snd (civil_from_days (Day t)).

(** ECMAScript's MakeDay: the month may lie outside 0..11 and the day
    outside the month; both carry over. *)
Definition MakeDay (year month date : Z) : Z :=
  let ym := year + month / 12 in
  let mn := month mod 12 in
  days_from_civil ym (mn + 1) 1 + date - 1.

Definition MakeDate (day time : Z) : Z := day * msPerDay + time.

(** [Date.UTC(year, month, date, hours, minutes, seconds, ms)]. *)
Definition UTC (year month date h mi s ms : Z) : Z :=
  MakeDate (MakeDay year month date)
           (h * 3600000 + mi * 60000 + s * 1000 + ms).

(** [d.setDate(x)], [d.setMonth(x)] and [d.setFullYear(x)] on the
    date whose time value is [t], on a server whose local time is UTC;
    each returns the new time value, which stays within the range of a
    [Date] for every reading of the clock. *)
Definition setDate (t x : Z) : Z :=
  MakeDate (MakeDay (getFullYear t) (getMonth t) x) (TimeWithinDay t).
Definition setMonth (t x : Z) : Z :=
  MakeDate (MakeDay (getFullYear t) x (getDate t)) (TimeWithinDay t).
Definition setFullYear (t x : Z) : Z :=
  MakeDate (MakeDay x (getMonth t) (getDate t)) (TimeWithinDay t).

(** Leap years and the lengths of the months ([m] in 1..12). *)
Definition is_leap (y : Z) : bool :=
  (y mod 4 =? 0) && (negb (y mod 100 =? 0) || (y mod 400 =? 0)).

Definition days_in_month (y m : Z) : Z :=
  if m =? 2 then (if is_leap y then 29 else 28)
  else if (m =? 4) || (m =? 6) || (m =? 9) || (m =? 11) then 30
  else 31.

End JSDate.

(* ================================================================== *)
(** * calculateEndDate *)
(* ================================================================== *)

(** [calculateEndDate] of the webhook and status routes: the argument
    is a string. *)
Definition calculateEndDate (now : Z) (planType : string) : Z :=
  let endDate := now in
  if String.eqb planType "week" then
    JSDate.setDate endDate (JSDate.getDate now + 7)
  else if String.eqb planType "month" then
    JSDate.setMonth endDate (JSDate.getMonth now + 1)
  else if String.eqb planType "year" then
    JSDate.setFullYear endDate (JSDate.getFullYear now + 1)
  else
    JSDate.setMonth endDate (JSDate.getMonth now + 1).

(** [calculateEndDate] of the payment-verification route: the argument
    may be missing, and [planType?.toString() || "month"] is taken
    first. *)
Definition calculateEndDate_verify (now : Z) (planType : option string) : Z :=
  let planTypeStr :=
    match planType with
    | Some s => if String.eqb s "" then "month" else s
    | None => "month"
    end in
  calculateEndDate now planTypeStr.

(* ================================================================== *)
(** * Local time *)
(* ================================================================== *)

(** [getDate], [setMonth] and the other accessors [calculateEndDate]
    calls work on local time: ECMAScript reads the date fields of
    [LocalTime(t)] and stores the [UTC] of the local time value it
    makes of them. [JSDate] is the case of a server in UTC. For a
    server whose zone keeps the offset [tza] from UTC (milliseconds,
    positive to the east: 19800000 in Asia/Kolkata) the accessors are
    these; a zone whose offset changes between the start and the end
    of a period (daylight saving) is not covered. *)
Module JSDateLocal.

Definition LocalTime (tza t : Z) : Z := t + tza.
Definition UTC (tza t : Z) : Z := t - tza.

Definition getFullYear (tza t : Z) : Z := JSDate.getFullYear (LocalTime tza t).
Definition getMonth (tza t : Z) : Z := JSDate.getMonth (LocalTime tza t).
Definition getDate (tza t : Z) : Z := JSDate.getDate (LocalTime tza t).

(** The time of day on the local clock. *)
Definition TimeWithinDay (tza t : Z) : Z :=
  JSDate.TimeWithinDay (LocalTime tza t).

Definition setDate (tza t x : Z) : Z :=
  let local := LocalTime tza t in
  UTC tza
    (JSDate.MakeDate
       (JSDate.MakeDay (JSDate.getFullYear local) (JSDate.getMonth local) x)
       (JSDate.TimeWithinDay local)).
Definition setMonth (tza t x : Z) : Z :=
  let local := LocalTime tza t in
  UTC tza
    (JSDate.MakeDate
       (JSDate.MakeDay (JSDate.getFullYear local) x (JSDate.getDate local))
       (JSDate.TimeWithinDay local)).
Definition setFullYear (tza t x : Z) : Z :=
  let local := LocalTime tza t in
  UTC tza
    (JSDate.MakeDate
       (JSDate.MakeDay x (JSDate.getMonth local) (JSDate.getDate local))
       (JSDate.TimeWithinDay local)).

End JSDateLocal.

(** [calculateEndDate] on a server at the offset [tza]. *)
Definition calculateEndDate_local (tza now : Z) (planType : string) : Z :=
  let endDate := now in
  if String.eqb planType "week" then
    JSDateLocal.setDate tza endDate (JSDateLocal.getDate tza now + 7)
  else if String.eqb planType "month" then
    JSDateLocal.setMonth tza endDate (JSDateLocal.getMonth tza now + 1)
  else if String.eqb planType "year" then
    JSDateLocal.setFullYear tza endDate (JSDateLocal.getFullYear tza now + 1)
  else
    JSDateLocal.setMonth tza endDate (JSDateLocal.getMonth tza now + 1).

(** The offset of Asia/Kolkata, five and a half hours east of UTC. *)
Definition Asia_Kolkata : Z := 19800000.

(* ================================================================== *)
(** * JavaScript values and responses *)
(* ================================================================== *)

(** Truthiness of a possibly missing string. *)
Definition truthy (o : option string) : bool :=
  match o with
  | Some s => negb (String.eqb s "")
  | None => false
  end.

(** [o || d] for a possibly missing string [o]. *)
Definition or_default (o : option string) (d : string) : string :=
  match o with
  | Some s => if String.eqb s "" then d else s
  | None => d
  end.

(** [o1 || o2] where both may be missing. *)
Definition or_opt (o1 o2 : option string) : option string :=
  if truthy o1 then o1 else o2.

(** A field of a parsed JSON body that the code renders as text or
    hands to the store. There a [null] and a field that is missing
    ([undefined] once read) are not the same: a template literal and
    [String()] render them differently, and Prisma writes a [null] but
    skips an [undefined]. *)
Inductive Field : Type :=
| Missing
| Null
| Text (s : string).

(** The column value [create] stores for a field. *)
Definition nullable (v : Field) : option string :=
  match v with Text s => Some s | Null | Missing => None end.

(** [hay.includes(needle)]. *)
Fixpoint includes (hay needle : string) : bool :=
  String.prefix needle hay ||
  match hay with
  | EmptyString => false
  | String _ rest => includes rest needle
  end.

(** Membership in a list of string literals, [l.includes(s)]. *)
Definition mem (s : string) (l : list string) : bool :=
  existsb (String.eqb s) l.

Inductive JVal : Type :=
| JString (s : string)
| JBool (b : bool)
| JNumber (n : Z)
| JDate (t : Z)
| JNull
| JUndefined.

(** A nullable column read back from the store. *)
Definition jnullable (o : option string) : JVal :=
  match o with Some s => JString s | None => JNull end.
Definition jnullable_date (o : option Z) : JVal :=
  match o with Some t => JDate t | None => JNull end.
(** An optional property of an SDK object. *)
Definition joptional (o : option string) : JVal :=
  match o with Some s => JString s | None => JUndefined end.

Definition Json : Type := list (string * JVal).

Record Response : Type := mkResponse {
  http_status : Z;
  body : Json
}.

(** [NextResponse.json(body, { status })]; the status defaults to 200. *)
Definition NextResponse_json (b : Json) (status : Z) : Response :=
  mkResponse status b.

(** The value of a key of a JSON body. *)
Fixpoint jget (k : string) (b : Json) : option JVal :=
  match b with
  | [] => None
  | (k', v) :: rest => if String.eqb k k' then Some v else jget k rest
  end.

(* ================================================================== *)
(** * Persistence: the Prisma schema *)
(* ================================================================== *)

(** The generated primary key of [Profile] is read by no route and is
    left out; a subscription's [id] is the key of its updates. *)
Record Profile : Type := mkProfile {
  p_userId : string;
  p_email : string;
  p_subscriptionTier : option string;
  p_subscriptionActive : bool;
  p_stripeSubscriptionId : option string;
  p_createdAt : Z;
  p_updatedAt : Z
}.

Record Subscription : Type := mkSubscription {
  s_id : nat;
  s_userId : string;
  s_planId : string;
  s_razorpaySubscriptionId : option string;
  s_razorpayPaymentId : option string;
  s_status : string;
  s_planType : string;
  s_startDate : option Z;
  s_endDate : option Z;
  s_isRecurring : bool;
  s_createdAt : Z;
  s_updatedAt : Z
}.

(** The two tables, in insertion order, and the next generated row
    identifier. *)
Record DB : Type := mkDB {
  profiles : list Profile;
  subscriptions : list Subscription;
  next_id : nat
}.

(* ================================================================== *)
(** * The payment provider *)
(* ================================================================== *)

Record Notes : Type := mkNotes {
  n_userId : option string;
  n_planType : option string;
  n_email : option string
}.

Record RazorpaySubscription : Type := mkRzp {
  r_id : string;
  r_plan_id : string;
  r_status : string;
  r_short_url : option string;
  r_total_count : Z;
  r_notes : option Notes
}.

(** [subscription.notes?.f]. *)
Definition note (f : Notes -> option string) (r : RazorpaySubscription)
  : option string :=
  match r_notes r with Some n => f n | None => None end.

Record CreateParams : Type := mkCreate {
  c_plan_id : string;
  c_total_count : Z;
  c_customer_notify : Z;
  c_notes : Notes
}.

Inductive RzpCall : Type :=
| Fetch (id : string)
| Cancel (id : string)
| Create (p : CreateParams).

(** The result of a computation that may throw; an exception is its
    message. *)
Inductive outcome (A : Type) : Type :=
| Ret (a : A)
| Throw (msg : string).
Arguments Ret {A} a.
Arguments Throw {A} msg.

(** What the provider answers to each SDK call. *)
Record Razorpay : Type := mkRazorpay {
  rzp_fetch : string -> outcome (option RazorpaySubscription);
  rzp_cancel : string -> outcome RazorpaySubscription;
  rzp_create : CreateParams -> outcome RazorpaySubscription
}.

(* ================================================================== *)
(** * Handlers as state transformers that may throw *)
(* ================================================================== *)

(** The world a handler acts on: the store and the calls sent to the
    provider so far (most recent last). Nothing is transactional: what
    was written before an exception stays written. *)
Record World : Type := mkWorld {
  db : DB;
  rzp_calls : list RzpCall
}.

Definition M (A : Type) : Type := World -> outcome A * World.

Definition ret {A} (a : A) : M A := fun w => (Ret a, w).
Definition throw {A} (msg : string) : M A := fun w => (Throw msg, w).
Definition bind {A B} (m : M A) (k : A -> M B) : M B :=
  fun w =>
    match m w with
    | (Ret a, w') => k a w'
    | (Throw e, w') => (Throw e, w')
    end.
Definition try_catch {A} (m : M A) (handler : string -> M A) : M A :=
  fun w =>
    match m w with
    | (Ret a, w') => (Ret a, w')
    | (Throw e, w') => handler e w'
    end.

Declare Scope handler_scope.
Delimit Scope handler_scope with handler.
Notation "x <- m ;; k" := (bind m (fun x => k))
  (at level 61, m at next level, right associativity) : handler_scope.
Notation "m ;;; k" := (bind m (fun _ => k))
  (at level 61, right associativity) : handler_scope.
Local Open Scope handler_scope.

Definition get_db : M DB := fun w => (Ret (db w), w).
Definition put_db (d : DB) : M unit :=
  fun w => (Ret tt, mkWorld d (rzp_calls w)).
Definition log_call (c : RzpCall) : M unit :=
  fun w => (Ret tt, mkWorld (db w) (rzp_calls w ++ [c])).
Definition lift {A} (o : outcome A) : M A := fun w => (o, w).

(** ** SDK calls *)

Definition subscriptions_fetch (rzp : Razorpay) (id : string)
  : M (option RazorpaySubscription) :=
  log_call (Fetch id) ;;; lift (rzp_fetch rzp id).
Definition subscriptions_cancel (rzp : Razorpay) (id : string)
  : M RazorpaySubscription :=
  log_call (Cancel id) ;;; lift (rzp_cancel rzp id).
Definition subscriptions_create (rzp : Razorpay) (p : CreateParams)
  : M RazorpaySubscription :=
  log_call (Create p) ;;; lift (rzp_create rzp p).

(** Reading the property [property] of a value that may not be there
    ([razorpaySubscription.status], [payload.entity]): a [TypeError]
    when it is [undefined], with the message Node.js gives (for a
    value that is [null] the message says [null] where this one says
    [undefined]; the properties below do not depend on the text). *)
Definition TypeError_reading (property : string) : string :=
  "Cannot read properties of undefined (reading '" ++ property ++ "')".
Definition deref {A} (property : string) (o : option A) : M A :=
  match o with
  | Some a => ret a
  | None => throw (TypeError_reading property)
  end.

(* ================================================================== *)
(** * Prisma client operations *)
(* ================================================================== *)

(** Messages of the exceptions Prisma throws. *)
Definition P2025 : string := "Record to update not found.".
Definition P2002 : string := "Unique constraint failed".
Definition P2003 : string := "Foreign key constraint failed".
(** The client refuses a call whose arguments do not fit the schema
    before anything is sent to the store. *)
Definition PrismaValidationError : string := "Argument is missing.".

Definition opt_eqb (a b : option string) : bool :=
  match a, b with
  | Some x, Some y => String.eqb x y
  | None, None => true
  | _, _ => false
  end.

(** [where: { razorpaySubscriptionId: rid }]. *)
Definition has_rid (rid : string) (s : Subscription) : bool :=
  opt_eqb (s_razorpaySubscriptionId s) (Some rid).

(** [endDate: { gte: now }]: a null end date satisfies no comparison. *)
Definition endDate_gte (now : Z) (s : Subscription) : bool :=
  match s_endDate s with
  | Some e => now <=? e
  | None => false
  end.

(** The row [orderBy: { createdAt: 'desc' }] puts first; among rows
    created at the same instant, the one stored first. *)
Fixpoint most_recent (l : list Subscription) : option Subscription :=
  match l with
  | [] => None
  | s :: rest =>
      match most_recent rest with
      | None => Some s
      | Some s' => if s_createdAt s' <=? s_createdAt s then Some s else Some s'
      end
  end.

Module prisma.

(** ** Field updates ([data: { ... }]) *)

Definition set_status (st : string) (s : Subscription) : Subscription :=
  mkSubscription (s_id s) (s_userId s) (s_planId s)
    (s_razorpaySubscriptionId s) (s_razorpayPaymentId s) st (s_planType s)
    (s_startDate s) (s_endDate s) (s_isRecurring s) (s_createdAt s)
    (s_updatedAt s).

Definition set_dates (start finish : Z) (s : Subscription) : Subscription :=
  mkSubscription (s_id s) (s_userId s) (s_planId s)
    (s_razorpaySubscriptionId s) (s_razorpayPaymentId s) (s_status s)
    (s_planType s) (Some start) (Some finish) (s_isRecurring s)
    (s_createdAt s) (s_updatedAt s).

(** A field whose value is [undefined] is left as it is. *)
Definition set_paymentId (pid : option string) (s : Subscription)
  : Subscription :=
  mkSubscription (s_id s) (s_userId s) (s_planId s)
    (s_razorpaySubscriptionId s)
    (match pid with Some _ => pid | None => s_razorpayPaymentId s end)
    (s_status s) (s_planType s)
    (s_startDate s) (s_endDate s) (s_isRecurring s) (s_createdAt s)
    (s_updatedAt s).

(** [razorpayPaymentId: v] for a field of a request body: a string
    or [null] is written, [undefined] leaves the column as it is. *)
Definition set_paymentId_field (v : Field) (s : Subscription)
  : Subscription :=
  match v with
  | Text p => set_paymentId (Some p) s
  | Null =>
      mkSubscription (s_id s) (s_userId s) (s_planId s)
        (s_razorpaySubscriptionId s) None (s_status s) (s_planType s)
        (s_startDate s) (s_endDate s) (s_isRecurring s) (s_createdAt s)
        (s_updatedAt s)
  | Missing => s
  end.

(** The [@updatedAt] column is written by every update. *)
Definition touch (now : Z) (s : Subscription) : Subscription :=
  mkSubscription (s_id s) (s_userId s) (s_planId s)
    (s_razorpaySubscriptionId s) (s_razorpayPaymentId s) (s_status s)
    (s_planType s) (s_startDate s) (s_endDate s) (s_isRecurring s)
    (s_createdAt s) now.

Definition p_set_active (b : bool) (p : Profile) : Profile :=
  mkProfile (p_userId p) (p_email p) (p_subscriptionTier p) b
    (p_stripeSubscriptionId p) (p_createdAt p) (p_updatedAt p).

Definition p_set_tier (t : option string) (p : Profile) : Profile :=
  mkProfile (p_userId p) (p_email p) t (p_subscriptionActive p)
    (p_stripeSubscriptionId p) (p_createdAt p) (p_updatedAt p).

Definition p_set_stripe (x : option string) (p : Profile) : Profile :=
  mkProfile (p_userId p) (p_email p) (p_subscriptionTier p)
    (p_subscriptionActive p) x (p_createdAt p) (p_updatedAt p).

Definition p_touch (now : Z) (p : Profile) : Profile :=
  mkProfile (p_userId p) (p_email p) (p_subscriptionTier p)
    (p_subscriptionActive p) (p_stripeSubscriptionId p) (p_createdAt p) now.

(** ** Subscription *)

(** The fields a [create] call supplies; the rest take their defaults
    (generated id, null dates and payment reference, both timestamps
    set to the current time). *)
Record SubscriptionCreate : Type := mkSubCreate {
  sc_userId : string;
  sc_planId : string;
  sc_razorpaySubscriptionId : string;
  sc_razorpayPaymentId : option string;
  sc_status : string;
  sc_planType : string;
  sc_startDate : option Z;
  sc_endDate : option Z;
  sc_isRecurring : bool
}.

Definition findFirst (P : Subscription -> bool) : M (option Subscription) :=
  d <- get_db ;; ret (find P (subscriptions d)).

(** [findFirst] with [orderBy: { createdAt: 'desc' }]. *)
Definition findFirst_desc (P : Subscription -> bool)
  : M (option Subscription) :=
  d <- get_db ;; ret (most_recent (filter P (subscriptions d))).

Definition findUnique (rid : string) : M (option Subscription) :=
  findFirst (has_rid rid).

(** [updateMany]: every matching row is written; no row is no error. *)
Definition updateMany (now : Z) (P : Subscription -> bool)
    (data : Subscription -> Subscription) : M unit :=
  d <- get_db ;;
  put_db (mkDB (profiles d)
               (map (fun s => if P s then touch now (data s) else s)
                    (subscriptions d))
               (next_id d)).

(** [update]: throws when no row matches. *)
Definition update (now : Z) (P : Subscription -> bool)
    (data : Subscription -> Subscription) : M unit :=
  d <- get_db ;;
  if existsb P (subscriptions d) then updateMany now P data
  else throw P2025.

Definition update_by_id (now : Z) (id : nat) :=
  update now (fun s => Nat.eqb (s_id s) id).

(** [create]: the foreign key to [Profile.userId] and the unique
    index on [razorpaySubscriptionId] are checked by the store. *)
Definition create (now : Z) (c : SubscriptionCreate) : M unit :=
  d <- get_db ;;
  if negb (existsb (fun p => String.eqb (p_userId p) (sc_userId c))
                   (profiles d))
  then throw P2003
  else if existsb (has_rid (sc_razorpaySubscriptionId c)) (subscriptions d)
  then throw P2002
  else
    put_db (mkDB (profiles d)
              (subscriptions d ++
               [mkSubscription (next_id d) (sc_userId c) (sc_planId c)
                  (Some (sc_razorpaySubscriptionId c))
                  (sc_razorpayPaymentId c) (sc_status c) (sc_planType c)
                  (sc_startDate c) (sc_endDate c) (sc_isRecurring c)
                  now now])
              (S (next_id d))).

(** [upsert] on [razorpaySubscriptionId]. *)
Definition upsert (now : Z) (rid : string)
    (data : Subscription -> Subscription) (c : SubscriptionCreate)
  : M unit :=
  d <- get_db ;;
  if existsb (has_rid rid) (subscriptions d)
  then updateMany now (has_rid rid) data
  else create now c.

(** ** Profile *)

Definition has_userId (uid : string) (p : Profile) : bool :=
  String.eqb (p_userId p) uid.

Definition profile_findUnique (uid : string) : M (option Profile) :=
  d <- get_db ;; ret (find (has_userId uid) (profiles d)).

(** Whether another user's profile already holds the reference [x]
    (the unique index on [stripeSubscriptionId]; nulls never clash). *)
Definition stripe_taken (uid : string) (x : option string)
    (ps : list Profile) : bool :=
  match x with
  | None => false
  | Some _ =>
      existsb (fun p => negb (has_userId uid p) &&
                        opt_eqb (p_stripeSubscriptionId p) x) ps
  end.

(** [profile.update] on [userId]: throws when the row is missing, or
    when the reference it writes is a new one that is taken. *)
Definition profile_update (now : Z) (uid : string)
    (data : Profile -> Profile) : M unit :=
  d <- get_db ;;
  match find (has_userId uid) (profiles d) with
  | None => throw P2025
  | Some p =>
      if negb (opt_eqb (p_stripeSubscriptionId (data p))
                       (p_stripeSubscriptionId p)) &&
         stripe_taken uid (p_stripeSubscriptionId (data p)) (profiles d)
      then throw P2002
      else
        put_db (mkDB (map (fun p => if has_userId uid p
                                    then p_touch now (data p) else p)
                          (profiles d))
                     (subscriptions d) (next_id d))
  end.

(** [profile.create]: the unique index on [userId] is checked by the
    store (a null [stripeSubscriptionId] clashes with nothing). *)
Definition profile_create (now : Z) (uid email : string)
    (active : bool) (tier stripe : option string) : M unit :=
  d <- get_db ;;
  if existsb (has_userId uid) (profiles d) then throw P2002
  else if stripe_taken uid stripe (profiles d) then throw P2002
  else
    put_db (mkDB (profiles d ++
                  [mkProfile uid email tier active stripe now now])
                 (subscriptions d) (next_id d)).

End prisma.

(* ================================================================== *)
(** * Environment *)
(* ================================================================== *)

(** [process.env]. *)
Record Env : Type := mkEnv {
  RAZORPAY_PRICE_WEEKLY : option string;
  RAZORPAY_PRICE_MONTHLY : option string;
  RAZORPAY_PRICE_YEARLY : option string;
  RAZORPAY_WEBHOOK_SECRET : option string;
  RAZORPAY_KEY_SECRET : option string;
  NEXT_PUBLIC_APP_URL : option string
}.

(** [priceIdMap[planType]]. *)
Definition getPriceIdFromType (env : Env) (planType : string) : option string :=
  if String.eqb planType "week" then RAZORPAY_PRICE_WEEKLY env
  else if String.eqb planType "month" then RAZORPAY_PRICE_MONTHLY env
  else if String.eqb planType "year" then RAZORPAY_PRICE_YEARLY env
  else None.

(** [request.headers.get('origin') || process.env.NEXT_PUBLIC_APP_URL
    || 'http://localhost:3000']. *)
Definition resolve_origin (env : Env) (origin_header : option string) : string :=
  or_default (or_opt origin_header (NEXT_PUBLIC_APP_URL env))
             "http://localhost:3000".

(** [error.message || fallback]. *)
Definition message_or (e fallback : string) : string :=
  if String.eqb e "" then fallback else e.

(* ================================================================== *)
(** * POST /api/create-profile *)
(* ================================================================== *)

(** What [currentUser()] returns for a signed-in identity. *)
Record ClerkUser : Type := mkClerkUser {
  clerk_id : string;
  emailAddresses : list string
}.

Definition create_profile_POST (now : Z) (clerkUser : option ClerkUser)
  : M Response :=
  try_catch
    (match clerkUser with
     | None =>
         ret (NextResponse_json
                [("error", JString "User not found in Clerk.")] 404)
     | Some u =>
         let email := hd "" (emailAddresses u) in
         if String.eqb email "" then
           ret (NextResponse_json
                  [("error", JString "User does not have an email address.")]
                  400)
         else
           existingProfile <- prisma.profile_findUnique (clerk_id u) ;;
           match existingProfile with
           | Some _ =>
               ret (NextResponse_json
                      [("message", JString "Profile already exists.")] 200)
           | None =>
               prisma.profile_create now (clerk_id u) email false None None ;;;
               ret (NextResponse_json
                      [("message", JString "Profile created successfully.")]
                      201)
           end
     end)
    (fun errorMessage =>
       ret (NextResponse_json [("error", JString errorMessage)] 500)).

(* ================================================================== *)
(** * GET /api/check-subscription (subscription status query) *)
(* ================================================================== *)

Definition active_family : list string := ["active"; "completed"].
Definition pending_family : list string := ["created"; "authenticated"; "pending"].

(** The [where] clauses of the two queries. *)
Definition active_query (userId : string) (now : Z) (s : Subscription) : bool :=
  String.eqb (s_userId s) userId && mem (s_status s) active_family &&
  endDate_gte now s.
Definition pending_query (userId : string) (s : Subscription) : bool :=
  String.eqb (s_userId s) userId && mem (s_status s) pending_family.

Definition inactive_shape : Response :=
  NextResponse_json [("isActive", JBool false); ("isPending", JBool false)] 200.

(** The body of the inner [try]: [Some r] when it returns [r], [None]
    when control falls out of it. *)
Definition check_pending (rzp : Razorpay) (now : Z) (userId : string)
    (pendingSubscription : Subscription) : M (option Response) :=
  fetched <- subscriptions_fetch rzp
               (or_default (s_razorpaySubscriptionId pendingSubscription) "") ;;
  razorpaySubscription <- deref "status" fetched ;;
  if String.eqb (r_status razorpaySubscription) "active" ||
     String.eqb (r_status razorpaySubscription) "completed"
  then
    prisma.update_by_id now (s_id pendingSubscription)
      (fun s => prisma.set_dates now
                  (calculateEndDate now (s_planType pendingSubscription))
                  (prisma.set_status "active" s)) ;;;
    prisma.profile_update now userId
      (fun p => prisma.p_set_tier (Some (s_planType pendingSubscription))
                  (prisma.p_set_active true p)) ;;;
    ret (Some (NextResponse_json
                 [("isActive", JBool true);
                  ("isPending", JBool false);
                  ("subscriptionTier", JString (s_planType pendingSubscription));
                  ("subscriptionId",
                   jnullable (s_razorpaySubscriptionId pendingSubscription));
                  ("isRecurring", JBool (s_isRecurring pendingSubscription))]
                 200))
  else if mem (r_status razorpaySubscription) pending_family
  then
    ret (Some (NextResponse_json
                 [("isActive", JBool false);
                  ("isPending", JBool true);
                  ("pendingSubscriptionId",
                   jnullable (s_razorpaySubscriptionId pendingSubscription));
                  ("pendingPlanType", JString (s_planType pendingSubscription))]
                 200))
  else
    prisma.update_by_id now (s_id pendingSubscription)
      (prisma.set_status (r_status razorpaySubscription)) ;;;
    ret None.

Definition check_subscription_GET (rzp : Razorpay) (now : Z)
    (userId : option string) : M Response :=
  try_catch
    (if negb (truthy userId) then
       ret (NextResponse_json [("error", JString "User ID is required")] 400)
     else
       let userId := or_default userId "" in
       activeSubscription <-
         prisma.findFirst_desc (active_query userId now) ;;
       match activeSubscription with
       | Some a =>
           ret (NextResponse_json
                  [("isActive", JBool true);
                   ("isPending", JBool false);
                   ("subscriptionTier", JString (s_planType a));
                   ("subscriptionId", jnullable (s_razorpaySubscriptionId a));
                   ("endDate", jnullable_date (s_endDate a));
                   ("isRecurring", JBool false)]
                  200)
       | None =>
           pendingSubscription <-
             prisma.findFirst_desc (pending_query userId) ;;
           early <-
             match pendingSubscription with
             | Some p =>
                 try_catch (check_pending rzp now userId p)
                           (fun _ => ret None)
             | None => ret None
             end ;;
           match early with
           | Some r => ret r
           | None => ret inactive_shape
           end
       end)
    (fun e =>
       ret (NextResponse_json
              [("error",
                JString (message_or e "Failed to check subscription status"))]
              500)).

(* ================================================================== *)
(** * POST /api/checkout (subscription creation) *)
(* ================================================================== *)

(** The parsed JSON body [{ planType, userId, email }]. *)
Record CheckoutRequest : Type := mkCheckoutRequest {
  co_planType : option string;
  co_userId : option string;
  co_email : option string;
  co_origin : option string
}.

Definition allowedPlans : list string := ["week"; "month"; "year"].

(** The [where] clause guarding a second paid period. *)
Definition has_active_period (userId : string) (now : Z) (s : Subscription)
  : bool :=
  String.eqb (s_userId s) userId && String.eqb (s_status s) "active" &&
  endDate_gte now s.

Definition checkout_POST (env : Env) (rzp : Razorpay) (now : Z)
    (req : CheckoutRequest) : M Response :=
  try_catch
    (if negb (truthy (co_planType req)) || negb (truthy (co_userId req)) ||
        negb (truthy (co_email req))
     then
       ret (NextResponse_json
              [("error", JString "Plan Type, userId and email are required")]
              400)
     else
       let planType := or_default (co_planType req) "" in
       let userId := or_default (co_userId req) "" in
       let email := or_default (co_email req) "" in
       if negb (mem planType allowedPlans) then
         ret (NextResponse_json [("error", JString "Invalid plan type")] 400)
       else
         let priceId := getPriceIdFromType env planType in
         if negb (truthy priceId) then
           ret (NextResponse_json [("error", JString "Invalid price id")] 400)
         else
           activeSubscription <-
             prisma.findFirst (has_active_period userId now) ;;
           match activeSubscription with
           | Some a =>
               ret (NextResponse_json
                      [("error", JString
                          "You already have an active subscription. You cannot subscribe to a different plan. Please wait until your current subscription expires.");
                       ("currentPlan", JString (s_planType a));
                       ("endDate", jnullable_date (s_endDate a))]
                      400)
           | None =>
               subscription <-
                 subscriptions_create rzp
                   (mkCreate (or_default priceId "") 1 1
                      (mkNotes (Some userId) (Some planType) (Some email))) ;;
               let origin := resolve_origin env (co_origin req) in
               let callbackUrl :=
                 origin ++ "/subscribe?sessionId=" ++ r_id subscription in
               prisma.create now
                 (prisma.mkSubCreate userId (r_plan_id subscription)
                    (r_id subscription) None (r_status subscription) planType
                    None None false) ;;;
               ret (NextResponse_json
                      [("subscriptionId", JString (r_id subscription));
                       ("planId", JString (r_plan_id subscription));
                       ("status", JString (r_status subscription));
                       ("url", joptional (r_short_url subscription));
                       ("callbackUrl", JString callbackUrl)]
                      200)
           end)
    (fun _ =>
       ret (NextResponse_json
              [("error", JString "Failed to create subscription session")]
              500)).

(* ================================================================== *)
(** * POST /api/cancel-subscription *)
(* ================================================================== *)

(** The parsed JSON body [{ subscriptionId, userId }]. *)
Record SubscriptionRequest : Type := mkSubscriptionRequest {
  sr_subscriptionId : option string;
  sr_userId : option string;
  sr_origin : option string
}.

(** [where: { razorpaySubscriptionId: subscriptionId, userId }]. *)
Definition owned_by (subscriptionId userId : string) (s : Subscription) : bool :=
  has_rid subscriptionId s && String.eqb (s_userId s) userId.

(** [data] of the profile update that revokes access. *)
Definition deactivate (p : Profile) : Profile :=
  prisma.p_set_tier None (prisma.p_set_stripe None (prisma.p_set_active false p)).

Definition completed_message : Response :=
  NextResponse_json
    [("success", JBool true);
     ("message", JString
        "Subscription is completed. Your access will remain until the end date.")]
    200.

(** The first inner [try]: ask the provider for the status, and settle
    a subscription it reports completed. *)
Definition cancel_check_completed (rzp : Razorpay) (now : Z)
    (subscriptionId userId : string) (subscription : Subscription)
  : M (option Response) :=
  fetched <- subscriptions_fetch rzp subscriptionId ;;
  razorpaySubscription <- deref "status" fetched ;;
  if String.eqb (r_status razorpaySubscription) "completed" then
    prisma.update_by_id now (s_id subscription)
      (prisma.set_status "cancelled") ;;;
    prisma.profile_update now userId deactivate ;;;
    ret (Some completed_message)
  else ret None.

(** The second inner [try] with its [catch]. *)
Definition cancel_at_provider (rzp : Razorpay) (now : Z)
    (subscriptionId userId : string) (subscription : Subscription)
  : M Response :=
  try_catch
    (subscriptions_cancel rzp subscriptionId ;;;
     prisma.update_by_id now (s_id subscription)
       (prisma.set_status "cancelled") ;;;
     prisma.profile_update now userId deactivate ;;;
     ret (NextResponse_json
            [("success", JBool true);
             ("message", JString "Subscription cancelled successfully")]
            200))
    (fun message =>
       if includes message "completed" ||
          includes message "already been processed"
       then
         prisma.update_by_id now (s_id subscription)
           (prisma.set_status "cancelled") ;;;
         ret completed_message
       else throw message).

Definition cancel_subscription_POST (rzp : Razorpay) (now : Z)
    (req : SubscriptionRequest) : M Response :=
  try_catch
    (if negb (truthy (sr_subscriptionId req)) || negb (truthy (sr_userId req))
     then
       ret (NextResponse_json
              [("error", JString "Subscription ID and user ID are required")]
              400)
     else
       let subscriptionId := or_default (sr_subscriptionId req) "" in
       let userId := or_default (sr_userId req) "" in
       found <- prisma.findFirst (owned_by subscriptionId userId) ;;
       match found with
       | None =>
           ret (NextResponse_json
                  [("error", JString
                      "Subscription not found or does not belong to this user")]
                  404)
       | Some subscription =>
           early <-
             try_catch
               (cancel_check_completed rzp now subscriptionId userId
                  subscription)
               (fun _ => ret None) ;;
           match early with
           | Some r => ret r
           | None =>
               cancel_at_provider rzp now subscriptionId userId subscription
           end
       end)
    (fun e =>
       ret (NextResponse_json
              [("success", JBool false);
               ("error", JString (message_or e "Failed to cancel subscription"))]
              500)).

(* ================================================================== *)
(** * HMAC-SHA256, as [crypto.createHmac("sha256", key)] computes it *)
(* ================================================================== *)

Module SHA256.

Definition mask32 : Z := 0xffffffff.
Definition add32 (a b : Z) : Z := Z.land (a + b) mask32.
Definition rotr (n x : Z) : Z :=
  Z.lor (Z.shiftr x n) (Z.land (Z.shiftl x (32 - n)) mask32).
Definition xor3 (a b c : Z) : Z := Z.lxor (Z.lxor a b) c.

Definition Ch (x y z : Z) : Z :=
  Z.lxor (Z.land x y) (Z.land (Z.lxor x mask32) z).
Definition Maj (x y z : Z) : Z :=
  xor3 (Z.land x y) (Z.land x z) (Z.land y z).
Definition Sigma0 (x : Z) : Z := xor3 (rotr 2 x) (rotr 13 x) (rotr 22 x).
Definition Sigma1 (x : Z) : Z := xor3 (rotr 6 x) (rotr 11 x) (rotr 25 x).
Definition sigma0 (x : Z) : Z := xor3 (rotr 7 x) (rotr 18 x) (Z.shiftr x 3).
Definition sigma1 (x : Z) : Z := xor3 (rotr 17 x) (rotr 19 x) (Z.shiftr x 10).

(** The constants of FIPS 180-4: the first 32 bits of the fractional
    parts of the cube roots (round constants) and of the square roots
    (initial hash value) of the first primes. *)
Definition is_prime (n : Z) : bool :=
  forallb (fun d => (n <? d * d) || negb (n mod d =? 0))
          (map Z.of_nat (seq 2 (Z.to_nat n - 2))).

Definition primes : list Z :=
  filter is_prime (map Z.of_nat (seq 2 310)).

(** The integer cube root, by bisection between [lo] and [hi]. *)
Fixpoint cbrt_between (fuel : nat) (lo hi n : Z) : Z :=
  match fuel with
  | O => lo
  | S fuel' =>
      let mid := (lo + hi) / 2 in
      if mid * mid * mid <=? n then cbrt_between fuel' mid hi n
      else cbrt_between fuel' lo mid n
  end.

Definition fractional_cbrt (p : Z) : Z :=
  cbrt_between 40 0 (2 ^ 36) (p * 2 ^ 96) mod 2 ^ 32.

Definition fractional_sqrt (p : Z) : Z :=
  Z.sqrt (p * 2 ^ 64) mod 2 ^ 32.

Definition K : list Z := Eval vm_compute in map fractional_cbrt primes.

Definition H0 : list Z :=
  Eval vm_compute in map fractional_sqrt (firstn 8 primes).

(** The bytes of a string (its UTF-8 encoding is the string itself). *)
Fixpoint bytes_of (s : string) : list Z :=
  match s with
  | EmptyString => []
  | String c rest => Z.of_N (N_of_ascii c) :: bytes_of rest
  end.

(** Padding: a one bit, zeros up to 56 modulo 64, then the length in
    bits as a 64-bit big-endian number. *)
Definition be_bytes (n : nat) (x : Z) : list Z :=
  map (fun i => Z.land (Z.shiftr x (8 * Z.of_nat i)) 0xff) (rev (seq 0 n)).
Definition pad (msg : list Z) : list Z :=
  let len := Z.of_nat (List.length msg) in
  (msg ++ [0x80] ++ repeat 0 (Z.to_nat ((55 - len) mod 64)) ++
   be_bytes 8 (8 * len))%list.

Fixpoint words (l : list Z) : list Z :=
  match l with
  | a :: b :: c :: d :: rest =>
      Z.lor (Z.shiftl a 24) (Z.lor (Z.shiftl b 16) (Z.lor (Z.shiftl c 8) d))
      :: words rest
  | _ => []
  end.

Fixpoint blocks (fuel : nat) (ws : list Z) : list (list Z) :=
  match fuel, ws with
  | S fuel', _ :: _ => firstn 16 ws :: blocks fuel' (skipn 16 ws)
  | _, _ => []
  end.

(** The message schedule, most recent word first. *)
Fixpoint schedule (n : nat) (r : list Z) : list Z :=
  match n with
  | O => r
  | S n' =>
      schedule n'
        (add32 (add32 (sigma1 (nth 1 r 0)) (nth 6 r 0))
               (add32 (sigma0 (nth 14 r 0)) (nth 15 r 0)) :: r)
  end.

Definition round (st : list Z) (kw : Z * Z) : list Z :=
  match st with
  | [a; b; c; d; e; f; g; h] =>
      let T1 := add32 (add32 (add32 h (Sigma1 e)) (Ch e f g))
                      (add32 (fst kw) (snd kw)) in
      let T2 := add32 (Sigma0 a) (Maj a b c) in
      [add32 T1 T2; a; b; c; add32 d T1; e; f; g]
  | _ => st
  end.

Definition compress (h : list Z) (block : list Z) : list Z :=
  let W := rev (schedule 48 (rev block)) in
  let st := fold_left round (combine K W) h in
  map (fun p => add32 (fst p) (snd p)) (combine h st).

(** The 32 bytes of the digest. *)
Definition digest (msg : list Z) : list Z :=
  let ws := words (pad msg) in
  flat_map (be_bytes 4) (fold_left compress (blocks (List.length ws) ws) H0).

Definition hex_digit (n : Z) : string :=
  String.substring (Z.to_nat n) 1 "0123456789abcdef".
Definition hex (bytes : list Z) : string :=
  fold_right (fun b acc => hex_digit (Z.shiftr b 4) ++
                           hex_digit (Z.land b 0xf) ++ acc) "" bytes.

(** HMAC (RFC 2104) with a 64-byte block. *)
Definition hmac (key msg : list Z) : list Z :=
  let key' :=
    if 64 <? Z.of_nat (List.length key) then digest key else key in
  let key'' := (key' ++ repeat 0 (64 - List.length key'))%list in
  let ipad := map (Z.lxor 0x36) key'' in
  let opad := map (Z.lxor 0x5c) key'' in
  digest (opad ++ digest (ipad ++ msg))%list.

End SHA256.

(** [crypto.createHmac("sha256", key).update(data).digest("hex")]. *)
Definition createHmac_sha256_hex (key data : string) : string :=
  SHA256.hex (SHA256.hmac (SHA256.bytes_of key) (SHA256.bytes_of data)).

(** A field interpolated in a template literal ([`${v}`]) or passed
    to [String()]. *)
Definition interpolate (v : Field) : string :=
  match v with
  | Text s => s
  | Null => "null"
  | Missing => "undefined"
  end.

(* ================================================================== *)
(** * POST /api/resume-payment *)
(* ================================================================== *)

Definition resume_payment_POST (env : Env) (rzp : Razorpay) (now : Z)
    (req : SubscriptionRequest) : M Response :=
  try_catch
    (if negb (truthy (sr_subscriptionId req)) || negb (truthy (sr_userId req))
     then
       ret (NextResponse_json
              [("error", JString "Subscription ID and user ID are required")]
              400)
     else
       let subscriptionId := or_default (sr_subscriptionId req) "" in
       let userId := or_default (sr_userId req) "" in
       found <- prisma.findFirst (owned_by subscriptionId userId) ;;
       match found with
       | None =>
           ret (NextResponse_json
                  [("error", JString "Subscription not found in our records")]
                  404)
       | Some subscriptionRecord =>
           fetched <- subscriptions_fetch rzp subscriptionId ;;
           match fetched with
           | None =>
               ret (NextResponse_json
                      [("error", JString "Subscription not found in Razorpay")]
                      404)
           | Some subscription =>
               if negb (opt_eqb (note n_userId subscription) (Some userId))
               then
                 ret (NextResponse_json
                        [("error", JString
                            "Subscription does not belong to this user")]
                        403)
               else if String.eqb (r_status subscription) "active" then
                 prisma.update_by_id now (s_id subscriptionRecord)
                   (prisma.set_status "active") ;;;
                 prisma.profile_update now userId
                   (fun p => prisma.p_set_tier
                               (Some (s_planType subscriptionRecord))
                               (prisma.p_set_active true p)) ;;;
                 ret (NextResponse_json
                        [("message", JString "Subscription is already active");
                         ("url", JString "/mealplan")]
                        200)
               else if String.eqb (r_status subscription) "cancelled" ||
                       String.eqb (r_status subscription) "expired"
               then
                 let planId := r_plan_id subscription in
                 let planType :=
                   or_default (note n_planType subscription) "month" in
                 let email := or_default (note n_email subscription) "" in
                 newSubscription <-
                   subscriptions_create rzp
                     (mkCreate planId (r_total_count subscription) 1
                        (mkNotes (Some userId) (Some planType) (Some email))) ;;
                 prisma.create now
                   (prisma.mkSubCreate userId planId (r_id newSubscription)
                      None (r_status newSubscription) planType None None
                      ((1 <? r_total_count newSubscription) ||
                       (r_total_count newSubscription =? 0))) ;;;
                 let origin := resolve_origin env (sr_origin req) in
                 let callbackUrl :=
                   origin ++ "/subscribe?sessionId=" ++ r_id newSubscription in
                 ret (NextResponse_json
                        [("url", JString
                            (or_default (r_short_url newSubscription) ""));
                         ("callbackUrl", JString callbackUrl);
                         ("message", JString
                            "New subscription created successfully");
                         ("subscriptionId", JString (r_id newSubscription))]
                        200)
               else if mem (r_status subscription) pending_family then
                 let origin := resolve_origin env (sr_origin req) in
                 let callbackUrl :=
                   origin ++ "/subscribe?sessionId=" ++ r_id subscription in
                 ret (NextResponse_json
                        [("url", JString
                            (or_default (r_short_url subscription) ""));
                         ("callbackUrl", JString callbackUrl);
                         ("message", JString
                            "Payment URL generated successfully")]
                        200)
               else
                 ret (NextResponse_json
                        [("message", JString
                            ("Subscription status is: " ++
                             r_status subscription ++
                             ". Cannot resume payment at this time."));
                         ("status", JString (r_status subscription))]
                        400)
           end
       end)
    (fun e =>
       ret (NextResponse_json
              [("error", JString (message_or e "Failed to resume payment"))]
              500)).

(* ================================================================== *)
(** * POST /api/verify-payment *)
(* ================================================================== *)

(** The parsed JSON body: either the redirect shape
    [{ sessionId | subscriptionId }] or the signed checkout shape. *)
Record VerifyRequest : Type := mkVerifyRequest {
  vr_sessionId : option string;
  vr_subscriptionId : option string;
  vr_razorpay_payment_id : Field;
  vr_razorpay_subscription_id : Field;
  vr_razorpay_signature : option string;
  vr_userId : Field
}.

(** [data] of the profile update that grants access. *)
Definition activate (tier reference : string) (p : Profile) : Profile :=
  prisma.p_set_stripe (Some reference)
    (prisma.p_set_tier (Some tier) (prisma.p_set_active true p)).

(** The redirect branch, after a session identifier was found in the
    body. *)
Definition verify_redirect (rzp : Razorpay) (now : Z) (sessionId : string)
  : M Response :=
  fetched <- subscriptions_fetch rzp sessionId ;;
  dbsubscritpion <- prisma.findFirst (has_rid sessionId) ;;
  match fetched with
  | None =>
      ret (NextResponse_json
             [("success", JBool false);
              ("error", JString "Subscription not found")] 404)
  | Some subscription =>
      let userId := note n_userId subscription in
      let planType := or_default (note n_planType subscription) "month" in
      if negb (truthy userId) then
        ret (NextResponse_json
               [("success", JBool false);
                ("error", JString "User ID not found in subscription")] 400)
      else if String.eqb (r_status subscription) "created" ||
              String.eqb (r_status subscription) "authenticated"
      then
        ret (NextResponse_json
               [("success", JBool false);
                ("pending", JBool true);
                ("message", JString "Subscription payment is pending");
                ("pendingSubscriptionId", JString (r_id subscription))] 200)
      else if String.eqb (r_status subscription) "cancelled" then
        ret (NextResponse_json
               [("success", JBool false);
                ("message", JString "Payment was not completed");
                ("pendingSubscriptionId", JString (r_id subscription))] 200)
      else if (String.eqb (r_status subscription) "active" ||
               String.eqb (r_status subscription) "completed") &&
              negb (match dbsubscritpion with
                    | Some row => String.eqb (s_status row) "cancelled"
                    | None => false
                    end)
      then
        prisma.upsert now sessionId
          (fun s => prisma.set_dates now
                      (calculateEndDate_verify now (Some planType))
                      (prisma.set_status "active" s))
          (prisma.mkSubCreate (or_default userId "") (r_plan_id subscription)
             (r_id subscription) None "active" planType (Some now)
             (Some (calculateEndDate_verify now (Some planType))) false) ;;;
        prisma.profile_update now (or_default userId "")
          (activate (or_default (Some planType) "month") (r_id subscription)) ;;;
        ret (NextResponse_json
               [("success", JBool true);
                ("message", JString "Subscription verified and activated")]
               200)
      else
        ret (NextResponse_json
               [("success", JBool false);
                ("message", JString
                   ("Subscription status: " ++ r_status subscription));
                ("status", JString (r_status subscription))] 200)
  end.

(** The signed branch: the signature covers
    [razorpay_payment_id|razorpay_subscription_id] under the key
    secret. The SDK is handed the identifier as it is: the provider
    is asked at its rendering, and what the SDK makes of an identifier
    that is not a string is part of the answer. The [where] of the
    upsert takes a string only. *)
Definition verify_signed (env : Env) (rzp : Razorpay) (now : Z)
    (req : VerifyRequest) : M Response :=
  let razorpay_payment_id := vr_razorpay_payment_id req in
  let razorpay_subscription_id := vr_razorpay_subscription_id req in
  let generatedSignature :=
    createHmac_sha256_hex
      (or_default (RAZORPAY_KEY_SECRET env) "")
      (interpolate razorpay_payment_id ++ "|" ++
       interpolate razorpay_subscription_id) in
  if negb (opt_eqb (Some generatedSignature) (vr_razorpay_signature req)) then
    ret (NextResponse_json
           [("success", JBool false); ("error", JString "Invalid signature")]
           400)
  else
    let userId := interpolate (vr_userId req) in
    fetched <- subscriptions_fetch rzp (interpolate razorpay_subscription_id) ;;
    subscription <- deref "notes" fetched ;;
    let planType := or_default (note n_planType subscription) "month" in
    match razorpay_subscription_id with
    | Text sid =>
        prisma.upsert now sid
          (fun s => prisma.set_dates now
                      (calculateEndDate_verify now (Some planType))
                      (prisma.set_paymentId_field razorpay_payment_id
                         (prisma.set_status "active" s)))
          (prisma.mkSubCreate userId (r_plan_id subscription)
             (r_id subscription) (nullable razorpay_payment_id) "active"
             planType (Some now)
             (Some (calculateEndDate_verify now (Some planType))) false) ;;;
        prisma.profile_update now userId
          (activate (or_default (Some planType) "month") sid) ;;;
        ret (NextResponse_json
               [("success", JBool true);
                ("message",
                 JString "Payment verified and subscription activated")]
               200)
    | Null | Missing => throw PrismaValidationError
    end.

(** [requestData] is what [request.json()] yields: it throws when the
    body is not JSON. *)
Definition verify_payment_POST (env : Env) (rzp : Razorpay) (now : Z)
    (requestData : outcome VerifyRequest) : M Response :=
  try_catch
    (req <- lift requestData ;;
     if truthy (vr_sessionId req) || truthy (vr_subscriptionId req) then
       verify_redirect rzp now
         (or_default (or_opt (vr_sessionId req) (vr_subscriptionId req)) "")
     else verify_signed env rzp now req)
    (fun e =>
       ret (NextResponse_json
              [("success", JBool false);
               ("error", JString (message_or e "Failed to verify payment"))]
              500)).

(* ================================================================== *)
(** * POST /api/razorpay-webhook and POST /api/webhook *)
(* ================================================================== *)

(** [payload.entity] of a webhook event. *)
Record RazorpayEntity : Type := mkEntity {
  e_id : string;
  e_plan_id : option string;
  e_notes : option Notes;
  e_subscription_id : option string
}.

(** The parsed body: [event], [payload.subscription] and
    [payload.payment]. *)
Record WebhookData : Type := mkWebhookData {
  wd_event : string;
  wd_subscription : option RazorpayEntity;
  wd_payment : option RazorpayEntity
}.

(** The raw request: its text and its [x-razorpay-signature] header. *)
Record WebhookRequest : Type := mkWebhookRequest {
  wr_body : string;
  wr_signature : option string
}.

(** [(entity.notes || {}).f]. *)
Definition entity_note (f : Notes -> option string) (e : RazorpayEntity)
  : option string :=
  match e_notes e with Some n => f n | None => None end.

(** The upsert both activation handlers perform once their guard has
    passed. A required column whose value is [undefined] makes the
    client reject the call. *)
Definition activate_from_webhook (now : Z) (e : RazorpayEntity) : M unit :=
  let subscriptionId := e_id e in
  let userId := or_default (entity_note n_userId e) "" in
  match entity_note n_planType e, e_plan_id e with
  | Some planType, Some planId =>
      prisma.upsert now subscriptionId
        (fun s => prisma.set_dates now (calculateEndDate now planType)
                    (prisma.set_status "active" s))
        (prisma.mkSubCreate userId planId subscriptionId None "active"
           planType (Some now) (Some (calculateEndDate now planType)) false) ;;;
      prisma.profile_update now userId (activate planType subscriptionId)
  | _, _ => throw PrismaValidationError
  end.

Definition pending_from_webhook (now : Z) (e : RazorpayEntity) : M unit :=
  let subscriptionId := e_id e in
  let userId := or_default (entity_note n_userId e) "" in
  match entity_note n_planType e, e_plan_id e with
  | Some planType, Some planId =>
      prisma.upsert now subscriptionId (prisma.set_status "pending")
        (prisma.mkSubCreate userId planId subscriptionId None "pending"
           planType None None false)
  | _, _ => throw PrismaValidationError
  end.

(** Every handler logs and drops what its [try] block throws. *)
Definition swallow (m : M unit) : M unit := try_catch m (fun _ => ret tt).

(** Handlers of the typed route ([/api/razorpay-webhook]). *)
Module razorpay_webhook.

Definition handleSubscriptionActivated (now : Z) (e : RazorpayEntity)
  : M unit :=
  if negb (truthy (entity_note n_userId e)) ||
     negb (truthy (entity_note n_planType e)) ||
     negb (truthy (e_plan_id e))
  then ret tt
  else swallow (activate_from_webhook now e).

Definition handleSubscriptionPending (now : Z) (e : RazorpayEntity)
  : M unit :=
  if negb (truthy (entity_note n_userId e)) ||
     negb (truthy (entity_note n_planType e)) ||
     negb (truthy (e_plan_id e))
  then ret tt
  else swallow (pending_from_webhook now e).

End razorpay_webhook.

(** Handlers of the untyped route ([/api/webhook]). *)
Module webhook.

Definition handleSubscriptionActivated (now : Z) (e : RazorpayEntity)
  : M unit :=
  if negb (truthy (entity_note n_userId e)) then ret tt
  else swallow (activate_from_webhook now e).

Definition handleSubscriptionPending (now : Z) (e : RazorpayEntity)
  : M unit :=
  if negb (truthy (entity_note n_userId e)) then ret tt
  else swallow (pending_from_webhook now e).

End webhook.

(** Handlers the two routes share word for word. *)
Definition mark_and_deactivate (now : Z) (status : string) (e : RazorpayEntity)
  : M unit :=
  let subscriptionId := e_id e in
  swallow
    (subscription <- prisma.findUnique subscriptionId ;;
     match subscription with
     | None => ret tt
     | Some row =>
         prisma.update now (has_rid subscriptionId)
           (prisma.set_status status) ;;;
         prisma.profile_update now (s_userId row) (prisma.p_set_active false)
     end).

Definition handleSubscriptionHalted (now : Z) (e : RazorpayEntity) : M unit :=
  mark_and_deactivate now "halted" e.

Definition handleSubscriptionCancelled (now : Z) (e : RazorpayEntity) : M unit :=
  mark_and_deactivate now "cancelled" e.

Definition handlePaymentCaptured (now : Z) (e : RazorpayEntity) : M unit :=
  let paymentId := e_id e in
  let subscriptionId := or_default (e_subscription_id e) "" in
  if negb (truthy (e_subscription_id e)) then ret tt
  else
    swallow
      (prisma.updateMany now (has_rid subscriptionId)
         (fun s => prisma.set_status "active"
                     (prisma.set_paymentId (Some paymentId) s))).

Definition handlePaymentFailed (now : Z) (e : RazorpayEntity) : M unit :=
  let subscriptionId := or_default (e_subscription_id e) "" in
  if negb (truthy (e_subscription_id e)) then ret tt
  else
    swallow
      (prisma.updateMany now (has_rid subscriptionId)
         (prisma.set_status "halted") ;;;
       subscription <- prisma.findFirst (has_rid subscriptionId) ;;
       match subscription with
       | Some row =>
           prisma.profile_update now (s_userId row)
             (prisma.p_set_active false)
       | None => ret tt
       end).

Section Webhook.

(** [JSON.parse] followed by the reads of [event] and [payload]: it
    throws on a body that is not JSON or has no [payload]. *)
Variable JSON_parse : string -> outcome WebhookData.

(** Which of the two routes: they differ in the guards of the
    activation and pending handlers. *)
Variable typed : bool.

Definition dispatch (now : Z) (webhookData : WebhookData) : M unit :=
  let payload := match wd_subscription webhookData with
                 | Some e => Some e
                 | None => wd_payment webhookData
                 end in
  let event := wd_event webhookData in
  let with_entity (h : RazorpayEntity -> M unit) : M unit :=
    entity <- deref "entity" payload ;; h entity in
  if String.eqb event "subscription.activated" then
    with_entity (if typed
                 then razorpay_webhook.handleSubscriptionActivated now
                 else webhook.handleSubscriptionActivated now)
  else if String.eqb event "subscription.pending" then
    with_entity (if typed
                 then razorpay_webhook.handleSubscriptionPending now
                 else webhook.handleSubscriptionPending now)
  else if String.eqb event "subscription.halted" then
    with_entity (handleSubscriptionHalted now)
  else if String.eqb event "subscription.cancelled" then
    with_entity (handleSubscriptionCancelled now)
  else if String.eqb event "payment.captured" then
    with_entity (handlePaymentCaptured now)
  else if String.eqb event "payment.failed" then
    with_entity (handlePaymentFailed now)
  else ret tt.

Definition webhook_POST (env : Env) (now : Z) (request : WebhookRequest)
  : M Response :=
  try_catch
    (let body := wr_body request in
     let signature := or_default (wr_signature request) "" in
     let expectedSignature :=
       createHmac_sha256_hex
         (or_default (RAZORPAY_WEBHOOK_SECRET env) "") body in
     if negb (String.eqb expectedSignature signature) then
       ret (NextResponse_json [("error", JString "Invalid signature")] 401)
     else
       webhookData <- lift (JSON_parse body) ;;
       dispatch now webhookData ;;;
       ret (NextResponse_json [("received", JBool true)] 200))
    (fun e =>
       ret (NextResponse_json
              [("error",
                JString (if typed then e
                         else message_or e "Failed to process webhook"))]
              500)).

End Webhook.

(* ================================================================== *)
(** * Vocabulary of the properties *)
(* ================================================================== *)

Definition count_profiles (uid : string) (d : DB) : nat :=
  List.length (filter (prisma.has_userId uid) (profiles d)).

Definition created_response : Response :=
  NextResponse_json [("message", JString "Profile created successfully.")] 201.
Definition exists_response : Response :=
  NextResponse_json [("message", JString "Profile already exists.")] 200.

Arguments calculateEndDate : simpl never.
Arguments createHmac_sha256_hex : simpl never.

(** The three shapes of the answer, by their two flags. *)
Inductive Shape : Type := Active | Pending | Inactive | Other.

Definition shape_of (r : Response) : Shape :=
  match jget "isActive" (body r), jget "isPending" (body r) with
  | Some (JBool true), Some (JBool false) => Active
  | Some (JBool false), Some (JBool true) => Pending
  | Some (JBool false), Some (JBool false) => Inactive
  | _, _ => Other
  end.

(** The answer for a subscription found active in the store. *)
Definition active_shape (a : Subscription) : Response :=
  NextResponse_json
    [("isActive", JBool true);
     ("isPending", JBool false);
     ("subscriptionTier", JString (s_planType a));
     ("subscriptionId", jnullable (s_razorpaySubscriptionId a));
     ("endDate", jnullable_date (s_endDate a));
     ("isRecurring", JBool false)]
    200.

(** The answer for a pending subscription the provider reports paid. *)
Definition promoted_shape (p : Subscription) : Response :=
  NextResponse_json
    [("isActive", JBool true);
     ("isPending", JBool false);
     ("subscriptionTier", JString (s_planType p));
     ("subscriptionId", jnullable (s_razorpaySubscriptionId p));
     ("isRecurring", JBool (s_isRecurring p))]
    200.

(** The answer for a subscription still unresolved at the provider. *)
Definition pending_shape (p : Subscription) : Response :=
  NextResponse_json
    [("isActive", JBool false);
     ("isPending", JBool true);
     ("pendingSubscriptionId", jnullable (s_razorpaySubscriptionId p));
     ("pendingPlanType", JString (s_planType p))]
    200.

(** The world after one more call was sent to the provider. *)
Definition logged (c : RzpCall) (w : World) : World :=
  mkWorld (db w) (rzp_calls w ++ [c]).

(** The row [p] promoted at time [now], and the profile granted its
    tier. *)
Definition promoted_row (now : Z) (p s : Subscription) : Subscription :=
  mkSubscription (s_id s) (s_userId s) (s_planId s)
    (s_razorpaySubscriptionId s) (s_razorpayPaymentId s) "active"
    (s_planType s) (Some now) (Some (calculateEndDate now (s_planType p)))
    (s_isRecurring s) (s_createdAt s) now.

Definition granted_profile (now : Z) (tier : string) (q : Profile) : Profile :=
  mkProfile (p_userId q) (p_email q) (Some tier) true
    (p_stripeSubscriptionId q) (p_createdAt q) now.

(** The store after the promotion of [p] for user [uid]. *)
Definition promote (now : Z) (uid : string) (p : Subscription) (d : DB) : DB :=
  mkDB (map (fun q => if prisma.has_userId uid q
                      then granted_profile now (s_planType p) q else q)
            (profiles d))
       (map (fun s => if Nat.eqb (s_id s) (s_id p)
                      then promoted_row now p s else s)
            (subscriptions d))
       (next_id d).

(** The store after the status of row [p] was overwritten with the
    provider's. *)
Definition overwrite_status (now : Z) (st : string) (p : Subscription)
    (d : DB) : DB :=
  mkDB (profiles d)
       (map (fun s => if Nat.eqb (s_id s) (s_id p)
                      then prisma.touch now (prisma.set_status st s) else s)
            (subscriptions d))
       (next_id d).

(** The schema's foreign key: every subscription belongs to a profile. *)
Definition fk_ok (d : DB) : bool :=
  forallb (fun s => existsb (prisma.has_userId (s_userId s)) (profiles d))
          (subscriptions d).

(** The provider statuses the status query tells apart. *)
Definition paid_status (st : string) : Prop :=
  st = "active" \/ st = "completed".
Definition unresolved_status (st : string) : Prop :=
  st = "created" \/ st = "authenticated" \/ st = "pending".

(** Row [s] is a paid period of user [uid] that has not ended at
    [now]. *)
Definition current_period (uid : string) (now : Z) (s : Subscription)
  : Prop :=
  s_userId s = uid /\ paid_status (s_status s) /\
  exists e, s_endDate s = Some e /\ now <= e.

(** Row [s] of user [uid] still awaits its payment. *)
Definition awaiting_payment (uid : string) (s : Subscription) : Prop :=
  s_userId s = uid /\ unresolved_status (s_status s).

(** [a] is one of the [rows] with [P], and none of them was created
    after it. *)
Definition latest (P : Subscription -> Prop) (rows : list Subscription)
    (a : Subscription) : Prop :=
  In a rows /\ P a /\
  forall b, In b rows -> P b -> s_createdAt b <= s_createdAt a.

(* ================================================================== *)
(** * Sample stores, requests and provider answers *)
(* ================================================================== *)

Module Sample.

Definition t0 : Z := JSDate.UTC 2025 0 15 12 0 0 0.

Definition env : Env :=
  mkEnv (Some "plan_week") (Some "plan_month") (Some "plan_year")
        (Some "whsec") (Some "keysec") None.

Definition user_U : ClerkUser := mkClerkUser "U" ["u@example.org"].

Definition profile_U : Profile :=
  mkProfile "U" "u@example.org" None false None 0 0.

Definition profile_U_active : Profile :=
  mkProfile "U" "u@example.org" (Some "month") true (Some "sub_1") 0 0.

Definition row_pending : Subscription :=
  mkSubscription 0 "U" "plan_month" (Some "sub_1") None "pending" "month"
    None None false 100 100.

Definition row_active : Subscription :=
  mkSubscription 0 "U" "plan_month" (Some "sub_1") None "active" "month"
    (Some t0) (Some (calculateEndDate t0 "month")) false 100 t0.

Definition empty_world : World := mkWorld (mkDB [] [] 0) [].
Definition world_profile_only : World := mkWorld (mkDB [profile_U] [] 0) [].
Definition world_pending : World :=
  mkWorld (mkDB [profile_U] [row_pending] 1) [].
Definition world_active : World :=
  mkWorld (mkDB [profile_U_active] [row_active] 1) [].

Definition notes_U : Notes :=
  mkNotes (Some "U") (Some "month") (Some "u@example.org").

(** The provider's view of [sub_1] in a given status. *)
Definition sub_1 (status : string) : RazorpaySubscription :=
  mkRzp "sub_1" "plan_month" status (Some "https://rzp.io/i/one") 1
        (Some notes_U).

Definition sub_2 : RazorpaySubscription :=
  mkRzp "sub_2" "plan_month" "created" (Some "https://rzp.io/i/two") 1
        (Some notes_U).

(** A provider that reports [sub_1] in the given status, cancels on
    request and creates [sub_2]. *)
Definition provider (status : string) : Razorpay :=
  mkRazorpay (fun _ => Ret (Some (sub_1 status)))
             (fun _ => Ret (sub_1 "cancelled"))
             (fun _ => Ret sub_2).

(** A provider that cannot be reached. *)
Definition provider_down : Razorpay :=
  mkRazorpay (fun _ => Throw "ECONNRESET") (fun _ => Throw "ECONNRESET")
             (fun _ => Throw "ECONNRESET").

End Sample.

Module SampleTwoPeriods.

(** Two paid periods of user U that have not ended: a weekly one
    created first, and a monthly one created after it. *)
Definition row_week : Subscription :=
  mkSubscription 0 "U" "plan_week" (Some "sub_0") None "completed" "week"
    (Some Sample.t0) (Some (calculateEndDate Sample.t0 "week")) false 50
    Sample.t0.

Definition row_month : Subscription :=
  mkSubscription 1 "U" "plan_month" (Some "sub_1") None "active" "month"
    (Some Sample.t0) (Some (calculateEndDate Sample.t0 "month")) false 100
    Sample.t0.

Definition world : World :=
  mkWorld (mkDB [Sample.profile_U_active] [row_week; row_month] 2) [].

End SampleTwoPeriods.

(** The row a [payment.captured] event leaves behind when it reaches a
    freshly created subscription: forced to [active], the payment
    recorded, no dates. *)
Definition captured_row (now : Z) (paymentId : string) (s : Subscription)
  : Subscription :=
  mkSubscription (s_id s) (s_userId s) (s_planId s)
    (s_razorpaySubscriptionId s) (Some paymentId) "active" (s_planType s)
    (s_startDate s) (s_endDate s) (s_isRecurring s) (s_createdAt s) now.

Module SampleCaptured.

Definition row_created : Subscription :=
  mkSubscription 0 "U" "plan_month" (Some "sub_1") None "created" "month"
    None None false 100 100.

Definition world_created : World :=
  mkWorld (mkDB [Sample.profile_U] [row_created] 1) [].


(** The store once [payment.captured] for [sub_1] was handled. *)
Definition world_captured : World :=
  mkWorld (mkDB [Sample.profile_U] [captured_row 200 "pay_1" row_created] 1) [].

End SampleCaptured.

(** Row [s] is a paid period of user [uid] that runs at [now]: its
    status is [active] and its end date is not before [now]. *)
Definition active_period (uid : string) (now : Z) (s : Subscription)
  : Prop :=
  s_userId s = uid /\ s_status s = "active" /\
  exists e, s_endDate s = Some e /\ now <= e.

(** The plan types the checkout route accepts. *)
Definition allowed_plan (planType : string) : Prop :=
  planType = "week" \/ planType = "month" \/ planType = "year".

(** The two answers of the checkout route the properties speak of. *)
Definition already_subscribed_response (a : Subscription) : Response :=
  NextResponse_json
    [("error", JString
        "You already have an active subscription. You cannot subscribe to a different plan. Please wait until your current subscription expires.");
     ("currentPlan", JString (s_planType a));
     ("endDate", jnullable_date (s_endDate a))]
    400.

Definition checkout_response (origin : string) (sub : RazorpaySubscription)
  : Response :=
  NextResponse_json
    [("subscriptionId", JString (r_id sub));
     ("planId", JString (r_plan_id sub));
     ("status", JString (r_status sub));
     ("url", joptional (r_short_url sub));
     ("callbackUrl",
      JString (origin ++ "/subscribe?sessionId=" ++ r_id sub))]
    200.

(** The local row that mirrors a provider subscription just created:
    the provider's status, no dates, no payment, not recurring. *)
Definition mirrored_row (id : nat) (now : Z) (uid planType : string)
    (sub : RazorpaySubscription) (recurring : bool) : Subscription :=
  mkSubscription id uid (r_plan_id sub) (Some (r_id sub)) None (r_status sub)
    planType None None recurring now now.

(** The call the checkout route sends to the provider. *)
Definition checkout_call (priceId uid planType email : string) : RzpCall :=
  Create (mkCreate priceId 1 1
            (mkNotes (Some uid) (Some planType) (Some email))).

Definition total_count_of (c : RzpCall) : option Z :=
  match c with
  | Create p => Some (c_total_count p)
  | _ => None
  end.

(** The call the resume route sends to replace a cancelled or expired
    subscription: same plan, same billing count, the notes carried
    over. *)
Definition carried_forward_call (uid : string) (sub : RazorpaySubscription)
  : RzpCall :=
  Create (mkCreate (r_plan_id sub) (r_total_count sub) 1
            (mkNotes (Some uid)
               (Some (or_default (note n_planType sub) "month"))
               (Some (or_default (note n_email sub) "")))).

(** The local row for the replacement [new] of [sub]. *)
Definition replacement_row (id : nat) (now : Z) (uid : string)
    (sub new : RazorpaySubscription) : Subscription :=
  mkSubscription id uid (r_plan_id sub) (Some (r_id new)) None (r_status new)
    (or_default (note n_planType sub) "month") None None
    ((1 <? r_total_count new) || (r_total_count new =? 0)) now now.

Definition new_checkout_response (origin : string) (new : RazorpaySubscription)
  : Response :=
  NextResponse_json
    [("url", JString (or_default (r_short_url new) ""));
     ("callbackUrl", JString (origin ++ "/subscribe?sessionId=" ++ r_id new));
     ("message", JString "New subscription created successfully");
     ("subscriptionId", JString (r_id new))]
    200.

Definition existing_checkout_response (origin : string)
    (sub : RazorpaySubscription) : Response :=
  NextResponse_json
    [("url", JString (or_default (r_short_url sub) ""));
     ("callbackUrl", JString (origin ++ "/subscribe?sessionId=" ++ r_id sub));
     ("message", JString "Payment URL generated successfully")]
    200.

Definition cannot_resume_response (status : string) : Response :=
  NextResponse_json
    [("message", JString ("Subscription status is: " ++ status ++
                          ". Cannot resume payment at this time."));
     ("status", JString status)]
    400.

Module SampleResume.

Definition resume_request : SubscriptionRequest :=
  mkSubscriptionRequest (Some "sub_1") (Some "U")
    (Some "https://meals.example").

End SampleResume.

(** The store after row [row] was marked [cancelled], and after the
    profile of [uid] lost its access. *)
Definition mark_cancelled (now : Z) (row : Subscription) (d : DB) : DB :=
  mkDB (profiles d)
       (map (fun s => if Nat.eqb (s_id s) (s_id row)
                      then prisma.touch now (prisma.set_status "cancelled" s)
                      else s)
            (subscriptions d))
       (next_id d).

Definition revoke_access (now : Z) (uid : string) (d : DB) : DB :=
  mkDB (map (fun q => if prisma.has_userId uid q
                      then prisma.p_touch now (deactivate q) else q)
            (profiles d))
       (subscriptions d) (next_id d).


(** Whether the profile of [uid] has access. *)
Definition has_access (uid : string) (d : DB) : option bool :=
  option_map p_subscriptionActive (find (prisma.has_userId uid) (profiles d)).

Module SampleCancel.

Definition cancel_request : SubscriptionRequest :=
  mkSubscriptionRequest (Some "sub_1") (Some "U") None.

(** A provider whose fetch fails and whose cancel call reports that the
    subscription is already finalized. *)
Definition provider_finalized : Razorpay :=
  mkRazorpay (fun _ => Throw "ECONNRESET")
             (fun _ => Throw "Subscription is already completed")
             (fun _ => Throw "ECONNRESET").

End SampleCancel.

(** The provider does not report [completed] for [sid]: it reports
    another status, or the fetch fails. *)
Definition not_completed (rzp : Razorpay) (sid : string) : bool :=
  match rzp_fetch rzp sid with
  | Ret (Some r) => negb (String.eqb (r_status r) "completed")
  | _ => true
  end.

(** The cancel call's error says the subscription is already final. *)
Definition says_finalized (message : string) : bool :=
  includes message "completed" || includes message "already been processed".

(** The answer to a request whose signature does not verify. *)
Definition webhook_unauthorized : Response :=
  NextResponse_json [("error", JString "Invalid signature")] 401.

Definition verify_invalid_signature : Response :=
  NextResponse_json
    [("success", JBool false); ("error", JString "Invalid signature")] 400.

(** What the signed flow of the verification route signs:
    [`${razorpay_payment_id}|${razorpay_subscription_id}`]. *)
Definition signed_payload (req : VerifyRequest) : string :=
  interpolate (vr_razorpay_payment_id req) ++ "|" ++
  interpolate (vr_razorpay_subscription_id req).

Module SampleSignature.

Definition forged_webhook : WebhookRequest :=
  mkWebhookRequest "{}" (Some "forged").

Definition forged_checkout : VerifyRequest :=
  mkVerifyRequest None None (Text "pay_1") (Text "sub_1") (Some "forged")
    (Text "U").

(** A callback whose payment identifier is [null], signed over the
    text a missing identifier gives. *)
Definition null_checkout : VerifyRequest :=
  mkVerifyRequest None None Null (Text "sub_1")
    (Some (createHmac_sha256_hex "keysec" "undefined|sub_1")) (Text "U").

(** A callback without a payment identifier, signed over the text a
    [null] identifier gives. *)
Definition missing_checkout : VerifyRequest :=
  mkVerifyRequest None None Missing (Text "sub_1")
    (Some (createHmac_sha256_hex "keysec" "null|sub_1")) (Text "U").

(** A parser that accepts the sample body as a [payment.captured]
    event for [sub_1], and one that rejects every body. *)
Definition parse (body : string) : outcome WebhookData :=
  Ret (mkWebhookData "payment.captured" None
         (Some (mkEntity "pay_1" None None (Some "sub_1")))).

Definition parse_fails (body : string) : outcome WebhookData :=
  Throw "Unexpected token".

End SampleSignature.

(** The answer of a successful verification after the redirect. *)
Definition verified_response : Response :=
  NextResponse_json
    [("success", JBool true);
     ("message", JString "Subscription verified and activated")]
    200.

(** The update clause of the verification upsert at time [t]. *)
Definition verify_update (t : Z) (planType : string) (s : Subscription)
  : Subscription :=
  prisma.touch t
    (prisma.set_dates t (calculateEndDate_verify t (Some planType))
       (prisma.set_status "active" s)).

(** The same row with the time stamps of an application at time [t]
    and nothing else changed. *)
Definition restamp_row (t : Z) (planType : string) (s : Subscription)
  : Subscription :=
  mkSubscription (s_id s) (s_userId s) (s_planId s)
    (s_razorpaySubscriptionId s) (s_razorpayPaymentId s) (s_status s)
    (s_planType s) (Some t) (Some (calculateEndDate_verify t (Some planType)))
    (s_isRecurring s) (s_createdAt s) t.

(** The store with the rows of subscription [sid] and the profile of
    [uid] stamped again at time [t]. *)
Definition restamp (t : Z) (sid uid planType : string) (d : DB) : DB :=
  mkDB (map (fun q => if prisma.has_userId uid q then prisma.p_touch t q else q)
            (profiles d))
       (map (fun s => if has_rid sid s then restamp_row t planType s else s)
            (subscriptions d))
       (next_id d).

Definition status_response (sub : RazorpaySubscription) : Response :=
  NextResponse_json
    [("success", JBool false);
     ("message", JString ("Subscription status: " ++ r_status sub));
     ("status", JString (r_status sub))] 200.

Definition locally_cancelled (sid : string) (d : DB) : bool :=
  match find (has_rid sid) (subscriptions d) with
  | Some row => String.eqb (s_status row) "cancelled"
  | None => false
  end.

(** The upsert and the profile update of a successful verification. *)
Definition verify_writes (t : Z) (sid uid : string) (sub : RazorpaySubscription)
  : M Response :=
  let planType := or_default (note n_planType sub) "month" in
  prisma.upsert t sid (fun s => prisma.set_dates t
                                  (calculateEndDate_verify t (Some planType))
                                  (prisma.set_status "active" s))
    (prisma.mkSubCreate uid (r_plan_id sub) (r_id sub) None "active" planType
       (Some t) (Some (calculateEndDate_verify t (Some planType))) false) ;;;
  prisma.profile_update t uid
    (activate (or_default (Some planType) "month") (r_id sub)) ;;;
  ret verified_response.

Definition stamped (t : Z) (planType : string) (s : Subscription) : Prop :=
  s_status s = "active" /\ s_startDate s = Some t /\
  s_endDate s = Some (calculateEndDate_verify t (Some planType)) /\
  s_updatedAt s = t.

Definition granted (t : Z) (tier reference : string) (p : Profile) : Prop :=
  p_subscriptionActive p = true /\ p_subscriptionTier p = Some tier /\
  p_stripeSubscriptionId p = Some reference /\ p_updatedAt p = t.

(** The store right after a verification of [sid] for [uid] at time
    [t]. *)
Definition verified_at (t : Z) (sid uid planType : string) (d : DB) : Prop :=
  existsb (has_rid sid) (subscriptions d) = true /\
  (forall s, In s (subscriptions d) -> has_rid sid s = true ->
             stamped t planType s) /\
  existsb (prisma.has_userId uid) (profiles d) = true /\
  (forall p, In p (profiles d) -> prisma.has_userId uid p = true ->
             granted t planType sid p).

Module SampleVerify.

Definition redirect_request : VerifyRequest :=
  mkVerifyRequest (Some "sub_1") None Missing Missing None Missing.

Definition t1 : Z := JSDate.UTC 2025 0 15 12 0 0 0.
Definition t2 : Z := JSDate.UTC 2025 0 15 12 0 5 0.

End SampleVerify.

Module SampleVerified.

(** The worlds after one and after two verifications of [sub_1], five
    seconds apart. *)
Definition once : World :=
  snd (verify_payment_POST Sample.env (Sample.provider "active") SampleVerify.t1
         (Ret SampleVerify.redirect_request) Sample.world_pending).

Definition twice : World :=
  snd (verify_payment_POST Sample.env (Sample.provider "active") SampleVerify.t2
         (Ret SampleVerify.redirect_request) once).

End SampleVerified.

(* ================================================================== *)
(** * What the routes leave alone *)
(* ================================================================== *)

(** A handler keeps a relation between the world it starts in and the
    world it leaves, whatever it returns or throws. *)
Definition keeps {A} (R : World -> World -> Prop) (m : M A) : Prop :=
  forall w, R w (snd (m w)).

(** No call was sent to the provider. *)
Definition same_calls (w w' : World) : Prop := rzp_calls w' = rzp_calls w.

(** The columns of a row that identify it: its key, owner, plan,
    provider reference, plan type, recurrence and creation time. *)
Definition same_identity (s s' : Subscription) : Prop :=
  s_id s' = s_id s /\ s_userId s' = s_userId s /\ s_planId s' = s_planId s /\
  s_razorpaySubscriptionId s' = s_razorpaySubscriptionId s /\
  s_planType s' = s_planType s /\ s_isRecurring s' = s_isRecurring s /\
  s_createdAt s' = s_createdAt s.

(** The columns of a profile that identify its user. *)
Definition same_owner (p p' : Profile) : Prop :=
  p_userId p' = p_userId p /\ p_email p' = p_email p /\
  p_createdAt p' = p_createdAt p.

(** A table extends another: it holds the rows of the other, in place
    and related by [R], followed by the rows added since. *)
Definition extends {A} (R : A -> A -> Prop) (l l' : list A) : Prop :=
  exists old added, l' = (old ++ added)%list /\ Forall2 R l old.

(** The second world extends the first: each table holds the rows it
    held, with their identifying columns, and the log of provider
    calls has only grown. *)
Definition history_kept (w w' : World) : Prop :=
  extends same_identity (subscriptions (db w)) (subscriptions (db w')) /\
  extends same_owner (profiles (db w)) (profiles (db w')) /\
  extends eq (rzp_calls w) (rzp_calls w').

(* ================================================================== *)
(** * Vocabulary of the webhook properties *)
(* ================================================================== *)

(** The request carries the signature of its body under the webhook
    secret. *)
Definition signed_by (env : Env) (request : WebhookRequest) : Prop :=
  createHmac_sha256_hex (or_default (RAZORPAY_WEBHOOK_SECRET env) "")
    (wr_body request) = or_default (wr_signature request) "".

(** What the provider sends: the body with its signature. *)
Definition sign (env : Env) (body : string) : WebhookRequest :=
  mkWebhookRequest body
    (Some (createHmac_sha256_hex
             (or_default (RAZORPAY_WEBHOOK_SECRET env) "") body)).

Definition received_response : Response :=
  NextResponse_json [("received", JBool true)] 200.

(** [payload.subscription || payload.payment]. *)
Definition payload_of (webhookData : WebhookData) : option RazorpayEntity :=
  match wd_subscription webhookData with
  | Some e => Some e
  | None => wd_payment webhookData
  end.

(** The events the [switch] has a case for. *)
Definition handled_events : list string :=
  ["subscription.activated"; "subscription.pending"; "subscription.halted";
   "subscription.cancelled"; "payment.captured"; "payment.failed"].

(** The store after the rows of subscription [sid] were given the
    status [st], and after the profile of [uid] was suspended: its
    access flag cleared, its tier and reference kept. *)
Definition mark_status (now : Z) (st sid : string) (d : DB) : DB :=
  mkDB (profiles d)
       (map (fun s => if has_rid sid s
                      then prisma.touch now (prisma.set_status st s) else s)
            (subscriptions d))
       (next_id d).

Definition suspend (now : Z) (uid : string) (d : DB) : DB :=
  mkDB (map (fun q => if prisma.has_userId uid q
                      then prisma.p_touch now (prisma.p_set_active false q)
                      else q)
            (profiles d))
       (subscriptions d) (next_id d).

(** The tier and the provider reference a profile shows. *)
Definition tier_of (uid : string) (d : DB) : option (option string) :=
  option_map p_subscriptionTier (find (prisma.has_userId uid) (profiles d)).
Definition reference_of (uid : string) (d : DB) : option (option string) :=
  option_map p_stripeSubscriptionId
             (find (prisma.has_userId uid) (profiles d)).

Module SampleWebhook.

Definition halted_entity : RazorpayEntity :=
  mkEntity "sub_1" (Some "plan_month") (Some Sample.notes_U) None.

Definition failed_payment : RazorpayEntity :=
  mkEntity "pay_2" None None (Some "sub_1").

(** Parsers that read the sample body as one given event. *)
Definition parse_as (event : string) (entity : RazorpayEntity)
    (body : string) : outcome WebhookData :=
  Ret (mkWebhookData event (Some entity) None).

Definition parse_payment (event : string) (entity : RazorpayEntity)
    (body : string) : outcome WebhookData :=
  Ret (mkWebhookData event None (Some entity)).

Definition parse_bare (event : string) (body : string)
  : outcome WebhookData :=
  Ret (mkWebhookData event None None).

End SampleWebhook.

Module SampleCancelled.

(** The store after user U cancelled [sub_1]. *)
Definition row_cancelled : Subscription :=
  mkSubscription 0 "U" "plan_month" (Some "sub_1") None "cancelled" "month"
    (Some Sample.t0) (Some (calculateEndDate Sample.t0 "month")) false 100
    Sample.t0.

Definition world_cancelled : World :=
  mkWorld (mkDB [Sample.profile_U] [row_cancelled] 1) [].

End SampleCancelled.

(* ================================================================== *)
(** * Vocabulary of the verification properties *)
(* ================================================================== *)

(** The answer of a successful verification of a signed payment. *)
Definition signed_verified_response : Response :=
  NextResponse_json
    [("success", JBool true);
     ("message", JString "Payment verified and subscription activated")]
    200.

(** The provider reports the subscription paid. *)
Definition reported_paid (rzp : Razorpay) (sid : string) : bool :=
  match rzp_fetch rzp sid with
  | Ret (Some sub) => mem (r_status sub) active_family
  | _ => false
  end.

Module SampleSigned.

(** A checkout callback for payment [pay_1] of [sub_1], signed with
    the key secret, that names user U. *)
Definition signed_checkout : VerifyRequest :=
  mkVerifyRequest None None (Text "pay_1") (Text "sub_1")
    (Some (createHmac_sha256_hex "keysec" "pay_1|sub_1")) (Text "U").

End SampleSigned.

(* ================================================================== *)
(** * Vocabulary of the checkout, cancel and resume properties *)
(* ================================================================== *)

Definition checkout_failed_response : Response :=
  NextResponse_json
    [("error", JString "Failed to create subscription session")] 500.

Definition resume_active_response : Response :=
  NextResponse_json
    [("message", JString "Subscription is already active");
     ("url", JString "/mealplan")]
    200.

(** The store after the resume route found the subscription active at
    the provider: the row marked active, the profile given access and
    the tier of the row. *)
Definition reconcile_active (now : Z) (uid : string) (row : Subscription)
    (d : DB) : DB :=
  mkDB (map (fun q => if prisma.has_userId uid q
                      then prisma.p_touch now
                             (prisma.p_set_tier (Some (s_planType row))
                                (prisma.p_set_active true q))
                      else q)
            (profiles d))
       (map (fun s => if Nat.eqb (s_id s) (s_id row)
                      then prisma.touch now (prisma.set_status "active" s)
                      else s)
            (subscriptions d))
       (next_id d).

Module SampleOrphan.

Definition checkout_request : CheckoutRequest :=
  mkCheckoutRequest (Some "month") (Some "U") (Some "u@example.org") None.

Definition stranger_request : SubscriptionRequest :=
  mkSubscriptionRequest (Some "sub_1") (Some "V") None.

End SampleOrphan.

(* ================================================================== *)
(** * GET /api/profile/subscription-status *)
(* ================================================================== *)

(** A plan as [razorpay.plans.fetch] returns it. *)
Record RazorpayPlanItem : Type := mkPlanItem {
  it_id : string;
  it_name : string;
  it_amount : Z;
  it_currency : string
}.

Record RazorpayPlan : Type := mkPlan {
  pl_id : string;
  pl_entity : string;
  pl_interval : Z;
  pl_period : string;
  pl_item : RazorpayPlanItem
}.

(** [planDetails]; the amount [plan.item.amount / 100] is kept as the
    fraction it is, numerator and denominator. *)
Record PlanDetails : Type := mkPlanDetails {
  pd_id : string;
  pd_interval : string;
  pd_amount : Z * Z;
  pd_currency : string;
  pd_name : string
}.

(** The body of the answer: an error, [{ subscription: null }], or the
    profile spread together with the subscriptions it includes, the
    current subscription and the details of its plan. *)
Inductive StatusBody : Type :=
| StatusError (message : string)
| NoSubscription
| SubscriptionOf (profile : Profile) (included : list Subscription)
    (currentSubscription : option Subscription)
    (planDetails : option PlanDetails).

Record StatusResponse : Type := mkStatusResponse {
  ss_status : Z;
  ss_body : StatusBody
}.

(** The [where] clause of the included subscriptions, which the
    relation restricts to the rows of the profile. *)
Definition current_clause (userId : string) (now : Z) (s : Subscription)
  : bool :=
  String.eqb (s_userId s) userId &&
  (String.eqb (s_status s) "active" ||
   String.eqb (s_status s) "created" ||
   (String.eqb (s_status s) "cancelled" && endDate_gte now s)).

(** [orderBy: { createdAt: 'desc' }, take: 1]. *)
Definition take_most_recent (l : list Subscription) : list Subscription :=
  match most_recent l with
  | Some s => [s]
  | None => []
  end.

(** The inner [try]: the details of the plan, or nothing when the
    provider cannot be asked. The provider is only read; the log of
    the world records calls on subscriptions. *)
Definition fetch_plan_details (plans_fetch : string -> outcome RazorpayPlan)
    (planId : string) : option PlanDetails :=
  match plans_fetch planId with
  | Ret plan =>
      Some (mkPlanDetails (pl_id plan) (pl_period plan)
              (it_amount (pl_item plan), 100)
              (it_currency (pl_item plan)) (it_name (pl_item plan)))
  | Throw _ => None
  end.

Definition subscription_status_GET
    (plans_fetch : string -> outcome RazorpayPlan) (now : Z)
    (clerkUser : option ClerkUser) : M StatusResponse :=
  try_catch
    (match clerkUser with
     | None => ret (mkStatusResponse 401 (StatusError "Unauthorized"))
     | Some u =>
         if String.eqb (clerk_id u) "" then
           ret (mkStatusResponse 401 (StatusError "Unauthorized"))
         else
           d <- get_db ;;
           match find (prisma.has_userId (clerk_id u)) (profiles d) with
           | None => ret (mkStatusResponse 200 NoSubscription)
           | Some profile =>
               let included :=
                 take_most_recent
                   (filter (current_clause (p_userId profile) now)
                           (subscriptions d)) in
               let currentSubscription := hd_error included in
               let planDetails :=
                 match currentSubscription with
                 | Some s =>
                     if String.eqb (s_planId s) "" then None
                     else fetch_plan_details plans_fetch (s_planId s)
                 | None => None
                 end in
               ret (mkStatusResponse 200
                      (SubscriptionOf profile included currentSubscription
                         planDetails))
           end
     end)
    (fun _ =>
       ret (mkStatusResponse 500
              (StatusError "Failed to fetch subscription details."))).

Module SamplePlans.

Definition plan_month : RazorpayPlan :=
  mkPlan "plan_month" "plan" 1 "monthly"
    (mkPlanItem "item_1" "Monthly Plan" 50000 "INR").

Definition plans (planId : string) : outcome RazorpayPlan := Ret plan_month.

Definition plans_down (planId : string) : outcome RazorpayPlan :=
  Throw "ECONNRESET".

End SamplePlans.

(* ================================================================== *)
(** * POST /api/generate-mealplan *)
(* ================================================================== *)

(** The text the model answers with is cut up by code unit, so it is
    kept as JavaScript has it: a sequence of UTF-16 code units. *)
Module JSString.

Definition t : Type := list N.

(** A literal of the source, all of whose characters are ASCII. *)
Fixpoint lit (s : string) : t :=
  match s with
  | EmptyString => []
  | String c rest => N_of_ascii c :: lit rest
  end.

Definition line_feed : N := 10%N.
Definition backtick : N := 96%N.

(** WhiteSpace and LineTerminator of ECMAScript: what [trim] strips. *)
Definition is_white (c : N) : bool :=
  (((9 <=? c) && (c <=? 13)) || (c =? 32) || (c =? 160) || (c =? 5760) ||
   ((8192 <=? c) && (c <=? 8202)) || (c =? 8232) || (c =? 8233) ||
   (c =? 8239) || (c =? 8287) || (c =? 12288) || (c =? 65279))%N.

Fixpoint trimStart (s : t) : t :=
  match s with
  | c :: rest => if is_white c then trimStart rest else s
  | [] => []
  end.

(** Text that is white space throughout. *)
Definition white (s : t) : Prop := Forall (fun c => is_white c = true) s.

Definition trimEnd (s : t) : t := rev (trimStart (rev s)).

Definition trim (s : t) : t := trimEnd (trimStart s).

Fixpoint startsWith (s prefix : t) {struct prefix} : bool :=
  match prefix, s with
  | [], _ => true
  | c :: prefix', d :: s' => (c =? d)%N && startsWith s' prefix'
  | _ :: _, [] => false
  end.

Definition endsWith (s suffix : t) : bool :=
  startsWith (rev s) (rev suffix).

(** [s.replace(/^prefix/, '')] and [s.replace(/suffix$/, '')] for a
    literal prefix or suffix. *)
Definition strip_prefix (prefix s : t) : t :=
  if startsWith s prefix then skipn (List.length prefix) s else s.

Definition strip_suffix (suffix s : t) : t :=
  if endsWith s suffix
  then firstn (List.length s - List.length suffix) s
  else s.

End JSString.

(** What [JSON.parse] yields. *)
#[warnings="-register-all"] Inductive JsonValue : Type :=
| JsonNull
| JsonBool (b : bool)
| JsonNumber (literal : JSString.t)
| JsonString (s : JSString.t)
| JsonArray (items : list JsonValue)
| JsonObject (members : list (JSString.t * JsonValue)).

(** [typeof v !== "object" || v === null]. *)
Definition not_an_object (v : JsonValue) : bool :=
  match v with
  | JsonArray _ | JsonObject _ => false
  | _ => true
  end.

Inductive MealPlanBody : Type :=
| MealPlanError (message : string)
| MealPlan (mealPlan : JsonValue).

Record MealPlanResponse : Type := mkMealPlanResponse {
  mp_status : Z;
  mp_body : MealPlanBody
}.

Definition parse_failed : MealPlanResponse :=
  mkMealPlanResponse 500
    (MealPlanError "Failed to parse meal plan. Please try again.").

Definition generation_failed : MealPlanResponse :=
  mkMealPlanResponse 500
    (MealPlanError "Failed to generate meal plan. Please try again later.").

(** The fences the answer may come wrapped in. *)
Definition fence : JSString.t := JSString.lit "```".
Definition fence_json : JSString.t := JSString.lit "```json".
Definition open_fence : JSString.t := (fence ++ [JSString.line_feed])%list.
Definition open_fence_json : JSString.t :=
  (fence_json ++ [JSString.line_feed])%list.
Definition close_fence : JSString.t := (JSString.line_feed :: fence)%list.

(** The cleaning of the answer: Markdown code fences are removed when
    it starts with one. *)
Definition cleanContent (aiContent : JSString.t) : JSString.t :=
  if JSString.startsWith aiContent fence_json ||
     JSString.startsWith aiContent fence
  then
    JSString.trim
      (JSString.strip_suffix close_fence
         (JSString.strip_prefix open_fence
            (JSString.strip_prefix open_fence_json aiContent)))
  else aiContent.

Section GenerateMealPlan.

Variable JSON_parse : JSString.t -> outcome JsonValue.

(** From the cleaned text to the answer: the inner [try] around
    [JSON.parse] and the check of what it yields. *)
Definition mealplan_answer (cleanedContent : JSString.t) : MealPlanResponse :=
  match JSON_parse cleanedContent with
  | Throw _ => parse_failed
  | Ret parsedMealPlan =>
      if not_an_object parsedMealPlan then generation_failed
      else mkMealPlanResponse 200 (MealPlan parsedMealPlan)
  end.

(** [completion] is what reading the request and asking the model
    yield: the contents of the choices of the answer, or the exception
    either of the two threw. The prompt only reaches the model. *)
Definition generate_mealplan_POST
    (completion : outcome (list (option JSString.t))) : MealPlanResponse :=
  match completion with
  | Throw _ => generation_failed
  | Ret [] => generation_failed
  | Ret (content :: _) =>
      let aiContent :=
        match content with
        | Some text => JSString.trim text
        | None => []
        end in
      mealplan_answer (cleanContent aiContent)
  end.

End GenerateMealPlan.

(** An answer wrapped in a fence with the given language tag. *)
Definition fenced (tag content : JSString.t) : JSString.t :=
  (fence ++ tag ++ [JSString.line_feed] ++ content ++ close_fence)%list.

Module SampleMealPlan.

Definition plan_text : JSString.t := JSString.lit "{}".

(** A parser that reads the sample text as the empty object and
    nothing else. *)
Definition parse (text : JSString.t) : outcome JsonValue :=
  if JSString.startsWith text plan_text &&
     JSString.startsWith plan_text text
  then Ret (JsonObject [])
  else Throw "Unexpected token".

End SampleMealPlan.

(* ================================================================== *)
(** * The subscribe page (client) *)
(* ================================================================== *)

(** A string property of a JSON body, as [||] reads it. *)
Definition json_string (v : option JVal) : option string :=
  match v with
  | Some (JString s) => Some s
  | _ => None
  end.

(** [subscriptionStatus?.subscriptionId ||
    subscriptionStatus?.pendingSubscriptionId]. *)
Definition verificationId (subscriptionStatus : Response) : option string :=
  or_opt (json_string (jget "subscriptionId" (body subscriptionStatus)))
         (json_string (jget "pendingSubscriptionId" (body subscriptionStatus))).

(** The body [verifyPayment] posts: the identifier under both names. *)
Definition verifyPayment_body (sessionId : string) : VerifyRequest :=
  mkVerifyRequest (Some sessionId) (Some sessionId) Missing Missing None
    Missing.

(** [res.ok]. *)
Definition ok (r : Response) : bool :=
  (200 <=? http_status r) && (http_status r <=? 299).

(** One visit of the page by a signed-in user: the status query runs
    once the user is known and, when its answer carries an identifier,
    the effect posts it for verification. The two requests reach the
    server at [t_status] and [t_verify]. *)
Definition SubscribePage_visit (env : Env) (rzp : Razorpay)
    (t_status t_verify : Z) (userId : string) : M unit :=
  if String.eqb userId "" then ret tt
  else
    subscriptionStatus <- check_subscription_GET rzp t_status (Some userId) ;;
    if negb (ok subscriptionStatus) then ret tt
    else if truthy (verificationId subscriptionStatus) then
      verify_payment_POST env rzp t_verify
        (Ret (verifyPayment_body
                (or_default (verificationId subscriptionStatus) ""))) ;;;
      ret tt
    else ret tt.

(* ================================================================== *)
(** * Properties *)
(* ================================================================== *)

(** ** Facts about the queries *)

Section ListFacts.

Context {A : Type}.
Variable P : A -> bool.

Lemma find_none_existsb (l : list A) :
  find P l = None -> existsb P l = false.
Proof.
  induction l as [|x l IH]; cbn; [reflexivity|].
  destruct (P x); [discriminate | exact IH].
Qed.

Lemma find_none_filter (l : list A) :
  find P l = None -> filter P l = [].
Proof.
  induction l as [|x l IH]; cbn; [reflexivity|].
  destruct (P x); [discriminate | exact IH].
Qed.

Lemma find_some_existsb (l : list A) (x : A) :
  find P l = Some x -> existsb P l = true.
Proof.
  induction l as [|y l IH]; cbn; [discriminate|].
  destruct (P y); [reflexivity | exact IH].
Qed.

Lemma find_app_none (l l' : list A) :
  find P l = None -> find P (l ++ l') = find P l'.
Proof.
  induction l as [|x l IH]; cbn; [reflexivity|].
  destruct (P x); [discriminate | exact IH].
Qed.

Lemma filter_nil_existsb (l : list A) :
  filter P l = [] -> existsb P l = false.
Proof.
  induction l as [|x l IH]; cbn; [reflexivity|].
  destruct (P x); [discriminate | exact IH].
Qed.

Lemma In_existsb (l : list A) (x : A) :
  In x l -> P x = true -> existsb P l = true.
Proof. intros Hin HP. apply existsb_exists. exists x. split; assumption. Qed.

End ListFacts.

(** Updates that keep the key they select on. *)
Section MapFacts.
Context {A : Type}.
Variables (P : A -> bool) (f : A -> A).
Hypothesis f_keeps : forall x, P (f x) = P x.

Lemma find_map_keeps (l : list A) :
  find P (map (fun x => if P x then f x else x) l) = option_map f (find P l).
Proof.
  induction l as [|x l IH]; cbn [map find option_map]; [reflexivity|].
  destruct (P x) eqn:Hx.
  - rewrite f_keeps, Hx. reflexivity.
  - rewrite Hx. exact IH.
Qed.

Lemma existsb_map_keeps (l : list A) :
  existsb P (map (fun x => if P x then f x else x) l) = existsb P l.
Proof.
  induction l as [|x l IH]; cbn [map existsb]; [reflexivity|].
  destruct (P x) eqn:Hx.
  - rewrite f_keeps, Hx. reflexivity.
  - rewrite Hx, IH. reflexivity.
Qed.

(** Two passes over the selected elements are one pass with the
    composition. *)
Lemma map_map_keeps (g : A -> A) (l : list A) :
  map (fun x => if P x then g x else x)
      (map (fun x => if P x then f x else x) l) =
  map (fun x => if P x then g (f x) else x) l.
Proof.
  induction l as [|x l IH]; cbn [map]; [reflexivity|].
  rewrite IH. destruct (P x) eqn:Hx.
  - rewrite f_keeps, Hx. reflexivity.
  - rewrite Hx. reflexivity.
Qed.
End MapFacts.

Lemma map_ext_selected {A} (P : A -> bool) (f g : A -> A) (l : list A) :
  (forall x, In x l -> P x = true -> f x = g x) ->
  map (fun x => if P x then f x else x) l =
  map (fun x => if P x then g x else x) l.
Proof.
  intros H. apply map_ext_in. intros x Hin.
  destruct (P x) eqn:Hx; [apply H; assumption | reflexivity].
Qed.

Lemma existsb_false_In {A} (P : A -> bool) (l : list A) (x : A) :
  existsb P l = false -> In x l -> P x = false.
Proof.
  intros H Hin. destruct (P x) eqn:Hx; [|reflexivity].
  rewrite (In_existsb P l x Hin Hx) in H. discriminate H.
Qed.

Lemma map_selected_In {A} (P : A -> bool) (f : A -> A) (l : list A) (x : A) :
  (forall y, P (f y) = P y) ->
  In x (map (fun y => if P y then f y else y) l) -> P x = true ->
  exists y, In y l /\ x = f y.
Proof.
  intros Hkeep Hin Hx. apply in_map_iff in Hin. destruct Hin as [y [Hy Hin]].
  exists y. split; [exact Hin|].
  destruct (P y) eqn:HPy; [symmetry; exact Hy|].
  subst x. rewrite HPy in Hx. discriminate Hx.
Qed.

Lemma existsb_find {A} (P : A -> bool) (l : list A) :
  existsb P l = true -> exists x, find P l = Some x.
Proof.
  induction l as [|y l IH]; cbn; [discriminate|].
  destruct (P y); [eexists; reflexivity | exact IH].
Qed.

Lemma most_recent_In (l : list Subscription) (s : Subscription) :
  most_recent l = Some s -> In s l.
Proof.
  revert s. induction l as [|x l IH]; cbn; intros s H; [discriminate|].
  destruct (most_recent l) as [s'|].
  - destruct (s_createdAt s' <=? s_createdAt x); inversion H; subst.
    + left; reflexivity.
    + right; apply IH; reflexivity.
  - inversion H; left; reflexivity.
Qed.

Lemma most_recent_none (l : list Subscription) :
  most_recent l = None -> l = [].
Proof.
  destruct l as [|x l]; cbn; [reflexivity|].
  destruct (most_recent l) as [s'|]; [|discriminate].
  destruct (s_createdAt s' <=? s_createdAt x); discriminate.
Qed.

(** What a query selected is a stored row that satisfies its clause. *)
Lemma selected_row (P : Subscription -> bool) (l : list Subscription)
    (s : Subscription) :
  most_recent (filter P l) = Some s -> In s l /\ P s = true.
Proof. intros H. apply most_recent_In in H. apply filter_In in H. exact H. Qed.

Lemma truthy_or_default (o : option string) :
  truthy o = true -> o = Some (or_default o "").
Proof.
  destruct o as [s|]; cbn; [|discriminate].
  destruct (String.eqb s ""); [discriminate | reflexivity].
Qed.

Lemma truthy_some (s : string) : s <> "" -> truthy (Some s) = true.
Proof.
  intros H. cbn. destruct (String.eqb_spec s ""); [contradiction | reflexivity].
Qed.

Lemma or_default_some (s d : string) : s <> "" -> or_default (Some s) d = s.
Proof.
  intros H. cbn. destruct (String.eqb_spec s ""); [contradiction | reflexivity].
Qed.

(* ================================================================== *)
(** ** Profile provisioning *)
(* ================================================================== *)

(** A call for an identity that has a profile answers "already exists"
    and writes nothing. *)
Lemma create_profile_existing now u w p :
  hd "" (emailAddresses u) <> "" ->
  find (prisma.has_userId (clerk_id u)) (profiles (db w)) = Some p ->
  create_profile_POST now (Some u) w = (Ret exists_response, w).
Proof.
  intros Hmail Hfind.
  unfold create_profile_POST, try_catch, bind, prisma.profile_findUnique,
    get_db, bind, ret.
  destruct (String.eqb_spec (hd "" (emailAddresses u)) ""); [contradiction|].
  cbn. rewrite Hfind. reflexivity.
Qed.

(** A call for an identity without a profile appends the row with the
    subscription-inactive defaults and answers "created". *)
Lemma create_profile_fresh now u w :
  hd "" (emailAddresses u) <> "" ->
  find (prisma.has_userId (clerk_id u)) (profiles (db w)) = None ->
  create_profile_POST now (Some u) w =
  (Ret created_response,
   mkWorld (mkDB (profiles (db w) ++
                  [mkProfile (clerk_id u) (hd "" (emailAddresses u))
                     None false None now now])
                 (subscriptions (db w)) (next_id (db w)))
           (rzp_calls w)).
Proof.
  intros Hmail Hfind.
  unfold create_profile_POST, try_catch, bind, prisma.profile_findUnique,
    prisma.profile_create, get_db, put_db, bind, ret, throw.
  destruct (String.eqb_spec (hd "" (emailAddresses u)) ""); [contradiction|].
  cbn. rewrite Hfind. rewrite (find_none_existsb _ _ Hfind). reflexivity.
Qed.

(** C9: for an identity with an email, two calls to profile
    provisioning leave exactly one profile row of that identity; the
    second call answers "already exists" and changes nothing; on a store
    without the identity the first call answers "created" and the row
    carries the subscription-inactive defaults, on a store with it the
    first call is already a no-op. *)
Theorem create_profile_idempotent (now1 now2 : Z) (u : ClerkUser) (w : World) :
  hd "" (emailAddresses u) <> "" ->
  (count_profiles (clerk_id u) (db w) <= 1)%nat ->
  exists r1 w1,
    create_profile_POST now1 (Some u) w = (Ret r1, w1) /\
    create_profile_POST now2 (Some u) w1 = (Ret exists_response, w1) /\
    count_profiles (clerk_id u) (db w1) = 1%nat /\
    (count_profiles (clerk_id u) (db w) = 0%nat ->
     r1 = created_response /\
     filter (prisma.has_userId (clerk_id u)) (profiles (db w1)) =
     [mkProfile (clerk_id u) (hd "" (emailAddresses u))
        None false None now1 now1]) /\
    (count_profiles (clerk_id u) (db w) = 1%nat ->
     r1 = exists_response /\ w1 = w).
Proof.
  intros Hmail Hcount.
  destruct (find (prisma.has_userId (clerk_id u)) (profiles (db w)))
    as [p|] eqn:Hfind.
  - (* the profile is there *)
    assert (Hone : count_profiles (clerk_id u) (db w) = 1%nat).
    { unfold count_profiles in *.
      apply find_some in Hfind. destruct Hfind as [Hin Hp].
      assert (Hf : In p (filter (prisma.has_userId (clerk_id u))
                                (profiles (db w))))
        by (apply filter_In; split; assumption).
      destruct (filter (prisma.has_userId (clerk_id u)) (profiles (db w)));
        [contradiction | cbn in *; lia]. }
    exists exists_response, w.
    rewrite (create_profile_existing now1 u w p Hmail Hfind).
    rewrite (create_profile_existing now2 u w p Hmail Hfind).
    split; [reflexivity|]. split; [reflexivity|]. split; [exact Hone|].
    split; intros H0; [rewrite Hone in H0; discriminate | split; reflexivity].
  - (* the profile is missing *)
    pose proof (find_none_filter _ _ Hfind) as Hnil.
    set (new := mkProfile (clerk_id u) (hd "" (emailAddresses u))
                  None false None now1 now1).
    assert (Hnew : prisma.has_userId (clerk_id u) new = true)
      by apply String.eqb_refl.
    eexists; eexists.
    rewrite (create_profile_fresh now1 u w Hmail Hfind).
    split; [reflexivity|].
    assert (Hfilter :
      filter (prisma.has_userId (clerk_id u)) (profiles (db w) ++ [new]) = [new]).
    { rewrite filter_app, Hnil. cbn [filter app]. rewrite Hnew. reflexivity. }
    split; [|split; [|split]].
    + apply (create_profile_existing now2 u _ new Hmail).
      cbn [db profiles]. rewrite (find_app_none _ _ _ Hfind).
      cbn [find]. fold new. rewrite Hnew. reflexivity.
    + unfold count_profiles. cbn [db profiles]. fold new.
      rewrite Hfilter. reflexivity.
    + intros _. split; [reflexivity|]. cbn [db profiles]. fold new.
      exact Hfilter.
    + unfold count_profiles. rewrite Hnil. discriminate.
Qed.

(* ================================================================== *)
(** ** Subscription status query *)
(* ================================================================== *)

Lemma fk_profile (d : DB) (s : Subscription) :
  fk_ok d = true -> In s (subscriptions d) ->
  exists q, find (prisma.has_userId (s_userId s)) (profiles d) = Some q.
Proof.
  intros Hfk Hin. unfold fk_ok in Hfk.
  rewrite forallb_forall in Hfk. apply existsb_find. apply Hfk. exact Hin.
Qed.

Lemma fetch_run rzp id w :
  subscriptions_fetch rzp id w = (rzp_fetch rzp id, logged (Fetch id) w).
Proof. reflexivity. Qed.

Lemma update_by_id_run now (p : Subscription) data w :
  In p (subscriptions (db w)) ->
  prisma.update_by_id now (s_id p) data w =
  (Ret tt,
   mkWorld (mkDB (profiles (db w))
              (map (fun s => if Nat.eqb (s_id s) (s_id p)
                             then prisma.touch now (data s) else s)
                   (subscriptions (db w)))
              (next_id (db w)))
           (rzp_calls w)).
Proof.
  intros Hin.
  unfold prisma.update_by_id, prisma.update, prisma.updateMany, bind, get_db,
    put_db, throw.
  rewrite (In_existsb (fun s => Nat.eqb (s_id s) (s_id p)) _ p Hin
             (Nat.eqb_refl _)).
  reflexivity.
Qed.

(** The status query, unfolded up to what the inner [try] does. *)
Lemma check_subscription_GET_run rzp now uid w :
  uid <> "" ->
  check_subscription_GET rzp now (Some uid) w =
  match most_recent (filter (active_query uid now) (subscriptions (db w))) with
  | Some a => (Ret (active_shape a), w)
  | None =>
      match most_recent (filter (pending_query uid) (subscriptions (db w))) with
      | None => (Ret inactive_shape, w)
      | Some p =>
          match check_pending rzp now uid p w with
          | (Ret (Some r), w') => (Ret r, w')
          | (Ret None, w') => (Ret inactive_shape, w')
          | (Throw _, w') => (Ret inactive_shape, w')
          end
      end
  end.
Proof.
  intros Huid.
  unfold check_subscription_GET.
  rewrite (truthy_some _ Huid), (or_default_some _ _ Huid).
  unfold try_catch at 1, bind, prisma.findFirst_desc, get_db, bind, ret.
  cbn [negb].
  destruct (most_recent (filter (active_query uid now) (subscriptions (db w))))
    as [a|]; [reflexivity|].
  destruct (most_recent (filter (pending_query uid) (subscriptions (db w))))
    as [p|]; [|reflexivity].
  unfold try_catch.
  destruct (check_pending rzp now uid p w) as [[[r|]|e] w']; reflexivity.
Qed.

Lemma opt_eqb_refl (o : option string) : opt_eqb o o = true.
Proof. destruct o as [s|]; cbn; [apply String.eqb_refl | reflexivity]. Qed.

Lemma mem_active_family (st : string) :
  mem st active_family = String.eqb st "active" || String.eqb st "completed".
Proof. unfold mem, active_family. cbn [existsb]. rewrite orb_false_r. reflexivity. Qed.

(** *** The inner [try], case by case *)

Lemma check_pending_fetch_throws rzp now uid p w e :
  rzp_fetch rzp (or_default (s_razorpaySubscriptionId p) "") = Throw e ->
  check_pending rzp now uid p w =
  (Throw e, logged (Fetch (or_default (s_razorpaySubscriptionId p) "")) w).
Proof.
  intros Hf. unfold check_pending, bind at 1. rewrite fetch_run, Hf. reflexivity.
Qed.

Lemma check_pending_fetch_nothing rzp now uid p w :
  rzp_fetch rzp (or_default (s_razorpaySubscriptionId p) "") = Ret None ->
  check_pending rzp now uid p w =
  (Throw (TypeError_reading "status"),
   logged (Fetch (or_default (s_razorpaySubscriptionId p) "")) w).
Proof.
  intros Hf. unfold check_pending, bind at 1. rewrite fetch_run, Hf. reflexivity.
Qed.

Lemma check_pending_paid rzp now uid p w r q :
  rzp_fetch rzp (or_default (s_razorpaySubscriptionId p) "") = Ret (Some r) ->
  mem (r_status r) active_family = true ->
  In p (subscriptions (db w)) ->
  find (prisma.has_userId uid) (profiles (db w)) = Some q ->
  check_pending rzp now uid p w =
  (Ret (Some (promoted_shape p)),
   mkWorld (promote now uid p (db w))
           (rzp_calls w ++ [Fetch (or_default (s_razorpaySubscriptionId p) "")])).
Proof.
  intros Hf Hst Hin Hq. rewrite mem_active_family in Hst.
  unfold check_pending, bind at 1. rewrite fetch_run, Hf.
  unfold deref, bind at 1, ret at 1. rewrite Hst.
  unfold bind at 1. rewrite update_by_id_run by exact Hin.
  unfold bind at 1, prisma.profile_update, bind at 1, get_db.
  cbn [db profiles subscriptions next_id rzp_calls logged].
  rewrite Hq. cbn [prisma.p_set_tier prisma.p_set_active p_stripeSubscriptionId].
  rewrite opt_eqb_refl. reflexivity.
Qed.

Lemma check_pending_unresolved rzp now uid p w r :
  rzp_fetch rzp (or_default (s_razorpaySubscriptionId p) "") = Ret (Some r) ->
  mem (r_status r) active_family = false ->
  mem (r_status r) pending_family = true ->
  check_pending rzp now uid p w =
  (Ret (Some (pending_shape p)),
   logged (Fetch (or_default (s_razorpaySubscriptionId p) "")) w).
Proof.
  intros Hf Ha Hp. rewrite mem_active_family in Ha.
  unfold check_pending, bind at 1. rewrite fetch_run, Hf.
  unfold deref, bind at 1, ret at 1. rewrite Ha, Hp. reflexivity.
Qed.

Lemma check_pending_other rzp now uid p w r :
  rzp_fetch rzp (or_default (s_razorpaySubscriptionId p) "") = Ret (Some r) ->
  mem (r_status r) active_family = false ->
  mem (r_status r) pending_family = false ->
  In p (subscriptions (db w)) ->
  check_pending rzp now uid p w =
  (Ret None,
   mkWorld (overwrite_status now (r_status r) p (db w))
           (rzp_calls w ++ [Fetch (or_default (s_razorpaySubscriptionId p) "")])).
Proof.
  intros Hf Ha Hp Hin. rewrite mem_active_family in Ha.
  unfold check_pending, bind at 1. rewrite fetch_run, Hf.
  unfold deref, bind at 1, ret at 1. rewrite Ha, Hp.
  unfold bind at 1. rewrite update_by_id_run by exact Hin. reflexivity.
Qed.

Lemma paid_status_mem (st : string) :
  mem st active_family = true <-> paid_status st.
Proof.
  unfold mem, active_family, paid_status. cbn [existsb].
  rewrite orb_false_r, orb_true_iff, !String.eqb_eq. reflexivity.
Qed.

Lemma unresolved_status_mem (st : string) :
  mem st pending_family = true <-> unresolved_status st.
Proof.
  unfold mem, pending_family, unresolved_status. cbn [existsb].
  rewrite orb_false_r, !orb_true_iff, !String.eqb_eq. reflexivity.
Qed.

Lemma active_query_spec (uid : string) (now : Z) (s : Subscription) :
  active_query uid now s = true <-> current_period uid now s.
Proof.
  unfold active_query, current_period, endDate_gte.
  rewrite !andb_true_iff, String.eqb_eq, paid_status_mem.
  split.
  - intros [[Hu Hs] He]. split; [exact Hu|]. split; [exact Hs|].
    destruct (s_endDate s) as [e|]; [|discriminate].
    exists e. split; [reflexivity|]. apply Z.leb_le. exact He.
  - intros [Hu [Hs [e [He Hle]]]]. rewrite He.
    repeat split; try assumption. apply Z.leb_le. exact Hle.
Qed.

Lemma pending_query_spec (uid : string) (s : Subscription) :
  pending_query uid s = true <-> awaiting_payment uid s.
Proof.
  unfold pending_query, awaiting_payment.
  rewrite andb_true_iff, String.eqb_eq, unresolved_status_mem. reflexivity.
Qed.

(** [orderBy: { createdAt: 'desc' }] puts a row first that none of the
    rows was created after. *)
Lemma most_recent_latest (l : list Subscription) (a : Subscription) :
  most_recent l = Some a ->
  forall b, In b l -> s_createdAt b <= s_createdAt a.
Proof.
  revert a. induction l as [|x l IH]; intros a H b Hb; [destruct Hb|].
  cbn in H. destruct (most_recent l) as [s'|] eqn:Hrest.
  - destruct (Z.leb_spec (s_createdAt s') (s_createdAt x)) as [Hle|Hlt];
      inversion H; subst; destruct Hb as [<-|Hb].
    + lia.
    + specialize (IH s' eq_refl b Hb). lia.
    + lia.
    + exact (IH a eq_refl b Hb).
  - apply most_recent_none in Hrest. subst l. inversion H; subst.
    destruct Hb as [<-|[]]. lia.
Qed.

Lemma most_recent_some (l : list Subscription) (s : Subscription) :
  In s l -> exists a, most_recent l = Some a.
Proof.
  intros Hin. destruct (most_recent l) as [a|] eqn:H; [exists a; reflexivity|].
  apply most_recent_none in H. subst l. destruct Hin.
Qed.

(** What a query with [orderBy: { createdAt: 'desc' }] selects, in
    terms of the rows. *)
Lemma findFirst_desc_latest (P : Subscription -> bool)
    (Q : Subscription -> Prop) (rows : list Subscription) :
  (forall s, P s = true <-> Q s) ->
  (exists s, In s rows /\ Q s) ->
  exists a, most_recent (filter P rows) = Some a /\ latest Q rows a.
Proof.
  intros HPQ [s [Hin HQ]].
  destruct (most_recent_some (filter P rows) s) as [a Ha].
  { apply filter_In. split; [exact Hin | apply HPQ; exact HQ]. }
  exists a. split; [exact Ha|].
  destruct (selected_row _ _ _ Ha) as [Hina HPa].
  split; [exact Hina|]. split; [apply HPQ; exact HPa|].
  intros b Hb HQb. apply (most_recent_latest _ _ Ha).
  apply filter_In. split; [exact Hb | apply HPQ; exact HQb].
Qed.

Lemma findFirst_desc_nothing (P : Subscription -> bool)
    (Q : Subscription -> Prop) (rows : list Subscription) :
  (forall s, P s = true <-> Q s) ->
  (forall s, In s rows -> ~ Q s) ->
  most_recent (filter P rows) = None.
Proof.
  intros HPQ Hnone.
  destruct (most_recent (filter P rows)) as [a|] eqn:Ha; [|reflexivity].
  destruct (selected_row _ _ _ Ha) as [Hin HP].
  exfalso. apply (Hnone a Hin). apply HPQ. exact HP.
Qed.

Lemma not_paid_status (st : string) :
  ~ paid_status st -> mem st active_family = false.
Proof.
  intros H. destruct (mem st active_family) eqn:E; [|reflexivity].
  exfalso. apply H. apply paid_status_mem. exact E.
Qed.

Lemma not_unresolved_status (st : string) :
  ~ unresolved_status st -> mem st pending_family = false.
Proof.
  intros H. destruct (mem st pending_family) eqn:E; [|reflexivity].
  exfalso. apply H. apply unresolved_status_mem. exact E.
Qed.

Lemma paid_not_unresolved (st : string) :
  paid_status st -> ~ unresolved_status st.
Proof.
  intros [-> | ->] [H|[H|H]]; discriminate H.
Qed.

(** C3: the status query answers by precedence, on the rows of the
    user. When some row is a paid period that has not ended (status
    [active] or [completed], end date not before now), the answer is
    the active shape, with tier, reference and end date, of such a row
    that none of them was created after, and nothing else happens.
    When no row is, and some row awaits its payment (status [created],
    [authenticated] or [pending]), such a row that none of them was
    created after is checked against the provider: reported [active] or
    [completed], the row is promoted with a computed end date, the
    profile is granted the tier, and the answer has the flags of the
    active shape with tier, reference and the row's recurrence, but no
    end date; reported in the pending family, the pending shape with
    the row's reference is answered; reported in any other status, the
    row takes that status and the answer is the inactive shape; when
    the fetch fails or returns nothing, the answer is the inactive
    shape. With no row of either kind, and so with no rows at all, the
    answer is the inactive shape. The answer is always one of these
    four bodies, with status 200. *)
Theorem check_subscription_precedence (rzp : Razorpay) (now : Z)
    (uid : string) (w : World) :
  uid <> "" ->
  fk_ok (db w) = true ->
  let rows := subscriptions (db w) in
  let answer := check_subscription_GET rzp now (Some uid) w in
  ((exists s, In s rows /\ current_period uid now s) ->
   exists a, latest (current_period uid now) rows a /\
             answer = (Ret (active_shape a), w)) /\
  ((forall s, In s rows -> ~ current_period uid now s) ->
   ((forall s, In s rows -> ~ awaiting_payment uid s) ->
    answer = (Ret inactive_shape, w)) /\
   ((exists s, In s rows /\ awaiting_payment uid s) ->
    exists p,
      latest (awaiting_payment uid) rows p /\
      let id := or_default (s_razorpaySubscriptionId p) "" in
      (forall r, rzp_fetch rzp id = Ret (Some r) ->
         (paid_status (r_status r) ->
          answer = (Ret (promoted_shape p),
                    mkWorld (promote now uid p (db w))
                            (rzp_calls w ++ [Fetch id]))) /\
         (unresolved_status (r_status r) ->
          answer = (Ret (pending_shape p), logged (Fetch id) w)) /\
         (~ paid_status (r_status r) -> ~ unresolved_status (r_status r) ->
          answer = (Ret inactive_shape,
                    mkWorld (overwrite_status now (r_status r) p (db w))
                            (rzp_calls w ++ [Fetch id])))) /\
      (rzp_fetch rzp id = Ret None \/ (exists e, rzp_fetch rzp id = Throw e) ->
       answer = (Ret inactive_shape, logged (Fetch id) w)))) /\
  (forall a p : Subscription,
     jget "endDate" (body (active_shape a)) = Some (jnullable_date (s_endDate a)) /\
     jget "endDate" (body (promoted_shape p)) = None) /\
  (rows = [] -> answer = (Ret inactive_shape, w)) /\
  (exists r w', answer = (Ret r, w') /\ http_status r = 200 /\
                ((exists a, r = active_shape a) \/
                 (exists p, r = promoted_shape p) \/
                 (exists p, r = pending_shape p) \/
                 r = inactive_shape)).
Proof.
  intros Huid Hfk rows answer.
  assert (Hrun := check_subscription_GET_run rzp now uid w Huid).
  fold answer rows in Hrun.
  split; [|split; [|split; [|split]]].
  - intros Hex.
    destruct (findFirst_desc_latest _ _ rows (active_query_spec uid now) Hex)
      as [a [Ha Hlatest]].
    exists a. split; [exact Hlatest|]. rewrite Hrun, Ha. reflexivity.
  - intros Hnone.
    rewrite (findFirst_desc_nothing _ _ rows (active_query_spec uid now) Hnone)
      in Hrun.
    split.
    + intros Hnop.
      rewrite (findFirst_desc_nothing _ _ rows (pending_query_spec uid) Hnop)
        in Hrun.
      exact Hrun.
    + intros Hex.
      destruct (findFirst_desc_latest _ _ rows (pending_query_spec uid) Hex)
        as [p [Hp Hlatest]].
      exists p. split; [exact Hlatest|]. cbv zeta.
      rewrite Hp in Hrun.
      destruct Hlatest as [Hin [[Huser _] _]].
      split.
      * intros r Hf. split; [|split].
        -- intros Hpaid.
           destruct (fk_profile _ _ Hfk Hin) as [q Hfind].
           rewrite Huser in Hfind. apply paid_status_mem in Hpaid.
           rewrite (check_pending_paid rzp now uid p w r q Hf Hpaid Hin Hfind)
             in Hrun.
           exact Hrun.
        -- intros Hun.
           assert (Hnp : mem (r_status r) active_family = false).
           { apply not_paid_status. intros Hpaid.
             exact (paid_not_unresolved _ Hpaid Hun). }
           apply unresolved_status_mem in Hun.
           rewrite (check_pending_unresolved rzp now uid p w r Hf Hnp Hun)
             in Hrun.
           exact Hrun.
        -- intros Hnp Hnu.
           rewrite (check_pending_other rzp now uid p w r Hf
                      (not_paid_status _ Hnp) (not_unresolved_status _ Hnu) Hin)
             in Hrun.
           exact Hrun.
      * intros [Hf|[e Hf]].
        -- rewrite (check_pending_fetch_nothing rzp now uid p w Hf) in Hrun.
           exact Hrun.
        -- rewrite (check_pending_fetch_throws rzp now uid p w e Hf) in Hrun.
           exact Hrun.
  - intros a p. split; reflexivity.
  - intros Hnil. rewrite Hnil in Hrun. exact Hrun.
  - rewrite Hrun.
    destruct (most_recent (filter (active_query uid now) rows)) as [a|];
      [eexists; eexists; split; [reflexivity|]; split;
       [reflexivity | left; eexists; reflexivity]|].
    destruct (most_recent (filter (pending_query uid) rows)) as [p|] eqn:Hp;
      [|eexists; eexists; split; [reflexivity|]; split;
        [reflexivity | right; right; right; reflexivity]].
    destruct (selected_row _ _ _ Hp) as [Hin Hq].
    apply pending_query_spec in Hq. destruct Hq as [Huser _].
    destruct (rzp_fetch rzp (or_default (s_razorpaySubscriptionId p) ""))
      as [[r|]|e] eqn:Hf.
    + destruct (mem (r_status r) active_family) eqn:Ha.
      * destruct (fk_profile _ _ Hfk Hin) as [q Hfind].
        rewrite Huser in Hfind.
        rewrite (check_pending_paid rzp now uid p w r q Hf Ha Hin Hfind).
        eexists; eexists; split; [reflexivity|]; split;
          [reflexivity | right; left; eexists; reflexivity].
      * destruct (mem (r_status r) pending_family) eqn:Hpf.
        -- rewrite (check_pending_unresolved rzp now uid p w r Hf Ha Hpf).
           eexists; eexists; split; [reflexivity|]; split;
             [reflexivity | right; right; left; eexists; reflexivity].
        -- rewrite (check_pending_other rzp now uid p w r Hf Ha Hpf Hin).
           eexists; eexists; split; [reflexivity|]; split;
             [reflexivity | right; right; right; reflexivity].
    + rewrite (check_pending_fetch_nothing rzp now uid p w Hf).
      eexists; eexists; split; [reflexivity|]; split;
        [reflexivity | right; right; right; reflexivity].
    + rewrite (check_pending_fetch_throws rzp now uid p w e Hf).
      eexists; eexists; split; [reflexivity|]; split;
        [reflexivity | right; right; right; reflexivity].
Qed.

Lemma create_profile_idempotent_witness :
  exists r1 w1,
    create_profile_POST 10 (Some Sample.user_U) Sample.empty_world = (Ret r1, w1) /\
    create_profile_POST 20 (Some Sample.user_U) w1 = (Ret exists_response, w1) /\
    count_profiles "U" (db w1) = 1%nat /\
    (count_profiles "U" (db Sample.empty_world) = 0%nat ->
     r1 = created_response /\
     filter (prisma.has_userId "U") (profiles (db w1)) =
     [mkProfile "U" "u@example.org" None false None 10 10]) /\
    (count_profiles "U" (db Sample.empty_world) = 1%nat ->
     r1 = exists_response /\ w1 = Sample.empty_world).
Proof.
  apply (create_profile_idempotent 10 20 Sample.user_U Sample.empty_world).
  - discriminate.
  - cbn. lia.
Defined.

Lemma check_subscription_precedence_witness :
  check_subscription_GET (Sample.provider "active") Sample.t0 (Some "U")
    SampleTwoPeriods.world =
  (Ret (active_shape SampleTwoPeriods.row_month), SampleTwoPeriods.world) /\
  check_subscription_GET (Sample.provider "active") Sample.t0 (Some "U")
    Sample.world_pending =
  (Ret (promoted_shape Sample.row_pending),
   mkWorld (promote Sample.t0 "U" Sample.row_pending (db Sample.world_pending))
           [Fetch "sub_1"]).
Proof.
  split.
  - destruct (check_subscription_precedence (Sample.provider "active")
                Sample.t0 "U" SampleTwoPeriods.world)
      as [Hcurrent _]; [discriminate | reflexivity |].
    assert (Hmonth : current_period "U" Sample.t0 SampleTwoPeriods.row_month).
    { split; [reflexivity|]. split; [left; reflexivity|].
      eexists. split; [reflexivity|]. vm_compute. discriminate. }
    destruct Hcurrent as [a [[Hin [_ Hlatest]] Hanswer]].
    { exists SampleTwoPeriods.row_month.
      split; [right; left; reflexivity | exact Hmonth]. }
    destruct Hin as [<-|[<-|[]]]; [|exact Hanswer].
    exfalso.
    specialize (Hlatest SampleTwoPeriods.row_month
                  (or_intror (or_introl eq_refl)) Hmonth).
    vm_compute in Hlatest. apply Hlatest. reflexivity.
  - destruct (check_subscription_precedence (Sample.provider "active")
                Sample.t0 "U" Sample.world_pending)
      as [_ [Hnone _]]; [discriminate | reflexivity |].
    destruct Hnone as [_ Hawaiting].
    { intros s [<-|[]] [_ [[H|H] _]]; discriminate H. }
    destruct Hawaiting as [p [[Hin _] [Hfetched _]]].
    { exists Sample.row_pending. split; [left; reflexivity|].
      split; [reflexivity | right; right; reflexivity]. }
    destruct Hin as [<-|[]].
    apply (Hfetched (Sample.sub_1 "active") eq_refl). left. reflexivity.
Defined.

(** The claim fails for a row that is promoted: the answer has the
    flags of the active shape, but no end date. The end date is
    written to the row, and the next query returns it. *)
Lemma check_subscription_promoted_answer_has_no_end_date :
  exists r w1,
    check_subscription_GET (Sample.provider "active") Sample.t0 (Some "U")
      Sample.world_pending = (Ret r, w1) /\
    jget "isActive" (body r) = Some (JBool true) /\
    jget "endDate" (body r) = None /\
    map s_endDate (subscriptions (db w1)) =
    [Some (JSDate.UTC 2025 1 15 12 0 0 0)] /\
    exists r2,
      check_subscription_GET (Sample.provider "active") Sample.t0 (Some "U")
        w1 = (Ret r2, w1) /\
      jget "endDate" (body r2) = Some (JDate (JSDate.UTC 2025 1 15 12 0 0 0)).
Proof.
  eexists. eexists. split; [vm_compute; reflexivity|].
  split; [reflexivity|]. split; [reflexivity|]. split; [reflexivity|].
  eexists. split; vm_compute; reflexivity.
Qed.

(** The example of the specification: one pending monthly row, the
    provider reporting [active]. *)
Example check_subscription_promotes_pending_row :
  let '(answer, w') :=
    check_subscription_GET (Sample.provider "active") Sample.t0 (Some "U")
      Sample.world_pending in
  answer = Ret (promoted_shape Sample.row_pending) /\
  subscriptions (db w') =
  [mkSubscription 0 "U" "plan_month" (Some "sub_1") None "active" "month"
     (Some Sample.t0) (Some (JSDate.UTC 2025 1 15 12 0 0 0)) false 100
     Sample.t0] /\
  profiles (db w') =
  [mkProfile "U" "u@example.org" (Some "month") true None 0 Sample.t0].
Proof. vm_compute. repeat split. Qed.

(** C6: when the provider fetch for the pending-family row throws, the
    status query does not fail: it answers 200 with the inactive shape,
    and the store is exactly as it was. *)
Theorem check_subscription_swallows_fetch_failure (rzp : Razorpay) (now : Z)
    (uid : string) (w : World) (p : Subscription) (e : string) :
  uid <> "" ->
  most_recent (filter (active_query uid now) (subscriptions (db w))) = None ->
  most_recent (filter (pending_query uid) (subscriptions (db w))) = Some p ->
  rzp_fetch rzp (or_default (s_razorpaySubscriptionId p) "") = Throw e ->
  exists w',
    check_subscription_GET rzp now (Some uid) w = (Ret inactive_shape, w') /\
    http_status inactive_shape = 200 /\
    db w' = db w /\
    rzp_calls w' =
    (rzp_calls w ++ [Fetch (or_default (s_razorpaySubscriptionId p) "")])%list.
Proof.
  intros Huid Ha Hp Hf.
  exists (logged (Fetch (or_default (s_razorpaySubscriptionId p) "")) w).
  rewrite (check_subscription_GET_run rzp now uid w Huid), Ha, Hp.
  rewrite (check_pending_fetch_throws rzp now uid p w e Hf).
  repeat split.
Qed.

Lemma check_subscription_swallows_fetch_failure_witness :
  exists w',
    check_subscription_GET Sample.provider_down Sample.t0 (Some "U")
      Sample.world_pending = (Ret inactive_shape, w') /\
    http_status inactive_shape = 200 /\
    db w' = db Sample.world_pending /\
    rzp_calls w' = (rzp_calls Sample.world_pending ++ [Fetch "sub_1"])%list.
Proof.
  apply (check_subscription_swallows_fetch_failure Sample.provider_down
           Sample.t0 "U" Sample.world_pending Sample.row_pending "ECONNRESET").
  - discriminate.
  - reflexivity.
  - reflexivity.
  - reflexivity.
Defined.

Lemma filter_none {A} (P : A -> bool) (l : list A) :
  (forall x, In x l -> P x = false) -> filter P l = [].
Proof.
  induction l as [|x l IH]; intros H; cbn; [reflexivity|].
  rewrite (H x (or_introl eq_refl)). apply IH.
  intros y Hy. apply H. right. exact Hy.
Qed.

(** A row that is [active] without an end date satisfies neither
    query. *)
Lemma active_without_end_date_unseen (uid : string) (now : Z)
    (s : Subscription) :
  s_status s = "active" -> s_endDate s = None ->
  active_query uid now s = false /\ pending_query uid s = false.
Proof.
  intros Hst Hend. unfold active_query, pending_query, endDate_gte.
  rewrite Hst, Hend. split.
  - apply andb_false_r.
  - cbn. apply andb_false_r.
Qed.

(** For a user whose rows are all [active] without an end date, both
    queries come back empty and the status query answers the inactive
    shape. *)
Lemma undated_active_rows_inactive (rzp : Razorpay) (now : Z)
    (uid : string) (w : World) :
  uid <> "" ->
  (forall s, In s (subscriptions (db w)) -> s_userId s = uid ->
             s_status s = "active" /\ s_endDate s = None) ->
  filter (active_query uid now) (subscriptions (db w)) = [] /\
  filter (pending_query uid) (subscriptions (db w)) = [] /\
  check_subscription_GET rzp now (Some uid) w = (Ret inactive_shape, w).
Proof.
  intros Huid Hrows.
  assert (Ha : filter (active_query uid now) (subscriptions (db w)) = []).
  { apply filter_none. intros s Hin.
    destruct (String.eqb_spec (s_userId s) uid) as [Hu|Hu].
    - destruct (Hrows s Hin Hu) as [Hst Hend].
      apply (active_without_end_date_unseen uid now s Hst Hend).
    - unfold active_query.
      destruct (String.eqb_spec (s_userId s) uid); [contradiction|reflexivity]. }
  assert (Hp : filter (pending_query uid) (subscriptions (db w)) = []).
  { apply filter_none. intros s Hin.
    destruct (String.eqb_spec (s_userId s) uid) as [Hu|Hu].
    - destruct (Hrows s Hin Hu) as [Hst Hend].
      apply (active_without_end_date_unseen uid now s Hst Hend).
    - unfold pending_query.
      destruct (String.eqb_spec (s_userId s) uid); [contradiction|reflexivity]. }
  split; [exact Ha|]. split; [exact Hp|].
  rewrite (check_subscription_GET_run rzp now uid w Huid), Ha, Hp.
  reflexivity.
Qed.

(** C10: a row whose status is [active] and whose end date is null is
    selected neither by the active query (a null end date satisfies no
    comparison) nor by the pending query (its status is outside the
    pending family); so for a user whose rows are all of that kind the
    status query answers the inactive shape, and leaves the world as it
    was. *)
Theorem active_without_end_date_is_inactive (rzp : Razorpay) (now : Z)
    (uid : string) (w : World) :
  uid <> "" ->
  (forall s, In s (subscriptions (db w)) -> s_userId s = uid ->
             s_status s = "active" /\ s_endDate s = None) ->
  (forall s, In s (subscriptions (db w)) -> s_userId s = uid ->
             active_query uid now s = false /\ pending_query uid s = false) /\
  check_subscription_GET rzp now (Some uid) w = (Ret inactive_shape, w) /\
  shape_of inactive_shape = Inactive.
Proof.
  intros Huid Hrows. split; [|split; [|reflexivity]].
  - intros s Hin Hu. destruct (Hrows s Hin Hu) as [Hst Hend].
    apply (active_without_end_date_unseen uid now s Hst Hend).
  - apply (undated_active_rows_inactive rzp now uid w Huid Hrows).
Qed.

Lemma active_without_end_date_is_inactive_witness :
  (forall s, In s (subscriptions (db SampleCaptured.world_captured)) ->
             s_userId s = "U" ->
             active_query "U" Sample.t0 s = false /\
             pending_query "U" s = false) /\
  check_subscription_GET (Sample.provider "active") Sample.t0 (Some "U")
    SampleCaptured.world_captured = (Ret inactive_shape, SampleCaptured.world_captured) /\
  shape_of inactive_shape = Inactive.
Proof.
  apply (active_without_end_date_is_inactive (Sample.provider "active")
           Sample.t0 "U" SampleCaptured.world_captured).
  - discriminate.
  - intros s [Hs|[]] _. subst s. split; reflexivity.
Defined.




(* ================================================================== *)
(** ** Subscription creation *)
(* ================================================================== *)

Lemma create_call_run rzp p w :
  subscriptions_create rzp p w = (rzp_create rzp p, logged (Create p) w).
Proof. reflexivity. Qed.

(** [create] succeeds when the foreign key and the unique index are
    satisfied, and appends the row. *)
Lemma prisma_create_run now c w :
  existsb (prisma.has_userId (prisma.sc_userId c)) (profiles (db w)) = true ->
  existsb (has_rid (prisma.sc_razorpaySubscriptionId c))
          (subscriptions (db w)) = false ->
  prisma.create now c w =
  (Ret tt,
   mkWorld
     (mkDB (profiles (db w))
        (subscriptions (db w) ++
         [mkSubscription (next_id (db w)) (prisma.sc_userId c)
            (prisma.sc_planId c) (Some (prisma.sc_razorpaySubscriptionId c))
            (prisma.sc_razorpayPaymentId c) (prisma.sc_status c)
            (prisma.sc_planType c) (prisma.sc_startDate c)
            (prisma.sc_endDate c) (prisma.sc_isRecurring c) now now])
        (S (next_id (db w))))
     (rzp_calls w)).
Proof.
  intros Hfk Huniq.
  unfold prisma.create, bind, get_db, put_db, throw.
  unfold prisma.has_userId in Hfk. rewrite Hfk, Huniq. reflexivity.
Qed.

(** Whatever the request, a user with a current paid period gets a
    client error and nothing is touched. *)
Lemma checkout_rejects_second_period env rzp now req w a :
  find (has_active_period (or_default (co_userId req) "") now)
       (subscriptions (db w)) = Some a ->
  exists r,
    checkout_POST env rzp now req w = (Ret r, w) /\ http_status r = 400 /\
    (truthy (co_planType req) = true -> truthy (co_userId req) = true ->
     truthy (co_email req) = true ->
     mem (or_default (co_planType req) "") allowedPlans = true ->
     truthy (getPriceIdFromType env (or_default (co_planType req) "")) = true ->
     r = already_subscribed_response a).
Proof.
  intros Hfind. unfold checkout_POST, try_catch.
  destruct (truthy (co_planType req)); cbn [negb orb];
    [|eexists; split; [reflexivity|]; split; [reflexivity|];
      intros; discriminate].
  destruct (truthy (co_userId req)); cbn [negb orb];
    [|eexists; split; [reflexivity|]; split; [reflexivity|];
      intros; discriminate].
  destruct (truthy (co_email req)); cbn [negb orb];
    [|eexists; split; [reflexivity|]; split; [reflexivity|];
      intros; discriminate].
  destruct (mem (or_default (co_planType req) "") allowedPlans); cbn [negb];
    [|eexists; split; [reflexivity|]; split; [reflexivity|];
      intros; discriminate].
  destruct (truthy (getPriceIdFromType env (or_default (co_planType req) "")));
    cbn [negb];
    [|eexists; split; [reflexivity|]; split; [reflexivity|];
      intros; discriminate].
  unfold bind, prisma.findFirst, get_db, bind, ret. rewrite Hfind.
  eexists; split; [reflexivity|]; split; [reflexivity|]. intros; reflexivity.
Qed.

Lemma has_active_period_spec (uid : string) (now : Z) (s : Subscription) :
  has_active_period uid now s = true <-> active_period uid now s.
Proof.
  unfold has_active_period, active_period, endDate_gte.
  rewrite !andb_true_iff, !String.eqb_eq. split.
  - intros [[Hu Hs] He]. split; [exact Hu|]. split; [exact Hs|].
    destruct (s_endDate s) as [e|]; [|discriminate].
    exists e. split; [reflexivity|]. apply Z.leb_le. exact He.
  - intros [Hu [Hs [e [He Hle]]]]. rewrite He.
    repeat split; try assumption. apply Z.leb_le. exact Hle.
Qed.

(** What the guard of the checkout route finds, in terms of the
    rows. *)
Lemma find_active_period (uid : string) (now : Z) (rows : list Subscription)
    (s : Subscription) :
  In s rows -> active_period uid now s ->
  exists a, find (has_active_period uid now) rows = Some a /\
            In a rows /\ active_period uid now a.
Proof.
  intros Hin Hs.
  destruct (find (has_active_period uid now) rows) as [a|] eqn:Hfind.
  - exists a. split; [reflexivity|].
    apply find_some in Hfind. destruct Hfind as [Ha HP].
    split; [exact Ha | apply has_active_period_spec; exact HP].
  - exfalso. apply (find_none _ _ Hfind s) in Hin.
    apply has_active_period_spec in Hs. congruence.
Qed.

Lemma find_no_active_period (uid : string) (now : Z)
    (rows : list Subscription) :
  (forall s, In s rows -> ~ active_period uid now s) ->
  find (has_active_period uid now) rows = None.
Proof.
  intros Hnone.
  destruct (find (has_active_period uid now) rows) as [a|] eqn:Hfind;
    [|reflexivity].
  apply find_some in Hfind. destruct Hfind as [Ha HP].
  exfalso. apply (Hnone a Ha). apply has_active_period_spec. exact HP.
Qed.

Lemma allowed_plan_mem (planType : string) :
  allowed_plan planType -> mem planType allowedPlans = true.
Proof. intros [-> | [-> | ->]]; reflexivity. Qed.

Lemma allowed_plan_nonempty (planType : string) :
  allowed_plan planType -> planType <> "".
Proof. intros [-> | [-> | ->]]; discriminate. Qed.

(** C4: a checkout call by a user one of whose rows has the status
    [active] and an end date that is not before now is rejected with a
    client error, whatever else the request holds, and neither a
    provider call nor a local write happens; when the request is
    otherwise complete (an allowed plan type, a resolvable price) the
    answer names the plan and end date of such a row. When the user has
    no such row, a call with an allowed plan type and a resolvable
    price creates a provider subscription with [total_count = 1],
    appends a local row carrying the provider's initial status, and
    answers with the checkout URL and a callback URL that embeds the
    provider's subscription id. *)
Theorem checkout_guard_and_creation (env : Env) (rzp : Razorpay) (now : Z)
    (req : CheckoutRequest) (w : World) :
  (forall s,
     In s (subscriptions (db w)) ->
     active_period (or_default (co_userId req) "") now s ->
     exists r,
       checkout_POST env rzp now req w = (Ret r, w) /\ http_status r = 400) /\
  (forall planType uid email priceId s,
     co_planType req = Some planType -> allowed_plan planType ->
     co_userId req = Some uid -> uid <> "" ->
     co_email req = Some email -> email <> "" ->
     getPriceIdFromType env planType = Some priceId -> priceId <> "" ->
     In s (subscriptions (db w)) -> active_period uid now s ->
     exists a,
       In a (subscriptions (db w)) /\ active_period uid now a /\
       checkout_POST env rzp now req w =
       (Ret (already_subscribed_response a), w)) /\
  (forall planType uid email priceId sub,
     co_planType req = Some planType -> allowed_plan planType ->
     co_userId req = Some uid -> uid <> "" ->
     co_email req = Some email -> email <> "" ->
     getPriceIdFromType env planType = Some priceId -> priceId <> "" ->
     (forall s, In s (subscriptions (db w)) -> ~ active_period uid now s) ->
     rzp_create rzp (mkCreate priceId 1 1
                       (mkNotes (Some uid) (Some planType) (Some email)))
       = Ret sub ->
     existsb (prisma.has_userId uid) (profiles (db w)) = true ->
     existsb (has_rid (r_id sub)) (subscriptions (db w)) = false ->
     checkout_POST env rzp now req w =
     (Ret (checkout_response (resolve_origin env (co_origin req)) sub),
      mkWorld
        (mkDB (profiles (db w))
           (subscriptions (db w) ++
            [mirrored_row (next_id (db w)) now uid planType sub false])
           (S (next_id (db w))))
        (rzp_calls w ++ [checkout_call priceId uid planType email])) /\
     total_count_of (checkout_call priceId uid planType email) = Some 1).
Proof.
  split; [|split].
  - intros s Hin Hs.
    destruct (find_active_period _ _ _ s Hin Hs) as [a [Hfind _]].
    destruct (checkout_rejects_second_period env rzp now req w a Hfind)
      as [r [Hrun [Hst _]]].
    exists r. split; assumption.
  - intros planType uid email priceId s Hplan Hallowed Huser Huid Hmail
      Hemail Hprice Hpid Hin Hs.
    pose proof (allowed_plan_nonempty _ Hallowed) as Hpt.
    assert (Hu : or_default (co_userId req) "" = uid)
      by (rewrite Huser; apply or_default_some; exact Huid).
    destruct (find_active_period _ _ _ s Hin Hs) as [a [Hfind [Ha Hperiod]]].
    exists a. split; [exact Ha|]. split; [exact Hperiod|].
    rewrite <- Hu in Hfind.
    destruct (checkout_rejects_second_period env rzp now req w a Hfind)
      as [r [Hrun [_ Hr]]].
    rewrite Hrun. rewrite Hr; [reflexivity| | | | |].
    + rewrite Hplan. apply truthy_some. exact Hpt.
    + rewrite Huser. apply truthy_some. exact Huid.
    + rewrite Hmail. apply truthy_some. exact Hemail.
    + rewrite Hplan, (or_default_some _ _ Hpt).
      apply allowed_plan_mem. exact Hallowed.
    + rewrite Hplan, (or_default_some _ _ Hpt), Hprice.
      apply truthy_some. exact Hpid.
  - intros planType uid email priceId sub Hplan Hallowed Huser Huid Hmail
      Hemail Hprice Hpid Hnone Hcreate Hfk Huniq.
    split; [|reflexivity].
    pose proof (allowed_plan_nonempty _ Hallowed) as Hpt.
    apply allowed_plan_mem in Hallowed.
    apply find_no_active_period in Hnone.
    unfold checkout_POST, try_catch.
    rewrite Hplan, Huser, Hmail.
    rewrite (truthy_some _ Hpt), (truthy_some _ Huid), (truthy_some _ Hemail).
    rewrite (or_default_some _ _ Hpt), (or_default_some _ _ Huid),
      (or_default_some _ _ Hemail).
    cbn [negb orb]. rewrite Hallowed, Hprice. rewrite (truthy_some _ Hpid).
    rewrite (or_default_some _ _ Hpid). cbn [negb].
    unfold bind at 1, prisma.findFirst, bind at 1, get_db, ret at 1.
    rewrite Hnone.
    unfold bind at 1. rewrite create_call_run, Hcreate.
    unfold bind at 1. rewrite prisma_create_run; [reflexivity| |].
    + cbn [prisma.sc_userId logged db]. exact Hfk.
    + cbn [prisma.sc_razorpaySubscriptionId logged db]. exact Huniq.
Qed.

Lemma checkout_guard_and_creation_witness :
  checkout_POST Sample.env (Sample.provider "created") Sample.t0
    (mkCheckoutRequest (Some "year") (Some "U") (Some "u@example.org") None)
    Sample.world_active =
  (Ret (already_subscribed_response Sample.row_active), Sample.world_active) /\
  (checkout_POST Sample.env (Sample.provider "created") Sample.t0
     (mkCheckoutRequest (Some "month") (Some "U") (Some "u@example.org")
        (Some "https://meals.example"))
     Sample.world_profile_only =
   (Ret (checkout_response "https://meals.example" Sample.sub_2),
    mkWorld
      (mkDB [Sample.profile_U]
         [mirrored_row 0 Sample.t0 "U" "month" Sample.sub_2 false] 1)
      [checkout_call "plan_month" "U" "month" "u@example.org"]) /\
   total_count_of (checkout_call "plan_month" "U" "month" "u@example.org")
   = Some 1).
Proof.
  split.
  - destruct (proj1 (proj2 (checkout_guard_and_creation Sample.env
                       (Sample.provider "created") Sample.t0
                       (mkCheckoutRequest (Some "year") (Some "U")
                          (Some "u@example.org") None)
                       Sample.world_active))
                "year" "U" "u@example.org" "plan_year" Sample.row_active)
      as [a [[<-|[]] [_ Hrun]]];
      try solve [reflexivity | discriminate | exact Hrun].
    + right; right; reflexivity.
    + left; reflexivity.
    + split; [reflexivity|]. split; [reflexivity|].
      eexists. split; [reflexivity|]. vm_compute. discriminate.
  - refine (proj2 (proj2 (checkout_guard_and_creation Sample.env
                     (Sample.provider "created") Sample.t0
                     (mkCheckoutRequest (Some "month") (Some "U")
                        (Some "u@example.org") (Some "https://meals.example"))
                     Sample.world_profile_only))
                  "month" "U" "u@example.org" "plan_month" Sample.sub_2
                  _ _ _ _ _ _ _ _ _ _ _ _);
      try solve [reflexivity | discriminate].
    + right; left; reflexivity.
    + intros s [].
Defined.

(** A second checkout while the first period runs: rejected, nothing
    sent to the provider, nothing stored. *)
Example checkout_while_active :
  checkout_POST Sample.env (Sample.provider "created") Sample.t0
    (mkCheckoutRequest (Some "year") (Some "U") (Some "u@example.org") None)
    Sample.world_active =
  (Ret (already_subscribed_response Sample.row_active), Sample.world_active).
Proof. vm_compute. reflexivity. Qed.

(* ================================================================== *)
(** ** Resuming a payment *)
(* ================================================================== *)

Lemma mem_pending_family_not_active (st : string) :
  mem st pending_family = true -> String.eqb st "active" = false.
Proof.
  unfold mem, pending_family. cbn [existsb]. intros H.
  destruct (String.eqb_spec st "active") as [->|]; [discriminate H|reflexivity].
Qed.

(** The resume route up to the case analysis on the provider's status,
    for a caller that owns the subscription locally and at the
    provider. *)
Lemma resume_payment_run env rzp now req w sid uid row sub :
  sr_subscriptionId req = Some sid -> sid <> "" ->
  sr_userId req = Some uid -> uid <> "" ->
  find (owned_by sid uid) (subscriptions (db w)) = Some row ->
  rzp_fetch rzp sid = Ret (Some sub) ->
  note n_userId sub = Some uid ->
  String.eqb (r_status sub) "active" = false ->
  resume_payment_POST env rzp now req w =
  if String.eqb (r_status sub) "cancelled" || String.eqb (r_status sub) "expired"
  then
    match rzp_create rzp
            (mkCreate (r_plan_id sub) (r_total_count sub) 1
               (mkNotes (Some uid)
                  (Some (or_default (note n_planType sub) "month"))
                  (Some (or_default (note n_email sub) "")))) with
    | Ret new =>
        match prisma.create now
                (prisma.mkSubCreate uid (r_plan_id sub) (r_id new) None
                   (r_status new) (or_default (note n_planType sub) "month")
                   None None
                   ((1 <? r_total_count new) || (r_total_count new =? 0)))
                (logged (carried_forward_call uid sub) (logged (Fetch sid) w))
        with
        | (Ret _, w') =>
            (Ret (new_checkout_response
                    (resolve_origin env (sr_origin req)) new), w')
        | (Throw e, w') =>
            (Ret (NextResponse_json
                    [("error",
                      JString (message_or e "Failed to resume payment"))] 500),
             w')
        end
    | Throw e =>
        (Ret (NextResponse_json
                [("error", JString (message_or e "Failed to resume payment"))]
                500),
         logged (carried_forward_call uid sub) (logged (Fetch sid) w))
    end
  else if mem (r_status sub) pending_family then
    (Ret (existing_checkout_response (resolve_origin env (sr_origin req)) sub),
     logged (Fetch sid) w)
  else
    (Ret (cannot_resume_response (r_status sub)), logged (Fetch sid) w).
Proof.
  intros Hsid Hsid0 Huser Huid Hfind Hfetch Hnote Hactive.
  unfold resume_payment_POST, try_catch.
  rewrite Hsid, Huser, (truthy_some _ Hsid0), (truthy_some _ Huid),
    (or_default_some _ _ Hsid0), (or_default_some _ _ Huid).
  cbn [negb orb].
  unfold bind at 1, prisma.findFirst, bind at 1, get_db, ret at 1.
  rewrite Hfind.
  unfold bind at 1. rewrite fetch_run, Hfetch, Hnote, opt_eqb_refl, Hactive.
  cbn [negb].
  destruct (String.eqb (r_status sub) "cancelled" ||
            String.eqb (r_status sub) "expired").
  - unfold bind at 1. rewrite create_call_run.
    destruct (rzp_create rzp _) as [new|e]; [|reflexivity].
    unfold bind at 1, carried_forward_call.
    destruct (prisma.create now _ _) as [[[]|e] w']; reflexivity.
  - destruct (mem (r_status sub) pending_family); reflexivity.
Qed.

(** C5, as the code has it: for a caller that owns the subscription, a
    provider status of [cancelled] or [expired] creates a replacement
    at the provider with the same plan, billing count and notes, stores
    a new local row for it and answers its checkout URL; a status of
    the pending family answers the existing checkout URL and writes
    nothing; any other status that is not [active] is answered with
    HTTP status 400, the body carrying the "cannot resume" message and
    the provider's status, and nothing is created or written. *)
Theorem resume_payment_by_status (env : Env) (rzp : Razorpay) (now : Z)
    (req : SubscriptionRequest) (w : World) (sid uid : string)
    (row : Subscription) (sub : RazorpaySubscription) :
  sr_subscriptionId req = Some sid -> sid <> "" ->
  sr_userId req = Some uid -> uid <> "" ->
  fk_ok (db w) = true ->
  find (owned_by sid uid) (subscriptions (db w)) = Some row ->
  rzp_fetch rzp sid = Ret (Some sub) ->
  note n_userId sub = Some uid ->
  String.eqb (r_status sub) "active" = false ->
  let answer := resume_payment_POST env rzp now req w in
  let origin := resolve_origin env (sr_origin req) in
  if String.eqb (r_status sub) "cancelled" || String.eqb (r_status sub) "expired"
  then
    forall new,
      rzp_create rzp
        (mkCreate (r_plan_id sub) (r_total_count sub) 1
           (mkNotes (Some uid)
              (Some (or_default (note n_planType sub) "month"))
              (Some (or_default (note n_email sub) "")))) = Ret new ->
      existsb (has_rid (r_id new)) (subscriptions (db w)) = false ->
      answer =
      (Ret (new_checkout_response origin new),
       mkWorld
         (mkDB (profiles (db w))
            (subscriptions (db w) ++
             [replacement_row (next_id (db w)) now uid sub new])
            (S (next_id (db w))))
         (rzp_calls w ++ [Fetch sid] ++ [carried_forward_call uid sub]))
  else if mem (r_status sub) pending_family then
    answer = (Ret (existing_checkout_response origin sub),
              logged (Fetch sid) w)
  else
    answer = (Ret (cannot_resume_response (r_status sub)),
              logged (Fetch sid) w) /\
    http_status (cannot_resume_response (r_status sub)) = 400 /\
    jget "error" (body (cannot_resume_response (r_status sub))) = None.
Proof.
  intros Hsid Hsid0 Huser Huid Hfk Hfind Hfetch Hnote Hactive answer origin.
  subst answer origin.
  rewrite (resume_payment_run env rzp now req w sid uid row sub
             Hsid Hsid0 Huser Huid Hfind Hfetch Hnote Hactive).
  destruct (String.eqb (r_status sub) "cancelled" ||
            String.eqb (r_status sub) "expired").
  - intros new Hcreate Huniq. rewrite Hcreate.
    apply find_some in Hfind. destruct Hfind as [Hin Hown].
    assert (Hrowuser : s_userId row = uid).
    { unfold owned_by in Hown. apply andb_prop in Hown.
      apply String.eqb_eq. exact (proj2 Hown). }
    destruct (fk_profile _ _ Hfk Hin) as [q Hq]. rewrite Hrowuser in Hq.
    rewrite prisma_create_run.
    + unfold logged, replacement_row. cbn [db rzp_calls prisma.sc_userId
        prisma.sc_planId prisma.sc_razorpaySubscriptionId
        prisma.sc_razorpayPaymentId prisma.sc_status prisma.sc_planType
        prisma.sc_startDate prisma.sc_endDate prisma.sc_isRecurring].
      rewrite <- app_assoc. reflexivity.
    + cbn [prisma.sc_userId logged db].
      apply (find_some_existsb _ _ _ Hq).
    + cbn [prisma.sc_razorpaySubscriptionId logged db]. exact Huniq.
  - destruct (mem (r_status sub) pending_family); [reflexivity|].
    split; [reflexivity|]. split; reflexivity.
Qed.

Lemma resume_payment_by_status_witness :
  resume_payment_POST Sample.env (Sample.provider "expired") Sample.t0
    SampleResume.resume_request Sample.world_active =
  (Ret (new_checkout_response "https://meals.example" Sample.sub_2),
   mkWorld
     (mkDB [Sample.profile_U_active]
        [Sample.row_active;
         replacement_row 1 Sample.t0 "U" (Sample.sub_1 "expired") Sample.sub_2]
        2)
     [Fetch "sub_1"; carried_forward_call "U" (Sample.sub_1 "expired")]).
Proof.
  refine (resume_payment_by_status Sample.env (Sample.provider "expired")
            Sample.t0 SampleResume.resume_request Sample.world_active
            "sub_1" "U" Sample.row_active (Sample.sub_1 "expired")
            _ _ _ _ _ _ _ _ _ Sample.sub_2 _ _);
    solve [reflexivity | discriminate].
Defined.

(** The claim's last clause fails as stated: a halted subscription is
    answered with an HTTP client error, not with a success response. *)
Lemma resume_payment_halted_is_client_error :
  resume_payment_POST Sample.env (Sample.provider "halted") Sample.t0
    SampleResume.resume_request Sample.world_active =
  (Ret (cannot_resume_response "halted"),
   logged (Fetch "sub_1") Sample.world_active) /\
  http_status (cannot_resume_response "halted") = 400.
Proof. split; reflexivity. Qed.

(* ================================================================== *)
(** ** Cancellation *)
(* ================================================================== *)

Lemma cancel_call_run rzp id w :
  subscriptions_cancel rzp id w = (rzp_cancel rzp id, logged (Cancel id) w).
Proof. reflexivity. Qed.

(** Revoking access never trips the unique index: it writes a null
    reference. *)
Lemma profile_update_deactivate_run now uid w q :
  find (prisma.has_userId uid) (profiles (db w)) = Some q ->
  prisma.profile_update now uid deactivate w =
  (Ret tt, mkWorld (revoke_access now uid (db w)) (rzp_calls w)).
Proof.
  intros Hq. unfold prisma.profile_update, bind, get_db, put_db, throw.
  rewrite Hq. cbn [deactivate prisma.p_set_tier prisma.p_set_stripe
                   prisma.p_set_active p_stripeSubscriptionId
                   prisma.stripe_taken].
  rewrite andb_false_r. reflexivity.
Qed.

Lemma revoke_access_has_access now uid d q :
  find (prisma.has_userId uid) (profiles d) = Some q ->
  has_access uid (revoke_access now uid d) = Some false.
Proof.
  unfold has_access, revoke_access. cbn [profiles].
  induction (profiles d) as [|x l IH]; cbn [find map]; [discriminate|].
  destruct (prisma.has_userId uid x) eqn:Hx.
  - intros _. cbn [find]. unfold prisma.has_userId in *. cbn. rewrite Hx.
    reflexivity.
  - intros H. cbn [find]. rewrite Hx. apply IH. exact H.
Qed.

(** The cancel route up to its two inner [try] blocks, for a caller
    that owns the subscription. *)
Lemma cancel_subscription_run rzp now req w sid uid row :
  sr_subscriptionId req = Some sid -> sid <> "" ->
  sr_userId req = Some uid -> uid <> "" ->
  find (owned_by sid uid) (subscriptions (db w)) = Some row ->
  cancel_subscription_POST rzp now req w =
  try_catch
    (early <- try_catch (cancel_check_completed rzp now sid uid row)
                        (fun _ => ret None) ;;
     match early with
     | Some r => ret r
     | None => cancel_at_provider rzp now sid uid row
     end)
    (fun e =>
       ret (NextResponse_json
              [("success", JBool false);
               ("error", JString (message_or e "Failed to cancel subscription"))]
              500)) w.
Proof.
  intros Hsid Hsid0 Huser Huid Hfind.
  unfold cancel_subscription_POST.
  rewrite Hsid, Huser, (truthy_some _ Hsid0), (truthy_some _ Huid),
    (or_default_some _ _ Hsid0), (or_default_some _ _ Huid).
  cbn [negb orb].
  unfold try_catch at 1. unfold bind at 1, prisma.findFirst, bind at 1,
    get_db, ret at 1.
  rewrite Hfind. reflexivity.
Qed.

(** C1, what the code does: when the provider reports the subscription
    [completed], the cancel route marks the local row [cancelled],
    answers that access will remain until the end date, and all the
    same revokes the profile's access on the spot. *)
Theorem cancel_completed_revokes_access (rzp : Razorpay) (now : Z)
    (req : SubscriptionRequest) (w : World) (sid uid : string)
    (row : Subscription) (sub : RazorpaySubscription) (q : Profile) :
  sr_subscriptionId req = Some sid -> sid <> "" ->
  sr_userId req = Some uid -> uid <> "" ->
  find (owned_by sid uid) (subscriptions (db w)) = Some row ->
  find (prisma.has_userId uid) (profiles (db w)) = Some q ->
  rzp_fetch rzp sid = Ret (Some sub) ->
  r_status sub = "completed" ->
  cancel_subscription_POST rzp now req w =
  (Ret completed_message,
   mkWorld (revoke_access now uid (mark_cancelled now row (db w)))
           (rzp_calls w ++ [Fetch sid])) /\
  has_access uid (revoke_access now uid (mark_cancelled now row (db w)))
  = Some false.
Proof.
  intros Hsid Hsid0 Huser Huid Hfind Hq Hfetch Hst.
  split.
  - rewrite (cancel_subscription_run rzp now req w sid uid row
               Hsid Hsid0 Huser Huid Hfind).
    apply find_some in Hfind. destruct Hfind as [Hin _].
    unfold try_catch at 1, bind at 1, try_catch at 1, cancel_check_completed,
      bind at 1.
    rewrite fetch_run, Hfetch. unfold deref, bind at 1, ret at 1.
    rewrite Hst. cbn [String.eqb Ascii.eqb Bool.eqb andb].
    unfold bind at 1. rewrite update_by_id_run by exact Hin.
    unfold bind at 1.
    rewrite (profile_update_deactivate_run now uid _ q) by exact Hq.
    reflexivity.
  - apply (revoke_access_has_access now uid _ q). exact Hq.
Qed.

Lemma cancel_completed_revokes_access_witness :
  cancel_subscription_POST (Sample.provider "completed") Sample.t0
    SampleCancel.cancel_request Sample.world_active =
  (Ret completed_message,
   mkWorld (revoke_access Sample.t0 "U"
              (mark_cancelled Sample.t0 Sample.row_active
                 (db Sample.world_active)))
           [Fetch "sub_1"]) /\
  has_access "U"
    (revoke_access Sample.t0 "U"
       (mark_cancelled Sample.t0 Sample.row_active (db Sample.world_active)))
  = Some false.
Proof.
  refine (cancel_completed_revokes_access (Sample.provider "completed")
            Sample.t0 SampleCancel.cancel_request Sample.world_active "sub_1" "U"
            Sample.row_active (Sample.sub_1 "completed")
            Sample.profile_U_active _ _ _ _ _ _ _ _);
    solve [reflexivity | discriminate].
Defined.

Lemma cancel_check_not_completed rzp now sid uid row w :
  not_completed rzp sid = true ->
  try_catch (cancel_check_completed rzp now sid uid row) (fun _ => ret None) w
  = (Ret None, logged (Fetch sid) w).
Proof.
  unfold not_completed. intros H.
  unfold try_catch, cancel_check_completed, bind at 1.
  rewrite fetch_run.
  destruct (rzp_fetch rzp sid) as [[r|]|e]; [|reflexivity..].
  unfold deref, bind at 1, ret at 1.
  destruct (String.eqb (r_status r) "completed"); [discriminate|reflexivity].
Qed.

(** X2, the sibling path: when it is the cancel call that says the
    subscription is already finalized, the row is marked [cancelled]
    and the profile is not touched. *)
Theorem cancel_finalized_error_keeps_profile (rzp : Razorpay) (now : Z)
    (req : SubscriptionRequest) (w : World) (sid uid : string)
    (row : Subscription) (message : string) :
  sr_subscriptionId req = Some sid -> sid <> "" ->
  sr_userId req = Some uid -> uid <> "" ->
  find (owned_by sid uid) (subscriptions (db w)) = Some row ->
  not_completed rzp sid = true ->
  rzp_cancel rzp sid = Throw message ->
  says_finalized message = true ->
  exists w',
    cancel_subscription_POST rzp now req w = (Ret completed_message, w') /\
    db w' = mark_cancelled now row (db w) /\
    profiles (db w') = profiles (db w).
Proof.
  intros Hsid Hsid0 Huser Huid Hfind Hnc Hcancel Hsays.
  rewrite (cancel_subscription_run rzp now req w sid uid row
             Hsid Hsid0 Huser Huid Hfind).
  apply find_some in Hfind. destruct Hfind as [Hin _].
  unfold try_catch at 1, bind at 1.
  rewrite (cancel_check_not_completed rzp now sid uid row w Hnc).
  unfold cancel_at_provider, try_catch at 1, bind at 1.
  rewrite cancel_call_run, Hcancel.
  unfold says_finalized in Hsays. rewrite Hsays.
  unfold bind at 1. rewrite update_by_id_run by exact Hin.
  eexists. split; [reflexivity|]. split; reflexivity.
Qed.

Lemma cancel_finalized_error_keeps_profile_witness :
  exists w',
    cancel_subscription_POST SampleCancel.provider_finalized Sample.t0
      SampleCancel.cancel_request Sample.world_active = (Ret completed_message, w') /\
    db w' = mark_cancelled Sample.t0 Sample.row_active (db Sample.world_active) /\
    profiles (db w') = profiles (db Sample.world_active).
Proof.
  refine (cancel_finalized_error_keeps_profile SampleCancel.provider_finalized
            Sample.t0 SampleCancel.cancel_request Sample.world_active "sub_1" "U"
            Sample.row_active "Subscription is already completed"
            _ _ _ _ _ _ _ _);
    solve [reflexivity | discriminate].
Defined.



(* ================================================================== *)
(** ** Signature verification *)
(* ================================================================== *)

(** The webhook routes turn a request away before its body is parsed:
    whatever [JSON.parse] would do with it, on either route. *)
Lemma webhook_rejects_bad_signature
    (JSON_parse : string -> outcome WebhookData) (typed : bool) (env : Env)
    (now : Z) (request : WebhookRequest) (w : World) :
  createHmac_sha256_hex (or_default (RAZORPAY_WEBHOOK_SECRET env) "")
    (wr_body request) <> or_default (wr_signature request) "" ->
  webhook_POST JSON_parse typed env now request w = (Ret webhook_unauthorized, w).
Proof.
  intros Hsig. unfold webhook_POST, try_catch.
  destruct (String.eqb_spec
              (createHmac_sha256_hex
                 (or_default (RAZORPAY_WEBHOOK_SECRET env) "")
                 (wr_body request))
              (or_default (wr_signature request) "")); [contradiction|].
  reflexivity.
Qed.

(** The signed flow of the verification route answers 400 to a
    signature that does not match, and writes nothing. *)
Lemma verify_signed_rejects_bad_signature (env : Env) (rzp : Razorpay)
    (now : Z) (req : VerifyRequest) (w : World) :
  truthy (vr_sessionId req) = false ->
  truthy (vr_subscriptionId req) = false ->
  vr_razorpay_signature req <>
  Some (createHmac_sha256_hex (or_default (RAZORPAY_KEY_SECRET env) "")
          (signed_payload req)) ->
  verify_payment_POST env rzp now (Ret req) w = (Ret verify_invalid_signature, w).
Proof.
  intros Hs1 Hs2 Hsig.
  unfold verify_payment_POST, try_catch, bind, lift.
  rewrite Hs1, Hs2. cbn [orb]. unfold verify_signed.
  fold (signed_payload req).
  destruct (opt_eqb
              (Some (createHmac_sha256_hex
                       (or_default (RAZORPAY_KEY_SECRET env) "")
                       (signed_payload req)))
              (vr_razorpay_signature req)) eqn:Heq; [|reflexivity].
  exfalso. apply Hsig.
  destruct (vr_razorpay_signature req) as [s|]; cbn in Heq; [|discriminate].
  apply String.eqb_eq in Heq. rewrite Heq. reflexivity.
Qed.

(** C2, as the code has it: on both webhook routes a request whose
    signature header differs from the hex HMAC-SHA256 of the raw body
    under the webhook secret is answered 401 before the body is parsed
    (the answer does not depend on the parser) and the world is left as
    it was; the signed flow of the verification route parses the JSON
    body first, checks the signature field against the HMAC-SHA256 of
    [payment_id|subscription_id] under the key secret, each identifier
    as the template literal renders it (a string as it is, [null] as
    the text [null], a missing one as [undefined]), and answers a
    mismatch with 400, the world again left as it was. *)
Theorem bad_signature_is_rejected_without_writes (env : Env) (rzp : Razorpay)
    (now : Z) (w : World) :
  (forall JSON_parse typed request,
     createHmac_sha256_hex (or_default (RAZORPAY_WEBHOOK_SECRET env) "")
       (wr_body request) <> or_default (wr_signature request) "" ->
     webhook_POST JSON_parse typed env now request w =
     (Ret webhook_unauthorized, w) /\
     http_status webhook_unauthorized = 401) /\
  (forall req,
     truthy (vr_sessionId req) = false ->
     truthy (vr_subscriptionId req) = false ->
     vr_razorpay_signature req <>
     Some (createHmac_sha256_hex (or_default (RAZORPAY_KEY_SECRET env) "")
             (signed_payload req)) ->
     verify_payment_POST env rzp now (Ret req) w =
     (Ret verify_invalid_signature, w) /\
     http_status verify_invalid_signature = 400).
Proof.
  split.
  - intros JSON_parse typed request Hsig. split; [|reflexivity].
    apply webhook_rejects_bad_signature. exact Hsig.
  - intros req Hs1 Hs2 Hsig. split; [|reflexivity].
    apply verify_signed_rejects_bad_signature; assumption.
Qed.

Lemma bad_signature_is_rejected_without_writes_witness :
  (webhook_POST SampleSignature.parse true Sample.env Sample.t0 SampleSignature.forged_webhook
     SampleCaptured.world_created = (Ret webhook_unauthorized, SampleCaptured.world_created) /\
   http_status webhook_unauthorized = 401) /\
  (verify_payment_POST Sample.env (Sample.provider "active") Sample.t0
     (Ret SampleSignature.forged_checkout) SampleCaptured.world_created =
   (Ret verify_invalid_signature, SampleCaptured.world_created) /\
   http_status verify_invalid_signature = 400) /\
  (verify_payment_POST Sample.env (Sample.provider "active") Sample.t0
     (Ret SampleSignature.null_checkout) SampleCaptured.world_created =
   (Ret verify_invalid_signature, SampleCaptured.world_created) /\
   http_status verify_invalid_signature = 400) /\
  (verify_payment_POST Sample.env (Sample.provider "active") Sample.t0
     (Ret SampleSignature.missing_checkout) SampleCaptured.world_created =
   (Ret verify_invalid_signature, SampleCaptured.world_created) /\
   http_status verify_invalid_signature = 400).
Proof.
  pose proof (bad_signature_is_rejected_without_writes Sample.env
                (Sample.provider "active") Sample.t0 SampleCaptured.world_created)
    as [Hwebhook Hverify].
  split; [|split; [|split]].
  - apply (Hwebhook SampleSignature.parse true SampleSignature.forged_webhook).
    intros H. vm_compute in H. discriminate H.
  - apply (Hverify SampleSignature.forged_checkout); try reflexivity.
    intros H. vm_compute in H. discriminate H.
  - apply (Hverify SampleSignature.null_checkout); try reflexivity.
    intros H. vm_compute in H. discriminate H.
  - apply (Hverify SampleSignature.missing_checkout); try reflexivity.
    intros H. vm_compute in H. discriminate H.
Defined.

(** The claim fails on the verification route: a forged signature is
    answered with status 400, not 401; and the body is parsed before
    the signature is looked at, so a body that is not JSON is answered
    with status 500 whatever it is signed with. *)
Lemma verify_payment_forged_signature_is_400 :
  verify_payment_POST Sample.env (Sample.provider "active") Sample.t0
    (Ret SampleSignature.forged_checkout) SampleCaptured.world_created =
  (Ret (NextResponse_json
          [("success", JBool false); ("error", JString "Invalid signature")]
          400),
   SampleCaptured.world_created) /\
  verify_payment_POST Sample.env (Sample.provider "active") Sample.t0
    (Throw "Unexpected token") SampleCaptured.world_created =
  (Ret (NextResponse_json
          [("success", JBool false); ("error", JString "Unexpected token")]
          500),
   SampleCaptured.world_created).
Proof. split; vm_compute; reflexivity. Qed.

(** With the right signature the same webhook request is parsed and
    handled. *)
Example webhook_accepts_good_signature :
  webhook_POST SampleSignature.parse true Sample.env 200
    (mkWebhookRequest "{}"
       (Some (createHmac_sha256_hex "whsec" "{}")))
    SampleCaptured.world_created =
  (Ret (NextResponse_json [("received", JBool true)] 200),
   SampleCaptured.world_captured).
Proof. vm_compute. reflexivity. Qed.

(* ================================================================== *)
(** ** Payment verification after the redirect *)
(* ================================================================== *)

Lemma upsert_present t rid data c w :
  existsb (has_rid rid) (subscriptions (db w)) = true ->
  prisma.upsert t rid data c w =
  (Ret tt,
   mkWorld (mkDB (profiles (db w))
              (map (fun s => if has_rid rid s then prisma.touch t (data s) else s)
                   (subscriptions (db w)))
              (next_id (db w)))
           (rzp_calls w)).
Proof.
  intros H. unfold prisma.upsert, bind at 1, get_db. rewrite H. reflexivity.
Qed.

Lemma upsert_absent t rid data c w :
  existsb (has_rid rid) (subscriptions (db w)) = false ->
  prisma.upsert t rid data c w = prisma.create t c w.
Proof.
  intros H. unfold prisma.upsert, bind at 1, get_db. rewrite H. reflexivity.
Qed.

Lemma verify_payment_redirect_run env rzp t req w sid :
  or_opt (vr_sessionId req) (vr_subscriptionId req) = Some sid -> sid <> "" ->
  verify_payment_POST env rzp t (Ret req) w =
  try_catch (verify_redirect rzp t sid)
    (fun e =>
       ret (NextResponse_json
              [("success", JBool false);
               ("error", JString (message_or e "Failed to verify payment"))]
              500)) w.
Proof.
  intros Hs Hsid. unfold verify_payment_POST.
  unfold try_catch, bind at 1, lift.
  assert (Ht : truthy (vr_sessionId req) || truthy (vr_subscriptionId req) = true).
  { unfold or_opt in Hs. destruct (truthy (vr_sessionId req)) eqn:H1; [reflexivity|].
    cbn [orb]. rewrite Hs. apply truthy_some. exact Hsid. }
  rewrite Ht, Hs, (or_default_some _ _ Hsid). reflexivity.
Qed.

Lemma verify_redirect_inv rzp t sid w w1 h :
  (forall e, exists r, h e = ret r /\ http_status r = 500) ->
  try_catch (verify_redirect rzp t sid) h w = (Ret verified_response, w1) ->
  exists sub uid,
    rzp_fetch rzp sid = Ret (Some sub) /\
    note n_userId sub = Some uid /\ uid <> "" /\
    String.eqb (r_status sub) "created" ||
      String.eqb (r_status sub) "authenticated" = false /\
    String.eqb (r_status sub) "cancelled" = false /\
    String.eqb (r_status sub) "active" ||
      String.eqb (r_status sub) "completed" = true /\
    locally_cancelled sid (db w) = false /\
    verify_writes t sid uid sub (logged (Fetch sid) w) =
    (Ret verified_response, w1).
Proof.
  intros Hh Hrun.
  unfold try_catch, verify_redirect in Hrun.
  unfold bind at 1 in Hrun. rewrite fetch_run in Hrun.
  destruct (rzp_fetch rzp sid) as [[sub|]|e] eqn:Hfetch.
  2:{ cbv [ret bind prisma.findFirst get_db] in Hrun. discriminate Hrun. }
  2:{ destruct (Hh e) as [r [Hr H500]]. rewrite Hr in Hrun. cbv [ret] in Hrun.
      inversion Hrun; subst r. discriminate H500. }
  unfold bind at 1, prisma.findFirst, bind at 1, get_db, ret at 1 in Hrun.
  cbv beta iota in Hrun.
  destruct (truthy (note n_userId sub)) eqn:Huser; cbn [negb] in Hrun;
    [|cbv [ret] in Hrun; discriminate Hrun].
  destruct (String.eqb (r_status sub) "created" ||
            String.eqb (r_status sub) "authenticated") eqn:Hc;
    [cbv [ret] in Hrun; discriminate Hrun|].
  destruct (String.eqb (r_status sub) "cancelled") eqn:Hx;
    [cbv [ret] in Hrun; discriminate Hrun|].
  destruct (String.eqb (r_status sub) "active" ||
            String.eqb (r_status sub) "completed") eqn:Ha; cbn [andb] in Hrun;
    [|cbv [ret] in Hrun; discriminate Hrun].
  fold (locally_cancelled sid (db (logged (Fetch sid) w))) in Hrun.
  change (db (logged (Fetch sid) w)) with (db w) in Hrun.
  destruct (locally_cancelled sid (db w)) eqn:Hl; cbn [negb] in Hrun;
    [cbv [ret] in Hrun; discriminate Hrun|].
  pose proof (truthy_or_default _ Huser) as Hu.
  set (uid := or_default (note n_userId sub) "") in *.
  exists sub, uid.
  assert (Huid : uid <> "").
  { intros E. rewrite Hu in Huser. rewrite E in Huser. discriminate Huser. }
  repeat (split; [first [reflexivity | assumption]|]).
  change ((let (o, w') := verify_writes t sid uid sub (logged (Fetch sid) w) in
           match o with
           | Ret a => (Ret a, w')
           | Throw e => h e w'
           end) = (Ret verified_response, w1)) in Hrun.
  destruct (verify_writes t sid uid sub (logged (Fetch sid) w)) as [[a|e] w'].
  - exact Hrun.
  - destruct (Hh e) as [r [Hr H500]]. rewrite Hr in Hrun. cbv [ret] in Hrun.
    inversion Hrun; subst r. discriminate H500.
Qed.

Lemma or_default_idem (o : option string) (d : string) :
  d <> "" -> or_default (Some (or_default o d)) d = or_default o d.
Proof.
  intros Hd. destruct o as [s|]; cbn.
  - destruct (String.eqb_spec s ""); cbn.
    + destruct (String.eqb_spec d ""); [contradiction|reflexivity].
    + destruct (String.eqb_spec s ""); [contradiction|reflexivity].
  - destruct (String.eqb_spec d ""); [contradiction|reflexivity].
Qed.

Lemma profile_update_activate_inv t uid tier reference w r w1 :
  prisma.profile_update t uid (activate tier reference) w = (Ret r, w1) ->
  existsb (prisma.has_userId uid) (profiles (db w)) = true /\
  w1 = mkWorld
         (mkDB (map (fun p => if prisma.has_userId uid p
                              then prisma.p_touch t (activate tier reference p)
                              else p)
                    (profiles (db w)))
               (subscriptions (db w)) (next_id (db w)))
         (rzp_calls w).
Proof.
  unfold prisma.profile_update, bind at 1, get_db.
  destruct (find (prisma.has_userId uid) (profiles (db w))) as [q|] eqn:Hq;
    [|intros H; discriminate H].
  destruct (negb _ && _); [intros H; discriminate H|].
  intros H. inversion H. split; [|reflexivity].
  apply (find_some_existsb _ _ _ Hq).
Qed.

Lemma profiles_granted t uid tier reference (l : list Profile) :
  existsb (prisma.has_userId uid) l = true ->
  existsb (prisma.has_userId uid)
    (map (fun p => if prisma.has_userId uid p
                   then prisma.p_touch t (activate tier reference p) else p) l)
  = true /\
  (forall p,
     In p (map (fun p => if prisma.has_userId uid p
                         then prisma.p_touch t (activate tier reference p)
                         else p) l) ->
     prisma.has_userId uid p = true -> granted t tier reference p).
Proof.
  intros Hex. split.
  - rewrite (existsb_map_keeps (prisma.has_userId uid)
               (fun p => prisma.p_touch t (activate tier reference p))
               (fun _ => eq_refl)).
    exact Hex.
  - intros p Hin Hp.
    destruct (map_selected_In (prisma.has_userId uid)
                (fun p => prisma.p_touch t (activate tier reference p))
                l p (fun _ => eq_refl) Hin Hp) as [y [_ ->]].
    repeat split.
Qed.

Lemma prisma_create_inv t c w r w' :
  prisma.create t c w = (Ret r, w') ->
  w' = mkWorld
         (mkDB (profiles (db w))
            (subscriptions (db w) ++
             [mkSubscription (next_id (db w)) (prisma.sc_userId c)
                (prisma.sc_planId c) (Some (prisma.sc_razorpaySubscriptionId c))
                (prisma.sc_razorpayPaymentId c) (prisma.sc_status c)
                (prisma.sc_planType c) (prisma.sc_startDate c)
                (prisma.sc_endDate c) (prisma.sc_isRecurring c) t t])
            (S (next_id (db w))))
         (rzp_calls w).
Proof.
  unfold prisma.create, bind, get_db, put_db, throw.
  destruct (negb _); cbv beta; [intros H; discriminate H|].
  destruct (existsb _ _); cbv beta; [intros H; discriminate H|].
  intros H. inversion H. reflexivity.
Qed.

Lemma verify_writes_inv t sid uid sub w r w1 :
  r_id sub = sid ->
  verify_writes t sid uid sub w = (Ret r, w1) ->
  verified_at t sid uid (or_default (note n_planType sub) "month") (db w1).
Proof.
  intros Hid. unfold verify_writes. cbv zeta.
  rewrite or_default_idem by discriminate.
  set (pt := or_default (note n_planType sub) "month").
  unfold bind at 1.
  destruct (existsb (has_rid sid) (subscriptions (db w))) eqn:Hex.
  - rewrite upsert_present by exact Hex.
    unfold bind at 1.
    destruct (prisma.profile_update _ _ _ _) as [[[]|e] w'] eqn:Hp;
      [|intros H; discriminate H].
    intros H. inversion H; subst w1. clear H.
    apply profile_update_activate_inv in Hp. destruct Hp as [Hq ->].
    cbn [db subscriptions profiles] in *.
    destruct (profiles_granted t uid pt (r_id sub) _ Hq) as [Hpe Hpg].
    rewrite Hid in Hpg, Hpe.
    unfold verified_at. cbn [db subscriptions profiles next_id].
    split; [|split; [|split]].
    + etransitivity; [|exact Hex].
      apply (existsb_map_keeps (has_rid sid) (verify_update t pt)
               (fun _ => eq_refl)).
    + intros s Hin Hs.
      destruct (map_selected_In (has_rid sid) (verify_update t pt)
                  (subscriptions (db w)) s (fun _ => eq_refl) Hin Hs)
        as [y [_ ->]].
      repeat split.
    + rewrite Hid. exact Hpe.
    + rewrite Hid. exact Hpg.
  - rewrite upsert_absent by exact Hex.
    unfold bind at 1.
    destruct (prisma.create _ _ _) as [[[]|e] w'] eqn:Hc;
      [|intros H; discriminate H].
    cbv beta iota.
    destruct (prisma.profile_update _ _ _ _) as [[[]|e] w''] eqn:Hp;
      [|intros H; discriminate H].
    intros H. inversion H; subst w1. clear H.
    apply profile_update_activate_inv in Hp. destruct Hp as [Hq ->].
    apply prisma_create_inv in Hc. subst w'.
    cbn [db subscriptions profiles prisma.sc_userId prisma.sc_planId
         prisma.sc_razorpaySubscriptionId prisma.sc_razorpayPaymentId
         prisma.sc_status prisma.sc_planType prisma.sc_startDate
         prisma.sc_endDate prisma.sc_isRecurring] in *.
    destruct (profiles_granted t uid pt (r_id sub) _ Hq) as [Hpe Hpg].
    rewrite Hid in Hpg, Hpe.
    unfold verified_at. cbn [db subscriptions profiles next_id].
    split; [|split; [|split]].
    + rewrite existsb_app. apply orb_true_iff. right. cbn [existsb].
      unfold has_rid at 1. cbn [s_razorpaySubscriptionId opt_eqb].
      rewrite Hid, String.eqb_refl. reflexivity.
    + intros s Hin Hs. apply in_app_or in Hin. destruct Hin as [Hin|[<-|[]]].
      * rewrite (existsb_false_In _ _ _ Hex Hin) in Hs. discriminate Hs.
      * repeat split.
    + rewrite Hid. exact Hpe.
    + rewrite Hid. exact Hpg.
Qed.

Lemma verified_not_cancelled t sid uid pt d :
  verified_at t sid uid pt d -> locally_cancelled sid d = false.
Proof.
  intros [_ [Hrows _]]. unfold locally_cancelled.
  destruct (find (has_rid sid) (subscriptions d)) as [row|] eqn:Hf;
    [|reflexivity].
  apply find_some in Hf. destruct Hf as [Hin Hrid].
  destruct (Hrows row Hin Hrid) as [Hst _]. rewrite Hst. reflexivity.
Qed.

Lemma stamped_update t t' pt (s : Subscription) :
  stamped t pt s -> verify_update t' pt s = restamp_row t' pt s.
Proof.
  intros [Hst _]. unfold verify_update, restamp_row.
  cbn [prisma.touch prisma.set_dates prisma.set_status s_id s_userId s_planId
       s_razorpaySubscriptionId s_razorpayPaymentId s_status s_planType
       s_startDate s_endDate s_isRecurring s_createdAt s_updatedAt].
  rewrite Hst. reflexivity.
Qed.

Lemma stamped_fixed t pt (s : Subscription) :
  stamped t pt s -> restamp_row t pt s = s.
Proof.
  intros [_ [Hs [He Hu]]]. destruct s; cbn in *. subst.
  unfold restamp_row. cbn. reflexivity.
Qed.

Lemma granted_update t t' tier reference (p : Profile) :
  granted t tier reference p ->
  prisma.p_touch t' (activate tier reference p) = prisma.p_touch t' p.
Proof.
  intros [Ha [Ht [Hr _]]]. destruct p; cbn in *. subst. reflexivity.
Qed.

Lemma granted_fixed t tier reference (p : Profile) :
  granted t tier reference p -> prisma.p_touch t p = p.
Proof.
  intros [_ [_ [_ Hu]]]. destruct p; cbn in *. subst. reflexivity.
Qed.

(** Stamping a store again at the time it was verified changes
    nothing. *)
Lemma restamp_same t sid uid pt d :
  verified_at t sid uid pt d -> restamp t sid uid pt d = d.
Proof.
  intros [_ [Hrows [_ Hprofiles]]]. unfold restamp. destruct d as [ps ss n].
  cbn [profiles subscriptions next_id] in *. f_equal.
  - rewrite <- (map_id ps) at 2. apply map_ext_in. intros p Hin.
    destruct (prisma.has_userId uid p) eqn:Hp; [|reflexivity].
    apply (granted_fixed t pt sid). apply Hprofiles; assumption.
  - rewrite <- (map_id ss) at 2. apply map_ext_in. intros s Hin.
    destruct (has_rid sid s) eqn:Hs; [|reflexivity].
    apply stamped_fixed. apply Hrows; assumption.
Qed.

(** A second application on a verified store only stamps it again. *)
Lemma verify_writes_again t t' sid uid sub w :
  r_id sub = sid ->
  verified_at t sid uid (or_default (note n_planType sub) "month") (db w) ->
  verify_writes t' sid uid sub w =
  (Ret verified_response,
   mkWorld (restamp t' sid uid (or_default (note n_planType sub) "month") (db w))
           (rzp_calls w)).
Proof.
  intros Hid Hv. pose proof Hv as [Hex [Hrows [Hpex Hprofiles]]].
  unfold verify_writes. cbv zeta.
  rewrite or_default_idem by discriminate.
  set (pt := or_default (note n_planType sub) "month") in *.
  unfold bind at 1. rewrite upsert_present by exact Hex.
  unfold bind at 1, prisma.profile_update, bind at 1, get_db.
  cbn [db profiles subscriptions next_id rzp_calls].
  destruct (existsb_find _ _ Hpex) as [q Hq]. rewrite Hq.
  pose proof (find_some _ _ Hq) as [Hin Hquid].
  destruct (Hprofiles q Hin Hquid) as [_ [_ [Hstripe _]]].
  cbn [activate prisma.p_set_stripe prisma.p_set_tier prisma.p_set_active
       p_stripeSubscriptionId].
  rewrite Hstripe, Hid. cbn [opt_eqb]. rewrite String.eqb_refl. cbn [negb andb].
  unfold put_db, ret, restamp. cbn [db profiles subscriptions next_id rzp_calls].
  f_equal. f_equal. f_equal.
  - apply map_ext_in. intros p Hp.
    destruct (prisma.has_userId uid p) eqn:Hu; [|reflexivity].
    apply (granted_update t t' pt sid). apply Hprofiles; assumption.
  - apply map_ext_in. intros s Hs.
    destruct (has_rid sid s) eqn:Hr; [|reflexivity].
    apply (stamped_update t t' pt). apply Hrows; assumption.
Qed.

Lemma verify_redirect_paid rzp t sid w sub uid h :
  rzp_fetch rzp sid = Ret (Some sub) ->
  note n_userId sub = Some uid -> uid <> "" ->
  String.eqb (r_status sub) "created" ||
    String.eqb (r_status sub) "authenticated" = false ->
  String.eqb (r_status sub) "cancelled" = false ->
  String.eqb (r_status sub) "active" ||
    String.eqb (r_status sub) "completed" = true ->
  locally_cancelled sid (db w) = false ->
  try_catch (verify_redirect rzp t sid) h w =
  try_catch (verify_writes t sid uid sub) h (logged (Fetch sid) w).
Proof.
  intros Hfetch Hnote Huid Hc Hx Ha Hl.
  unfold try_catch, verify_redirect.
  unfold bind at 1. rewrite fetch_run, Hfetch.
  unfold bind at 1, prisma.findFirst, bind at 1, get_db, ret at 1.
  cbv beta iota.
  rewrite Hnote, (truthy_some _ Huid), (or_default_some _ _ Huid), Hc, Hx, Ha.
  cbn [negb andb].
  unfold locally_cancelled in Hl. cbn [logged db]. rewrite Hl.
  reflexivity.
Qed.

(** C7, as the code has it: when the verification of a paid
    subscription is applied a second time, with the provider answering
    as before, it succeeds again and the store differs from the store
    after the first application only in the time stamps it writes anew:
    the start date, end date and update time of the subscription's row
    and the update time of the profile are those of the second
    application. When both applications read the same clock value the
    two stores are identical. *)
Theorem verify_twice_restamps (env : Env) (rzp : Razorpay) (t1 t2 : Z)
    (req : VerifyRequest) (w w1 : World) (sid : string) :
  or_opt (vr_sessionId req) (vr_subscriptionId req) = Some sid -> sid <> "" ->
  (forall sub, rzp_fetch rzp sid = Ret (Some sub) -> r_id sub = sid) ->
  verify_payment_POST env rzp t1 (Ret req) w = (Ret verified_response, w1) ->
  exists w2 sub uid,
    rzp_fetch rzp sid = Ret (Some sub) /\ note n_userId sub = Some uid /\
    verify_payment_POST env rzp t2 (Ret req) w1 = (Ret verified_response, w2) /\
    db w2 = restamp t2 sid uid (or_default (note n_planType sub) "month") (db w1) /\
    (t2 = t1 -> db w2 = db w1).
Proof.
  intros Hs Hsid Hid Hrun1.
  rewrite (verify_payment_redirect_run env rzp t1 req w sid Hs Hsid) in Hrun1.
  apply verify_redirect_inv in Hrun1;
    [|intros e; eexists; split; reflexivity].
  destruct Hrun1 as [sub [uid [Hfetch [Hnote [Huid [Hc [Hx [Ha [Hl Hw]]]]]]]]].
  pose proof (Hid sub Hfetch) as Hrid.
  pose proof (verify_writes_inv t1 sid uid sub _ _ _ Hrid Hw) as Hv.
  exists (mkWorld (restamp t2 sid uid (or_default (note n_planType sub) "month")
                     (db w1))
                  (rzp_calls w1 ++ [Fetch sid])), sub, uid.
  split; [exact Hfetch|]. split; [exact Hnote|]. split; [|split].
  - rewrite (verify_payment_redirect_run env rzp t2 req w1 sid Hs Hsid).
    rewrite (verify_redirect_paid rzp t2 sid w1 sub uid _ Hfetch Hnote Huid
               Hc Hx Ha (verified_not_cancelled _ _ _ _ _ Hv)).
    unfold try_catch.
    rewrite (verify_writes_again t1 t2 sid uid sub (logged (Fetch sid) w1)
               Hrid Hv).
    reflexivity.
  - reflexivity.
  - intros ->. cbn [db]. apply restamp_same. exact Hv.
Qed.

Lemma verify_twice_restamps_witness :
  exists w2 sub uid,
    rzp_fetch (Sample.provider "active") "sub_1" = Ret (Some sub) /\
    note n_userId sub = Some uid /\
    verify_payment_POST Sample.env (Sample.provider "active") SampleVerify.t2
      (Ret SampleVerify.redirect_request) SampleVerified.once =
    (Ret verified_response, w2) /\
    db w2 = restamp SampleVerify.t2 "sub_1" uid
              (or_default (note n_planType sub) "month") (db SampleVerified.once) /\
    (SampleVerify.t2 = SampleVerify.t1 -> db w2 = db SampleVerified.once).
Proof.
  apply (verify_twice_restamps Sample.env (Sample.provider "active")
           SampleVerify.t1 SampleVerify.t2 SampleVerify.redirect_request
           Sample.world_pending SampleVerified.once "sub_1").
  - reflexivity.
  - discriminate.
  - intros sub H. inversion H. reflexivity.
  - vm_compute. reflexivity.
Defined.

(** The claim fails as stated: two verifications five seconds apart
    leave a row whose start and end dates are those of the second one,
    not the row the first one left. *)
Lemma verify_twice_moves_the_dates :
  map s_startDate (subscriptions (db SampleVerified.once)) = [Some 1736942400000] /\
  map s_endDate (subscriptions (db SampleVerified.once)) = [Some 1739620800000] /\
  map s_startDate (subscriptions (db SampleVerified.twice)) = [Some 1736942405000] /\
  map s_endDate (subscriptions (db SampleVerified.twice)) = [Some 1739620805000] /\
  map s_status (subscriptions (db SampleVerified.twice)) =
  map s_status (subscriptions (db SampleVerified.once)).
Proof. vm_compute. repeat split. Qed.

(* ================================================================== *)
(** ** End dates *)
(* ================================================================== *)

(** The three copies of [calculateEndDate] agree; the verification
    route's copy only adds the default for a missing plan type. *)
Lemma calculateEndDate_verify_some (now : Z) (planType : string) :
  planType <> "" ->
  calculateEndDate_verify now (Some planType) = calculateEndDate now planType.
Proof.
  intros H. unfold calculateEndDate_verify.
  destruct (String.eqb_spec planType ""); [contradiction|reflexivity].
Qed.

(** What the cases of [calculateEndDate] compute. *)
Lemma calculateEndDate_week (now : Z) :
  calculateEndDate now "week" = JSDate.setDate now (JSDate.getDate now + 7).
Proof. unfold calculateEndDate. simpl String.eqb. reflexivity. Qed.

Lemma calculateEndDate_month (now : Z) :
  calculateEndDate now "month" = JSDate.setMonth now (JSDate.getMonth now + 1).
Proof. unfold calculateEndDate. simpl String.eqb. reflexivity. Qed.

Lemma calculateEndDate_year (now : Z) :
  calculateEndDate now "year" =
  JSDate.setFullYear now (JSDate.getFullYear now + 1).
Proof. unfold calculateEndDate. simpl String.eqb. reflexivity. Qed.

(** X7: an unrecognised plan type is treated as [month]. *)
Lemma calculateEndDate_default (now : Z) (planType : string) :
  planType <> "week" -> planType <> "month" -> planType <> "year" ->
  calculateEndDate now planType = calculateEndDate now "month".
Proof.
  intros Hw Hm Hy. rewrite calculateEndDate_month. unfold calculateEndDate.
  destruct (String.eqb_spec planType "week"); [contradiction|].
  destruct (String.eqb_spec planType "month"); [contradiction|].
  destruct (String.eqb_spec planType "year"); [contradiction|].
  reflexivity.
Qed.

Module JSDateFacts.
Import JSDate.

Lemma civil_of_doe_spec (doe : Z) :
  0 <= doe < 146097 ->
  exists yoe m d,
    civil_of_doe doe = (yoe, m, d) /\ 0 <= yoe < 400 /\ 1 <= m <= 12 /\
    1 <= d <= 31 /\ doe_of_civil yoe m d = doe.
Proof.
  intros Hdoe. unfold civil_of_doe. cbv zeta.
  set (yoe := (doe - doe / 1460 + doe / 36524 - doe / 146096) / 365).
  set (doy := doe - (365 * yoe + yoe / 4 - yoe / 100)).
  assert (Hy : 0 <= yoe < 400 /\ 0 <= doy <= 365).
  { subst doy yoe. Z.div_mod_to_equations. lia. }
  destruct Hy as [Hyoe Hdoy].
  set (mp := (5 * doy + 2) / 153).
  assert (Hmp : 0 <= mp <= 11) by (subst mp; Z.div_mod_to_equations; lia).
  eexists; eexists; eexists. split; [reflexivity|].
  split; [exact Hyoe|].
  assert (Hd : 1 <= doy - (153 * mp + 2) / 5 + 1 <= 31).
  { subst mp. Z.div_mod_to_equations. lia. }
  unfold doe_of_civil. cbv zeta.
  destruct (mp <? 10) eqn:Hlt.
  - apply Z.ltb_lt in Hlt.
    destruct (2 <? mp + 3) eqn:H2; [|apply Z.ltb_ge in H2; lia].
    replace (mp + 3 - 3) with mp by lia.
    split; [lia|]. split; [exact Hd|]. subst doy. lia.
  - apply Z.ltb_ge in Hlt.
    destruct (2 <? mp - 9) eqn:H2; [apply Z.ltb_lt in H2; lia|].
    replace (mp - 9 + 9) with mp by lia.
    split; [lia|]. split; [exact Hd|]. subst doy. lia.
Qed.

Lemma days_in_month_bound (y m : Z) : 28 <= days_in_month y m <= 31.
Proof.
  unfold days_in_month. destruct (m =? 2); [destruct (is_leap y); lia|].
  destruct ((m =? 4) || (m =? 6) || (m =? 9) || (m =? 11)); lia.
Qed.

Lemma is_leap_spec (y : Z) :
  (is_leap y = true /\ y mod 4 = 0 /\ (y mod 100 <> 0 \/ y mod 400 = 0)) \/
  (is_leap y = false /\ (y mod 4 <> 0 \/ (y mod 100 = 0 /\ y mod 400 <> 0))).
Proof.
  unfold is_leap.
  destruct (Z.eqb_spec (y mod 4) 0); destruct (Z.eqb_spec (y mod 100) 0);
    destruct (Z.eqb_spec (y mod 400) 0); cbn; intuition lia.
Qed.

(** A valid date of an era and its day number determine each other. *)
Lemma doe_of_civil_valid (y m d : Z) :
  1 <= m <= 12 -> 1 <= d <= days_in_month y m ->
  let yoe := (y - year_shift m) mod 400 in
  0 <= doe_of_civil yoe m d < 146097 /\
  civil_of_doe (doe_of_civil yoe m d) = (yoe, m, d).
Proof.
  intros Hm Hd yoe.
  assert (Hy : 0 <= yoe < 400) by (apply Z.mod_pos_bound; lia).
  unfold doe_of_civil. cbv zeta.
  set (mp := if 2 <? m then m - 3 else m + 9).
  assert (Hmp : 0 <= mp <= 11 /\ m = (if mp <? 10 then mp + 3 else mp - 9)
                /\ (m <= 2 -> mp = m + 9) /\ (2 < m -> mp = m - 3)).
  { subst mp. destruct (2 <? m) eqn:H2.
    - apply Z.ltb_lt in H2. split; [lia|]. split; [|lia].
      destruct (m - 3 <? 10) eqn:H3; [lia|apply Z.ltb_ge in H3; lia].
    - apply Z.ltb_ge in H2. split; [lia|]. split; [|lia].
      destruct (m + 9 <? 10) eqn:H3; [apply Z.ltb_lt in H3; lia|lia]. }
  destruct Hmp as [Hmp [Hm' [Hlow Hhigh]]].
  set (doy := (153 * mp + 2) / 5 + d - 1).
  set (doe := yoe * 365 + yoe / 4 - yoe / 100 + doy).
  (* the length of the month, and of the era year *)
  assert (Hlen : d <= 31 /\ (m = 2 -> d <= 29) /\
                 (m = 2 -> d = 29 ->
                  (yoe + 1) mod 4 = 0 /\
                  ((yoe + 1) mod 100 <> 0 \/ (yoe + 1) mod 400 = 0)) /\
                 (m = 4 \/ m = 6 \/ m = 9 \/ m = 11 -> d <= 30)).
  { unfold days_in_month in Hd. revert Hd.
    destruct (Z.eqb_spec m 2) as [->|Hm2]; intros Hd.
    - unfold year_shift in yoe. cbn in yoe.
      destruct (is_leap_spec y) as [[Hl Hc]|[Hl Hc]]; rewrite Hl in Hd.
      + split; [lia|]. split; [lia|]. split; [|lia]. intros _ _.
        subst yoe. clear - Hc. Z.div_mod_to_equations. lia.
      + split; [lia|]. split; [lia|]. split; [|lia]. intros _ Hd29. lia.
    - revert Hd.
      destruct (Z.eqb_spec m 4); destruct (Z.eqb_spec m 6);
        destruct (Z.eqb_spec m 9); destruct (Z.eqb_spec m 11);
        cbn [orb]; intros Hd;
        (split; [|split; [|split]]); try (intros; exfalso; lia); lia. }
  destruct Hlen as [H31 [H29 [Hleap H30]]].
  assert (Hdoy : 0 <= doy <= 365 /\ (5 * doy + 2) / 153 = mp /\
                 (doy = 365 -> m = 2 /\ d = 29)).
  { subst doy.
    assert (Hcases : mp = 0 \/ mp = 1 \/ mp = 2 \/ mp = 3 \/ mp = 4 \/ mp = 5 \/
                     mp = 6 \/ mp = 7 \/ mp = 8 \/ mp = 9 \/ mp = 10 \/ mp = 11)
      by lia.
    clearbody mp.
    destruct Hcases as [E|[E|[E|[E|[E|[E|[E|[E|[E|[E|[E|E]]]]]]]]]]];
      subst mp; cbn in Hm';
      (split; [|split; [|intros E365; split]]);
      Z.div_mod_to_equations; lia. }
  destruct Hdoy as [Hdoy [Hmp' H365]].
  assert (Hdoe : 0 <= doe < 146097 /\
                 (doe - doe / 1460 + doe / 36524 - doe / 146096) / 365 = yoe).
  { assert (Hyear : doy <= 364 \/
                    ((yoe + 1) mod 4 = 0 /\
                     ((yoe + 1) mod 100 <> 0 \/ (yoe + 1) mod 400 = 0))).
    { destruct (Z.eq_dec doy 365) as [E|E]; [|left; lia].
      right. destruct (H365 E) as [E2 E29]. apply Hleap; assumption. }
    subst doe. clearbody doy yoe. clear - Hy Hdoy Hyear.
    Z.div_mod_to_equations. lia. }
  destruct Hdoe as [Hdoe Hyoe].
  split; [exact Hdoe|].
  unfold civil_of_doe. cbv zeta. rewrite Hyoe.
  replace (doe - (365 * yoe + yoe / 4 - yoe / 100)) with doy by (subst doe; lia).
  rewrite Hmp'. rewrite <- Hm'. f_equal. subst doy. lia.
Qed.

Lemma year_shift_bound (m : Z) : 0 <= year_shift m <= 1.
Proof. unfold year_shift. destruct (m <=? 2); lia. Qed.

(** The civil date of a day number is a date, and it is the date of
    that day. *)
Lemma civil_from_days_spec (z : Z) :
  exists y m d,
    civil_from_days z = (y, m, d) /\ 1 <= m <= 12 /\ 1 <= d <= 31 /\
    days_from_civil y m d = z.
Proof.
  unfold civil_from_days. cbv zeta.
  assert (Hdoe : 0 <= (z + 719468) mod 146097 < 146097)
    by (apply Z.mod_pos_bound; lia).
  destruct (civil_of_doe_spec _ Hdoe) as [yoe [m [d [Hc [Hy [Hm [Hd Hback]]]]]]].
  rewrite Hc. eexists; eexists; eexists. split; [reflexivity|].
  split; [exact Hm|]. split; [exact Hd|].
  unfold days_from_civil. cbv zeta.
  replace (yoe + (z + 719468) / 146097 * 400 + year_shift m - year_shift m)
    with (yoe + (z + 719468) / 146097 * 400) by lia.
  rewrite Z.div_add by lia. rewrite Z.mod_add by lia.
  rewrite (Z.div_small yoe 400) by lia. rewrite (Z.mod_small yoe 400) by lia.
  rewrite Hback.
  pose proof (Z.div_mod (z + 719468) 146097 ltac:(lia)). lia.
Qed.

(** A day number is the number of its civil date. *)
Lemma civil_from_days_from_civil_valid (y m d : Z) :
  1 <= m <= 12 -> 1 <= d <= days_in_month y m ->
  civil_from_days (days_from_civil y m d) = (y, m, d).
Proof.
  intros Hm Hd. unfold days_from_civil, civil_from_days. cbv zeta.
  set (y' := y - year_shift m).
  destruct (doe_of_civil_valid y m d Hm Hd) as [Hdoe Hc]. fold y' in Hdoe, Hc.
  replace (y' / 400 * 146097 + doe_of_civil (y' mod 400) m d - 719468 + 719468)
    with (doe_of_civil (y' mod 400) m d + y' / 400 * 146097) by lia.
  rewrite Z.mod_add by lia. rewrite Z.div_add by lia.
  rewrite (Z.mod_small _ 146097) by lia. rewrite (Z.div_small _ 146097) by lia.
  rewrite Hc. f_equal. f_equal.
  pose proof (Z.div_mod y' 400 ltac:(lia)). subst y'. lia.
Qed.

(** The first day of the next month comes when this month is over. *)
Lemma next_month_first (y m : Z) :
  1 <= m <= 12 ->
  days_from_civil (y + m / 12) (m mod 12 + 1) 1 =
  days_from_civil y m 1 + days_in_month y m.
Proof.
  intros Hm.
  assert (Hnext : (m / 12 = 0 /\ m mod 12 + 1 = m + 1 /\ m <= 11) \/
                  (m / 12 = 1 /\ m mod 12 + 1 = 1 /\ m = 12)).
  { Z.div_mod_to_equations. lia. }
  unfold days_in_month.
  destruct Hnext as [[Hq [Hr Hle]]|[Hq [Hr He]]]; rewrite Hq, Hr.
  - unfold days_from_civil, doe_of_civil, year_shift. cbv zeta.
    destruct (Z.leb_spec (m + 1) 2); destruct (Z.leb_spec m 2);
      destruct (Z.ltb_spec 2 (m + 1)); destruct (Z.ltb_spec 2 m);
      try (exfalso; lia);
      destruct (Z.eqb_spec m 2); destruct (Z.eqb_spec m 4);
      destruct (Z.eqb_spec m 6); destruct (Z.eqb_spec m 9);
      destruct (Z.eqb_spec m 11); try (exfalso; lia); cbn [orb];
      try (destruct (is_leap_spec y) as [[Hl Hc]|[Hl Hc]]; rewrite Hl);
      Z.div_mod_to_equations; lia.
  - subst m. unfold days_from_civil, doe_of_civil, year_shift. cbn [Z.eqb].
    change (1 <=? 2) with true. change (12 <=? 2) with false.
    change (2 <? 1) with false. change (2 <? 12) with true.
    cbv iota zeta. cbn [orb Pos.eqb]. Z.div_mod_to_equations. lia.
Qed.

Lemma days_from_civil_day (y m d : Z) :
  days_from_civil y m d = days_from_civil y m 1 + d - 1.
Proof. unfold days_from_civil, doe_of_civil. cbv zeta. lia. Qed.

Lemma day_time_split (t : Z) :
  MakeDate (Day t) (TimeWithinDay t) = t.
Proof.
  unfold MakeDate, Day, TimeWithinDay, msPerDay.
  pose proof (Z.div_mod t 86400000 ltac:(lia)). lia.
Qed.

Lemma Day_MakeDate (day time : Z) :
  0 <= time < msPerDay -> Day (MakeDate day time) = day.
Proof.
  intros H. unfold MakeDate, Day, msPerDay in *.
  rewrite Z.div_add_l by lia.
  rewrite Z.div_small by lia. lia.
Qed.

Lemma TimeWithinDay_MakeDate (day time : Z) :
  0 <= time < msPerDay -> TimeWithinDay (MakeDate day time) = time.
Proof.
  intros H. unfold MakeDate, TimeWithinDay, msPerDay in *.
  rewrite Z.add_comm, Z.mod_add by lia. apply Z.mod_small. lia.
Qed.

Lemma TimeWithinDay_bound (t : Z) : 0 <= TimeWithinDay t < msPerDay.
Proof. unfold TimeWithinDay, msPerDay. apply Z.mod_pos_bound. lia. Qed.

(** The date fields of a time value. *)
Lemma fields_spec (t : Z) :
  0 <= getMonth t <= 11 /\ 1 <= getDate t <= 31 /\
  days_from_civil (getFullYear t) (getMonth t + 1) (getDate t) = Day t.
Proof.
  unfold getMonth, getDate, getFullYear.
  destruct (civil_from_days_spec (Day t)) as [y [m [d [Hc [Hm [Hd Hback]]]]]].
  rewrite Hc. cbn [fst snd].
  replace (m - 1 + 1) with m by lia.
  split; [lia|]. split; [lia|]. exact Hback.
Qed.

(** [MakeDay] with the year and month of [t] itself only moves the day. *)
Lemma MakeDay_same_month (t x : Z) :
  MakeDay (getFullYear t) (getMonth t) x = Day t + (x - getDate t).
Proof.
  destruct (fields_spec t) as [Hm [Hd Hback]].
  unfold MakeDay. cbv zeta.
  rewrite (Z.div_small (getMonth t) 12) by lia.
  rewrite (Z.mod_small (getMonth t) 12) by lia.
  rewrite Z.add_0_r.
  rewrite (days_from_civil_day _ _ (getDate t)) in Hback. lia.
Qed.

End JSDateFacts.

(** X4: a weekly period ends exactly seven days (of 86400000 ms) after it
    starts, whatever the start. *)
Theorem calculateEndDate_week_is_seven_days (now : Z) :
  calculateEndDate now "week" = now + 7 * JSDate.msPerDay.
Proof.
  rewrite calculateEndDate_week. unfold JSDate.setDate.
  rewrite JSDateFacts.MakeDay_same_month.
  rewrite <- (JSDateFacts.day_time_split now) at 5.
  unfold JSDate.MakeDate. lia.
Qed.

(** The fields of a date built from a year, a month (which may run
    over) and a day that the month reached has. *)
Lemma fields_of_MakeDay_exists (year month date time : Z) :
  1 <= date <= JSDate.days_in_month (year + month / 12) (month mod 12 + 1) ->
  0 <= time < JSDate.msPerDay ->
  let t := JSDate.MakeDate (JSDate.MakeDay year month date) time in
  JSDate.getFullYear t = year + month / 12 /\
  JSDate.getMonth t = month mod 12 /\
  JSDate.getDate t = date /\
  JSDate.TimeWithinDay t = time.
Proof.
  intros Hd Ht t. subst t.
  unfold JSDate.getFullYear, JSDate.getMonth, JSDate.getDate.
  rewrite JSDateFacts.Day_MakeDate by exact Ht.
  rewrite JSDateFacts.TimeWithinDay_MakeDate by exact Ht.
  unfold JSDate.MakeDay. cbv zeta.
  assert (Hm : 0 <= month mod 12 < 12) by (apply Z.mod_pos_bound; lia).
  replace (JSDate.days_from_civil (year + month / 12) (month mod 12 + 1) 1 + date - 1)
    with (JSDate.days_from_civil (year + month / 12) (month mod 12 + 1) date)
    by (rewrite (JSDateFacts.days_from_civil_day _ _ date); lia).
  rewrite JSDateFacts.civil_from_days_from_civil_valid by lia.
  cbn [fst snd]. repeat split. lia.
Qed.

(** When the month reached is too short for the day, the date runs
    over into the month after it. *)
Lemma fields_of_MakeDay_overflow (year month date time : Z) :
  JSDate.days_in_month (year + month / 12) (month mod 12 + 1) < date <= 31 ->
  0 <= time < JSDate.msPerDay ->
  let t := JSDate.MakeDate (JSDate.MakeDay year month date) time in
  JSDate.getFullYear t = year + (month + 1) / 12 /\
  JSDate.getMonth t = (month + 1) mod 12 /\
  JSDate.getDate t = date - JSDate.days_in_month (year + month / 12) (month mod 12 + 1) /\
  JSDate.TimeWithinDay t = time.
Proof.
  intros Hd Ht t. subst t.
  set (Y := year + month / 12) in *. set (M := month mod 12 + 1) in *.
  assert (HM : 1 <= M <= 12)
    by (subst M; pose proof (Z.mod_pos_bound month 12 ltac:(lia)); lia).
  pose proof (JSDateFacts.days_in_month_bound Y M) as Hdim.
  pose proof (JSDateFacts.days_in_month_bound (Y + M / 12) (M mod 12 + 1)) as Hdim2.
  unfold JSDate.getFullYear, JSDate.getMonth, JSDate.getDate.
  rewrite JSDateFacts.Day_MakeDate by exact Ht.
  rewrite JSDateFacts.TimeWithinDay_MakeDate by exact Ht.
  unfold JSDate.MakeDay. cbv zeta. fold Y M.
  replace (JSDate.days_from_civil Y M 1 + date - 1)
    with (JSDate.days_from_civil (Y + M / 12) (M mod 12 + 1)
            (date - JSDate.days_in_month Y M)).
  2:{ rewrite (JSDateFacts.days_from_civil_day _ _ (date - JSDate.days_in_month Y M)).
      rewrite (JSDateFacts.next_month_first Y M HM). lia. }
  rewrite JSDateFacts.civil_from_days_from_civil_valid;
    [|pose proof (Z.mod_pos_bound M 12 ltac:(lia)); lia | lia].
  cbn [fst snd].
  assert (Hy : Y + M / 12 = year + (month + 1) / 12 /\
               M mod 12 = (month + 1) mod 12).
  { subst Y M. Z.div_mod_to_equations. lia. }
  destruct Hy as [Hy1 Hy2].
  split; [exact Hy1|]. split; [lia|]. split; reflexivity.
Qed.

(** The fields of the end of a monthly period in UTC, when the next
    month has the day and when it has not. *)
Lemma month_when_day_exists_UTC (now : Z) :
  let year := JSDate.getFullYear now + (JSDate.getMonth now + 1) / 12 in
  let month := (JSDate.getMonth now + 1) mod 12 in
  let e := calculateEndDate now "month" in
  JSDate.getDate now <= JSDate.days_in_month year (month + 1) ->
  JSDate.getFullYear e = year /\
  JSDate.getMonth e = month /\
  JSDate.getDate e = JSDate.getDate now /\
  JSDate.TimeWithinDay e = JSDate.TimeWithinDay now.
Proof.
  intros year month e Hd. subst e.
  rewrite calculateEndDate_month. unfold JSDate.setMonth.
  destruct (JSDateFacts.fields_spec now) as [_ [Hdate _]].
  apply fields_of_MakeDay_exists;
    [fold year month; lia | apply JSDateFacts.TimeWithinDay_bound].
Qed.

Lemma month_overflow_UTC (now : Z) :
  let year := JSDate.getFullYear now + (JSDate.getMonth now + 1) / 12 in
  let month := (JSDate.getMonth now + 1) mod 12 in
  let e := calculateEndDate now "month" in
  JSDate.days_in_month year (month + 1) < JSDate.getDate now ->
  JSDate.getFullYear e = JSDate.getFullYear now + (JSDate.getMonth now + 2) / 12 /\
  JSDate.getMonth e = (JSDate.getMonth now + 2) mod 12 /\
  JSDate.getDate e = JSDate.getDate now - JSDate.days_in_month year (month + 1) /\
  JSDate.TimeWithinDay e = JSDate.TimeWithinDay now.
Proof.
  intros year month e Hd. subst e.
  rewrite calculateEndDate_month. unfold JSDate.setMonth.
  destruct (JSDateFacts.fields_spec now) as [_ [Hdate _]].
  replace (JSDate.getMonth now + 2) with (JSDate.getMonth now + 1 + 1) by lia.
  apply fields_of_MakeDay_overflow;
    [fold year month; lia | apply JSDateFacts.TimeWithinDay_bound].
Qed.

(** The same for a yearly period. *)
Lemma year_when_day_exists_UTC (now : Z) :
  let e := calculateEndDate now "year" in
  JSDate.getDate now <=
  JSDate.days_in_month (JSDate.getFullYear now + 1) (JSDate.getMonth now + 1) ->
  JSDate.getFullYear e = JSDate.getFullYear now + 1 /\
  JSDate.getMonth e = JSDate.getMonth now /\
  JSDate.getDate e = JSDate.getDate now /\
  JSDate.TimeWithinDay e = JSDate.TimeWithinDay now.
Proof.
  intros e Hd. subst e.
  rewrite calculateEndDate_year. unfold JSDate.setFullYear.
  destruct (JSDateFacts.fields_spec now) as [Hmonth [Hdate _]].
  pose proof (fields_of_MakeDay_exists (JSDate.getFullYear now + 1)
                (JSDate.getMonth now) (JSDate.getDate now)
                (JSDate.TimeWithinDay now)) as H.
  cbv zeta in H.
  rewrite (Z.div_small (JSDate.getMonth now) 12) in H by lia.
  rewrite (Z.mod_small (JSDate.getMonth now) 12) in H by lia.
  rewrite Z.add_0_r in H.
  apply H; [lia | apply JSDateFacts.TimeWithinDay_bound].
Qed.

Lemma year_overflow_UTC (now : Z) :
  let e := calculateEndDate now "year" in
  JSDate.days_in_month (JSDate.getFullYear now + 1) (JSDate.getMonth now + 1)
  < JSDate.getDate now ->
  JSDate.getFullYear e = JSDate.getFullYear now + 1 + (JSDate.getMonth now + 1) / 12 /\
  JSDate.getMonth e = (JSDate.getMonth now + 1) mod 12 /\
  JSDate.getDate e =
    JSDate.getDate now
    - JSDate.days_in_month (JSDate.getFullYear now + 1) (JSDate.getMonth now + 1) /\
  JSDate.TimeWithinDay e = JSDate.TimeWithinDay now.
Proof.
  intros e Hd. subst e.
  rewrite calculateEndDate_year. unfold JSDate.setFullYear.
  destruct (JSDateFacts.fields_spec now) as [Hmonth [Hdate _]].
  pose proof (fields_of_MakeDay_overflow (JSDate.getFullYear now + 1)
                (JSDate.getMonth now) (JSDate.getDate now)
                (JSDate.TimeWithinDay now)) as H.
  cbv zeta in H.
  rewrite (Z.div_small (JSDate.getMonth now) 12) in H by lia.
  rewrite (Z.mod_small (JSDate.getMonth now) 12) in H by lia.
  rewrite Z.add_0_r in H.
  apply H; [lia | apply JSDateFacts.TimeWithinDay_bound].
Qed.

(** *** On the local clock *)

(** At a fixed offset the end date is the one a server in UTC computes
    from the local time value, taken back to UTC; at the offset 0 the
    two are the same. *)
Lemma calculateEndDate_local_shift (tza now : Z) (planType : string) :
  calculateEndDate_local tza now planType =
  calculateEndDate (now + tza) planType - tza.
Proof.
  unfold calculateEndDate_local, calculateEndDate.
  unfold JSDateLocal.setDate, JSDateLocal.setMonth, JSDateLocal.setFullYear,
    JSDateLocal.getDate, JSDateLocal.getMonth, JSDateLocal.getFullYear,
    JSDateLocal.LocalTime, JSDateLocal.UTC,
    JSDate.setDate, JSDate.setMonth, JSDate.setFullYear.
  cbv zeta.
  destruct (String.eqb planType "week"); [reflexivity|].
  destruct (String.eqb planType "month"); [reflexivity|].
  destruct (String.eqb planType "year"); reflexivity.
Qed.

Lemma calculateEndDate_local_UTC (now : Z) (planType : string) :
  calculateEndDate_local 0 now planType = calculateEndDate now planType.
Proof. rewrite calculateEndDate_local_shift, Z.add_0_r. apply Z.sub_0_r. Qed.

(** What the local clock shows at the end date. *)
Lemma LocalTime_calculateEndDate_local (tza now : Z) (planType : string) :
  JSDateLocal.LocalTime tza (calculateEndDate_local tza now planType) =
  calculateEndDate (JSDateLocal.LocalTime tza now) planType.
Proof.
  rewrite calculateEndDate_local_shift. unfold JSDateLocal.LocalTime. lia.
Qed.

Ltac on_local_clock :=
  unfold JSDateLocal.getFullYear, JSDateLocal.getMonth, JSDateLocal.getDate,
    JSDateLocal.TimeWithinDay;
  rewrite !LocalTime_calculateEndDate_local.

(** X5: on a server at a fixed offset from UTC, a monthly period ends
    on the same day of the month and at the same time of day, on the
    local clock, in the next calendar month, whenever that month has
    the day. *)
Theorem calculateEndDate_month_when_day_exists (tza now : Z) :
  let year :=
    JSDateLocal.getFullYear tza now + (JSDateLocal.getMonth tza now + 1) / 12 in
  let month := (JSDateLocal.getMonth tza now + 1) mod 12 in
  let e := calculateEndDate_local tza now "month" in
  JSDateLocal.getDate tza now <= JSDate.days_in_month year (month + 1) ->
  JSDateLocal.getFullYear tza e = year /\
  JSDateLocal.getMonth tza e = month /\
  JSDateLocal.getDate tza e = JSDateLocal.getDate tza now /\
  JSDateLocal.TimeWithinDay tza e = JSDateLocal.TimeWithinDay tza now.
Proof.
  intros year month e Hd. subst year month e. revert Hd. on_local_clock.
  apply (month_when_day_exists_UTC (JSDateLocal.LocalTime tza now)).
Qed.

Lemma calculateEndDate_month_when_day_exists_witness :
  let now := JSDate.UTC 2025 0 31 20 0 0 0 in
  let e := calculateEndDate_local Asia_Kolkata now "month" in
  e = JSDate.UTC 2025 1 28 20 0 0 0 /\
  (JSDateLocal.getFullYear Asia_Kolkata now,
   JSDateLocal.getMonth Asia_Kolkata now,
   JSDateLocal.getDate Asia_Kolkata now) = (2025, 1, 1) /\
  JSDateLocal.getFullYear Asia_Kolkata e = 2025 /\
  JSDateLocal.getMonth Asia_Kolkata e = 2 /\
  JSDateLocal.getDate Asia_Kolkata e = 1 /\
  JSDateLocal.TimeWithinDay Asia_Kolkata e =
  JSDateLocal.TimeWithinDay Asia_Kolkata now.
Proof.
  cbv zeta. split; [vm_compute; reflexivity|]. split; [vm_compute; reflexivity|].
  apply (calculateEndDate_month_when_day_exists Asia_Kolkata
           (JSDate.UTC 2025 0 31 20 0 0 0)).
  vm_compute. discriminate.
Defined.

(** X8: on a server at a fixed offset from UTC, when the next calendar
    month is too short for the day of the local date the period starts
    on (the 29th to the 31st), a monthly period ends in the month after
    it, as many days in as the day exceeds the length of the month that
    was skipped. *)
Theorem calculateEndDate_month_overflow (tza now : Z) :
  let year :=
    JSDateLocal.getFullYear tza now + (JSDateLocal.getMonth tza now + 1) / 12 in
  let month := (JSDateLocal.getMonth tza now + 1) mod 12 in
  let e := calculateEndDate_local tza now "month" in
  JSDate.days_in_month year (month + 1) < JSDateLocal.getDate tza now ->
  JSDateLocal.getFullYear tza e =
    JSDateLocal.getFullYear tza now + (JSDateLocal.getMonth tza now + 2) / 12 /\
  JSDateLocal.getMonth tza e = (JSDateLocal.getMonth tza now + 2) mod 12 /\
  JSDateLocal.getDate tza e =
    JSDateLocal.getDate tza now - JSDate.days_in_month year (month + 1) /\
  JSDateLocal.TimeWithinDay tza e = JSDateLocal.TimeWithinDay tza now.
Proof.
  intros year month e Hd. subst year month e. revert Hd. on_local_clock.
  apply (month_overflow_UTC (JSDateLocal.LocalTime tza now)).
Qed.

Lemma calculateEndDate_month_overflow_witness :
  let now := JSDate.UTC 2025 0 31 12 0 0 0 in
  let e := calculateEndDate_local Asia_Kolkata now "month" in
  e = JSDate.UTC 2025 2 3 12 0 0 0 /\
  JSDateLocal.getFullYear Asia_Kolkata e = 2025 /\
  JSDateLocal.getMonth Asia_Kolkata e = 2 /\
  JSDateLocal.getDate Asia_Kolkata e = 3 /\
  JSDateLocal.TimeWithinDay Asia_Kolkata e =
  JSDateLocal.TimeWithinDay Asia_Kolkata now.
Proof.
  cbv zeta. split; [vm_compute; reflexivity|].
  apply (calculateEndDate_month_overflow Asia_Kolkata
           (JSDate.UTC 2025 0 31 12 0 0 0)).
  vm_compute. reflexivity.
Defined.

(** X6: on a server at a fixed offset from UTC, a yearly period ends
    on the same day of the same month and at the same time of day, on
    the local clock, one year later, whenever that month has the day
    (that is, unless the local date it starts on is 29 February). *)
Theorem calculateEndDate_year_when_day_exists (tza now : Z) :
  let e := calculateEndDate_local tza now "year" in
  JSDateLocal.getDate tza now <=
  JSDate.days_in_month (JSDateLocal.getFullYear tza now + 1)
    (JSDateLocal.getMonth tza now + 1) ->
  JSDateLocal.getFullYear tza e = JSDateLocal.getFullYear tza now + 1 /\
  JSDateLocal.getMonth tza e = JSDateLocal.getMonth tza now /\
  JSDateLocal.getDate tza e = JSDateLocal.getDate tza now /\
  JSDateLocal.TimeWithinDay tza e = JSDateLocal.TimeWithinDay tza now.
Proof.
  intros e Hd. subst e. revert Hd. on_local_clock.
  apply (year_when_day_exists_UTC (JSDateLocal.LocalTime tza now)).
Qed.

Lemma calculateEndDate_year_when_day_exists_witness :
  let now := JSDate.UTC 2024 11 31 20 0 0 0 in
  let e := calculateEndDate_local Asia_Kolkata now "year" in
  e = JSDate.UTC 2025 11 31 20 0 0 0 /\
  (JSDateLocal.getFullYear Asia_Kolkata now,
   JSDateLocal.getMonth Asia_Kolkata now,
   JSDateLocal.getDate Asia_Kolkata now) = (2025, 0, 1) /\
  JSDateLocal.getFullYear Asia_Kolkata e = 2026 /\
  JSDateLocal.getMonth Asia_Kolkata e = 0 /\
  JSDateLocal.getDate Asia_Kolkata e = 1 /\
  JSDateLocal.TimeWithinDay Asia_Kolkata e =
  JSDateLocal.TimeWithinDay Asia_Kolkata now.
Proof.
  cbv zeta. split; [vm_compute; reflexivity|]. split; [vm_compute; reflexivity|].
  apply (calculateEndDate_year_when_day_exists Asia_Kolkata
           (JSDate.UTC 2024 11 31 20 0 0 0)).
  vm_compute. discriminate.
Defined.

(** X9: on a server at a fixed offset from UTC, when the same month of
    the next year is too short for the day of the local date the period
    starts on (29 February of a leap year), a yearly period ends in the
    month after it, as many days in as the day exceeds the length of
    that month. *)
Theorem calculateEndDate_year_overflow (tza now : Z) :
  let e := calculateEndDate_local tza now "year" in
  JSDate.days_in_month (JSDateLocal.getFullYear tza now + 1)
    (JSDateLocal.getMonth tza now + 1)
  < JSDateLocal.getDate tza now ->
  JSDateLocal.getFullYear tza e =
    JSDateLocal.getFullYear tza now + 1 + (JSDateLocal.getMonth tza now + 1) / 12 /\
  JSDateLocal.getMonth tza e = (JSDateLocal.getMonth tza now + 1) mod 12 /\
  JSDateLocal.getDate tza e =
    JSDateLocal.getDate tza now
    - JSDate.days_in_month (JSDateLocal.getFullYear tza now + 1)
        (JSDateLocal.getMonth tza now + 1) /\
  JSDateLocal.TimeWithinDay tza e = JSDateLocal.TimeWithinDay tza now.
Proof.
  intros e Hd. subst e. revert Hd. on_local_clock.
  apply (year_overflow_UTC (JSDateLocal.LocalTime tza now)).
Qed.

Lemma calculateEndDate_year_overflow_witness :
  let now := JSDate.UTC 2024 1 29 12 0 0 0 in
  let e := calculateEndDate_local Asia_Kolkata now "year" in
  e = JSDate.UTC 2025 2 1 12 0 0 0 /\
  JSDateLocal.getFullYear Asia_Kolkata e = 2025 /\
  JSDateLocal.getMonth Asia_Kolkata e = 2 /\
  JSDateLocal.getDate Asia_Kolkata e = 1 /\
  JSDateLocal.TimeWithinDay Asia_Kolkata e =
  JSDateLocal.TimeWithinDay Asia_Kolkata now.
Proof.
  cbv zeta. split; [vm_compute; reflexivity|].
  apply (calculateEndDate_year_overflow Asia_Kolkata
           (JSDate.UTC 2024 1 29 12 0 0 0)).
  vm_compute. reflexivity.
Defined.


Lemma calculateEndDate_default_witness :
  calculateEndDate Sample.t0 "fortnight" = calculateEndDate Sample.t0 "month".
Proof.
  apply (calculateEndDate_default Sample.t0 "fortnight"); discriminate.
Defined.

(** C8, where the code departs from the claim: a monthly period that
    starts on 31 January 2025 ends on 3 March 2025, not one calendar
    month later (28 February); a yearly period that starts on 29
    February 2024 ends on 1 March 2025. [setMonth] and [setFullYear]
    keep the day of the month and let it overflow into the next
    month. *)
Theorem calculateEndDate_overflows_month_end :
  calculateEndDate (JSDate.UTC 2025 0 31 12 0 0 0) "month"
  = JSDate.UTC 2025 2 3 12 0 0 0 /\
  calculateEndDate (JSDate.UTC 2025 0 31 12 0 0 0) "fortnight"
  = JSDate.UTC 2025 2 3 12 0 0 0 /\
  calculateEndDate (JSDate.UTC 2024 1 29 12 0 0 0) "year"
  = JSDate.UTC 2025 2 1 12 0 0 0 /\
  calculateEndDate_verify (JSDate.UTC 2025 0 31 12 0 0 0) (Some "month")
  = JSDate.UTC 2025 2 3 12 0 0 0 /\
  JSDate.civil_from_days
    (JSDate.Day (calculateEndDate (JSDate.UTC 2025 0 31 12 0 0 0) "month"))
  = (2025, 3, 3).
Proof. vm_compute. repeat split. Qed.

(* ================================================================== *)
(** ** The digest against published test vectors *)
(* ================================================================== *)

Example sha256_abc :
  SHA256.hex (SHA256.digest (SHA256.bytes_of "abc")) =
  "ba7816bf8f01cfea414140de5dae2223b00361a396177a9cb410ff61f20015ad".
Proof. vm_compute. reflexivity. Qed.

Example sha256_constants :
  List.length SHA256.K = 64%nat /\
  hd 0 SHA256.K = 0x428a2f98 /\ last SHA256.K 0 = 0xc67178f2 /\
  hd 0 SHA256.H0 = 0x6a09e667 /\ last SHA256.H0 0 = 0x5be0cd19.
Proof. vm_compute. repeat split. Qed.

Example hmac_sha256_quick_brown_fox :
  createHmac_sha256_hex "key" "The quick brown fox jumps over the lazy dog" =
  "f7bc83f430538424b13298e6aa6fb143ef4d59a14946175997479dbc2d1a3cd8".
Proof. vm_compute. reflexivity. Qed.

(* ================================================================== *)
(** ** Reading the store after a promotion *)
(* ================================================================== *)

(** After [promote], the promoted row is stored as [active] with the
    computed end date, and the profile of the user has access with the
    row's plan type as its tier. *)
Lemma promote_row (now : Z) (uid : string) (p : Subscription) (d : DB) :
  In p (subscriptions d) ->
  In (promoted_row now p p) (subscriptions (promote now uid p d)) /\
  s_status (promoted_row now p p) = "active" /\
  s_endDate (promoted_row now p p) = Some (calculateEndDate now (s_planType p)).
Proof.
  intros Hin. split; [|split; reflexivity].
  unfold promote. cbn [subscriptions]. apply in_map_iff. exists p.
  rewrite Nat.eqb_refl. split; [reflexivity | exact Hin].
Qed.

Lemma promote_profile (now : Z) (uid : string) (p : Subscription) (d : DB)
    (q : Profile) :
  find (prisma.has_userId uid) (profiles d) = Some q ->
  find (prisma.has_userId uid) (profiles (promote now uid p d)) =
  Some (granted_profile now (s_planType p) q) /\
  has_access uid (promote now uid p d) = Some true.
Proof.
  intros Hq. unfold has_access, promote. cbn [profiles].
  rewrite (find_map_keeps (prisma.has_userId uid)
             (granted_profile now (s_planType p)) (fun _ => eq_refl)).
  rewrite Hq. split; reflexivity.
Qed.

(* ================================================================== *)
(** ** The length of a period *)
(* ================================================================== *)

Module JSDateMore.
Import JSDate JSDateFacts.

(** The same first of the month one year later: 365 days on, or 366
    when a 29 February lies between the two. *)
Lemma next_year_first (y m : Z) :
  1 <= m <= 12 ->
  days_from_civil (y + 1) m 1 =
  days_from_civil y m 1 +
  (if (if m <=? 2 then is_leap y else is_leap (y + 1)) then 366 else 365).
Proof.
  intros Hm. unfold days_from_civil, doe_of_civil, year_shift. cbv zeta.
  destruct (Z.leb_spec m 2) as [H2|H2].
  - replace (2 <? m) with false by (symmetry; apply Z.ltb_ge; lia).
    replace (y + 1 - 1) with y by lia.
    destruct (is_leap_spec y) as [[Hl Hc]|[Hl Hc]]; rewrite Hl;
      Z.div_mod_to_equations; lia.
  - replace (2 <? m) with true by (symmetry; apply Z.ltb_lt; lia).
    rewrite !Z.sub_0_r.
    destruct (is_leap_spec (y + 1)) as [[Hl Hc]|[Hl Hc]]; rewrite Hl;
      Z.div_mod_to_equations; lia.
Qed.

(** [setMonth] to the month after the current one moves the date on
    by the length of the current month. *)
Lemma setMonth_next (t : Z) :
  setMonth t (getMonth t + 1) =
  t + days_in_month (getFullYear t) (getMonth t + 1) * msPerDay.
Proof.
  destruct (fields_spec t) as [Hm [Hd Hback]].
  unfold setMonth, MakeDay. cbv zeta.
  rewrite (next_month_first (getFullYear t) (getMonth t + 1)) by lia.
  rewrite (days_from_civil_day _ _ (getDate t)) in Hback.
  pose proof (day_time_split t) as Hs.
  unfold MakeDate, msPerDay in *. lia.
Qed.

(** [setFullYear] to the next year moves the date on by the length of
    the year that lies between. *)
Lemma setFullYear_next (t : Z) :
  setFullYear t (getFullYear t + 1) =
  t + (if (if getMonth t <=? 1 then is_leap (getFullYear t)
           else is_leap (getFullYear t + 1))
       then 366 else 365) * msPerDay.
Proof.
  destruct (fields_spec t) as [Hm [Hd Hback]].
  unfold setFullYear, MakeDay. cbv zeta.
  rewrite (Z.div_small (getMonth t) 12) by lia.
  rewrite (Z.mod_small (getMonth t) 12) by lia.
  rewrite Z.add_0_r.
  rewrite (next_year_first (getFullYear t) (getMonth t + 1)) by lia.
  rewrite (days_from_civil_day _ _ (getDate t)) in Hback.
  replace (getMonth t + 1 <=? 2) with (getMonth t <=? 1)
    by (destruct (Z.leb_spec (getMonth t) 1), (Z.leb_spec (getMonth t + 1) 2);
        try reflexivity; lia).
  pose proof (day_time_split t) as Hs.
  unfold MakeDate, msPerDay in *.
  destruct (if getMonth t <=? 1 then _ else _); lia.
Qed.

End JSDateMore.

(** X10: on a server at a fixed offset from UTC, a monthly period
    lasts exactly as many days as the calendar month of the local date
    it starts on has, whatever the start; so it ends on the same day of
    the next month only when that month is long enough. *)
Theorem calculateEndDate_month_length (tza now : Z) :
  calculateEndDate_local tza now "month" =
  now + JSDate.days_in_month (JSDateLocal.getFullYear tza now)
          (JSDateLocal.getMonth tza now + 1)
        * JSDate.msPerDay.
Proof.
  rewrite calculateEndDate_local_shift, calculateEndDate_month.
  rewrite JSDateMore.setMonth_next.
  unfold JSDateLocal.getFullYear, JSDateLocal.getMonth, JSDateLocal.LocalTime.
  lia.
Qed.

(** X11: on a server at a fixed offset from UTC, a yearly period lasts
    366 days when a 29 February lies between the local date it starts
    on and the same date a year later, and 365 days otherwise. *)
Theorem calculateEndDate_year_length (tza now : Z) :
  let leap_day_between :=
    if JSDateLocal.getMonth tza now <=? 1
    then JSDate.is_leap (JSDateLocal.getFullYear tza now)
    else JSDate.is_leap (JSDateLocal.getFullYear tza now + 1) in
  calculateEndDate_local tza now "year" =
  now + (if leap_day_between then 366 else 365) * JSDate.msPerDay.
Proof.
  cbv zeta. rewrite calculateEndDate_local_shift, calculateEndDate_year.
  rewrite JSDateMore.setFullYear_next.
  unfold JSDateLocal.getFullYear, JSDateLocal.getMonth, JSDateLocal.LocalTime.
  lia.
Qed.

(** The instant the length of the month depends on the zone at: 20:00
    UTC on 31 January 2025 is still January in UTC and already
    February in Asia/Kolkata. *)
Example calculateEndDate_month_length_by_zone :
  let now := JSDate.UTC 2025 0 31 20 0 0 0 in
  calculateEndDate_local 0 now "month" = now + 31 * JSDate.msPerDay /\
  calculateEndDate_local Asia_Kolkata now "month" = now + 28 * JSDate.msPerDay.
Proof. vm_compute. split; reflexivity. Qed.

(* ================================================================== *)
(** ** Relations every step of a handler keeps *)
(* ================================================================== *)

Section KeepsFacts.

Variable R : World -> World -> Prop.
Hypothesis R_refl : forall w, R w w.
Hypothesis R_trans : forall w1 w2 w3, R w1 w2 -> R w2 w3 -> R w1 w3.

Lemma keeps_ret {A} (a : A) : keeps R (ret a).
Proof. intros w. apply R_refl. Qed.

Lemma keeps_throw {A} (e : string) : keeps R (@throw A e).
Proof. intros w. apply R_refl. Qed.

Lemma keeps_lift {A} (o : outcome A) : keeps R (lift o).
Proof. intros w. apply R_refl. Qed.

Lemma keeps_get_db : keeps R get_db.
Proof. intros w. apply R_refl. Qed.

Lemma keeps_bind {A B} (m : M A) (k : A -> M B) :
  keeps R m -> (forall a, keeps R (k a)) -> keeps R (bind m k).
Proof.
  intros Hm Hk w. unfold bind. specialize (Hm w).
  destruct (m w) as [[a|e] w1]; cbn [snd] in *.
  - exact (R_trans _ _ _ Hm (Hk a w1)).
  - exact Hm.
Qed.

Lemma keeps_try_catch {A} (m : M A) (h : string -> M A) :
  keeps R m -> (forall e, keeps R (h e)) -> keeps R (try_catch m h).
Proof.
  intros Hm Hh w. unfold try_catch. specialize (Hm w).
  destruct (m w) as [[a|e] w1]; cbn [snd] in *.
  - exact Hm.
  - exact (R_trans _ _ _ Hm (Hh e w1)).
Qed.

Lemma keeps_deref {A} (property : string) (o : option A) :
  keeps R (deref property o).
Proof. destruct o; [apply keeps_ret | apply keeps_throw]. Qed.

End KeepsFacts.

(** The structure of a handler, step by step. *)
Ltac keeps_step refl trans :=
  lazymatch goal with
  | |- keeps _ (bind _ _) => apply (keeps_bind _ trans); [|intros ?]
  | |- keeps _ (try_catch _ _) => apply (keeps_try_catch _ trans); [|intros ?]
  | |- keeps _ (swallow _) => apply (keeps_try_catch _ trans); [|intros ?]
  | |- keeps _ (ret _) => apply (keeps_ret _ refl)
  | |- keeps _ (throw _) => apply (keeps_throw _ refl)
  | |- keeps _ (lift _) => apply (keeps_lift _ refl)
  | |- keeps _ (deref _ _) => apply (keeps_deref _ refl)
  | |- keeps _ get_db => apply (keeps_get_db _ refl)
  | |- keeps _ (prisma.findFirst _) =>
      apply (keeps_bind _ trans); [apply (keeps_get_db _ refl)|intros ?]
  | |- keeps _ (prisma.findFirst_desc _) =>
      apply (keeps_bind _ trans); [apply (keeps_get_db _ refl)|intros ?]
  | |- keeps _ (prisma.findUnique _) =>
      apply (keeps_bind _ trans); [apply (keeps_get_db _ refl)|intros ?]
  | |- keeps _ (prisma.profile_findUnique _) =>
      apply (keeps_bind _ trans); [apply (keeps_get_db _ refl)|intros ?]
  | |- keeps _ (match ?x with _ => _ end) => destruct x
  | |- keeps _ ((match ?x with _ => _ end) _) => destruct x
  | |- keeps _ ((fun _ => _) _) => cbv beta
  | |- keeps _ (let _ := _ in _) => cbv zeta
  end.

(** *** The provider is not called *)

Lemma same_calls_refl w : same_calls w w.
Proof. reflexivity. Qed.

Lemma same_calls_trans w1 w2 w3 :
  same_calls w1 w2 -> same_calls w2 w3 -> same_calls w1 w3.
Proof. unfold same_calls. congruence. Qed.

Lemma put_db_same_calls d : keeps same_calls (put_db d).
Proof. intros w. reflexivity. Qed.

Ltac quiet_step :=
  first [ apply put_db_same_calls
        | keeps_step same_calls_refl same_calls_trans ].

Lemma updateMany_same_calls now P data :
  keeps same_calls (prisma.updateMany now P data).
Proof. unfold prisma.updateMany. repeat quiet_step. Qed.

Lemma update_same_calls now P data :
  keeps same_calls (prisma.update now P data).
Proof.
  unfold prisma.update. repeat quiet_step. apply updateMany_same_calls.
Qed.

Lemma create_same_calls now c : keeps same_calls (prisma.create now c).
Proof. unfold prisma.create. repeat quiet_step. Qed.

Lemma upsert_same_calls now rid data c :
  keeps same_calls (prisma.upsert now rid data c).
Proof.
  unfold prisma.upsert. repeat quiet_step;
    [apply updateMany_same_calls | apply create_same_calls].
Qed.

Lemma profile_update_same_calls now uid data :
  keeps same_calls (prisma.profile_update now uid data).
Proof. unfold prisma.profile_update. repeat quiet_step. Qed.

Lemma profile_create_same_calls now uid email active tier stripe :
  keeps same_calls (prisma.profile_create now uid email active tier stripe).
Proof. unfold prisma.profile_create. repeat quiet_step. Qed.

Ltac quiet :=
  repeat first
    [ apply updateMany_same_calls | apply update_same_calls
    | apply create_same_calls | apply upsert_same_calls
    | apply profile_update_same_calls | apply profile_create_same_calls
    | quiet_step ].

Lemma dispatch_same_calls typed now data :
  keeps same_calls (dispatch typed now data).
Proof.
  unfold dispatch. cbv zeta.
  unfold razorpay_webhook.handleSubscriptionActivated,
    razorpay_webhook.handleSubscriptionPending,
    webhook.handleSubscriptionActivated, webhook.handleSubscriptionPending,
    handleSubscriptionHalted, handleSubscriptionCancelled,
    handlePaymentCaptured, handlePaymentFailed, mark_and_deactivate,
    activate_from_webhook, pending_from_webhook.
  quiet.
Qed.

Module SHA256Facts.
Import SHA256.

Lemma round_length (st : list Z) (kw : Z * Z) :
  List.length (round st kw) = List.length st.
Proof.
  unfold round.
  destruct st as [|a [|b [|c [|d [|e [|f [|g [|h [|i st]]]]]]]]]; reflexivity.
Qed.

Lemma rounds_length (kws : list (Z * Z)) (st : list Z) :
  List.length (fold_left round kws st) = List.length st.
Proof.
  revert st. induction kws as [|kw kws IH]; intros st; cbn [fold_left].
  - reflexivity.
  - rewrite IH. apply round_length.
Qed.

Lemma compress_length (h block : list Z) :
  List.length (compress h block) = List.length h.
Proof.
  unfold compress. cbv zeta.
  rewrite length_map, length_combine, rounds_length. apply Nat.min_id.
Qed.

Lemma chain_length (bs : list (list Z)) (h : list Z) :
  List.length (fold_left compress bs h) = List.length h.
Proof.
  revert h. induction bs as [|b bs IH]; intros h; cbn [fold_left].
  - reflexivity.
  - rewrite IH. apply compress_length.
Qed.

Lemma be_bytes_length (n : nat) (x : Z) : List.length (be_bytes n x) = n.
Proof. unfold be_bytes. rewrite length_map, length_rev, length_seq. reflexivity. Qed.

Lemma be_bytes_range (n : nat) (x b : Z) :
  In b (be_bytes n x) -> 0 <= b < 256.
Proof.
  unfold be_bytes. intros H. apply in_map_iff in H.
  destruct H as [i [<- _]].
  change 255 with (Z.ones 8). rewrite Z.land_ones by lia.
  apply Z.mod_pos_bound. reflexivity.
Qed.

Lemma flat_map_be_bytes_length (ws : list Z) :
  List.length (flat_map (be_bytes 4) ws) = (4 * List.length ws)%nat.
Proof.
  induction ws as [|w ws IH]; cbn [flat_map List.length].
  - reflexivity.
  - rewrite length_app, be_bytes_length, IH. lia.
Qed.

(** A digest is 32 bytes, each below 256. *)
Lemma digest_length (msg : list Z) : List.length (digest msg) = 32%nat.
Proof.
  unfold digest. cbv zeta.
  rewrite flat_map_be_bytes_length, chain_length. reflexivity.
Qed.

Lemma digest_range (msg : list Z) (b : Z) :
  In b (digest msg) -> 0 <= b < 256.
Proof.
  unfold digest. cbv zeta. intros H. apply in_flat_map in H.
  destruct H as [w [_ H]]. exact (be_bytes_range 4 w b H).
Qed.

Lemma hex_digit_length (n : Z) :
  0 <= n < 16 -> String.length (hex_digit n) = 1%nat.
Proof.
  intros H. unfold hex_digit.
  assert (Hn : (Z.to_nat n < 16)%nat) by lia.
  destruct (Z.to_nat n) as [|[|[|[|[|[|[|[|[|[|[|[|[|[|[|[|k]]]]]]]]]]]]]]]];
    try reflexivity; lia.
Qed.

Lemma length_append (s s' : string) :
  String.length (s ++ s') = (String.length s + String.length s')%nat.
Proof. induction s as [|c s IH]; cbn; [reflexivity | rewrite IH; reflexivity]. Qed.

Lemma hex_length (bytes : list Z) :
  (forall b, In b bytes -> 0 <= b < 256) ->
  String.length (hex bytes) = (2 * List.length bytes)%nat.
Proof.
  induction bytes as [|b bytes IH]; intros Hr.
  - reflexivity.
  - unfold hex in *. cbn [fold_right List.length].
    rewrite !length_append, IH by (intros b' Hb'; apply Hr; right; exact Hb').
    assert (Hb : 0 <= b < 256) by (apply Hr; left; reflexivity).
    rewrite !hex_digit_length.
    + lia.
    + change 15 with (Z.ones 4). rewrite Z.land_ones by lia.
      apply Z.mod_pos_bound. reflexivity.
    + rewrite Z.shiftr_div_pow2 by lia. change (2 ^ 4) with 16.
      split; [apply Z.div_pos; lia | apply Z.div_lt_upper_bound; lia].
Qed.

Lemma hmac_is_digest (key msg : list Z) : exists m, hmac key msg = digest m.
Proof. unfold hmac. cbv zeta. eexists. reflexivity. Qed.

End SHA256Facts.

(** A hex HMAC-SHA256 has 64 characters. *)
Lemma createHmac_sha256_hex_length (key data : string) :
  String.length (createHmac_sha256_hex key data) = 64%nat.
Proof.
  unfold createHmac_sha256_hex.
  destruct (SHA256Facts.hmac_is_digest (SHA256.bytes_of key) (SHA256.bytes_of data))
    as [m ->].
  rewrite SHA256Facts.hex_length by apply SHA256Facts.digest_range.
  rewrite SHA256Facts.digest_length. reflexivity.
Qed.

(* ================================================================== *)
(** ** The webhook routes *)
(* ================================================================== *)

Lemma or_default_self (s : string) : or_default (Some s) "" = s.
Proof.
  unfold or_default. destruct (String.eqb_spec s ""); [symmetry; assumption|reflexivity].
Qed.

Lemma sign_signed_by (env : Env) (body : string) : signed_by env (sign env body).
Proof. unfold signed_by, sign. cbn [wr_body wr_signature]. symmetry. apply or_default_self. Qed.

(** Past the signature check and [JSON.parse], the answer only tells
    whether the dispatch threw. *)
Lemma webhook_POST_run JSON_parse typed env now request w data :
  signed_by env request ->
  JSON_parse (wr_body request) = Ret data ->
  webhook_POST JSON_parse typed env now request w =
  match dispatch typed now data w with
  | (Ret _, w') => (Ret received_response, w')
  | (Throw e, w') =>
      (Ret (NextResponse_json
              [("error",
                JString (if typed then e
                         else message_or e "Failed to process webhook"))]
              500), w')
  end.
Proof.
  intros Hsig Hparse. unfold signed_by in Hsig.
  unfold webhook_POST. cbv zeta. rewrite Hsig, String.eqb_refl.
  cbn [negb]. unfold try_catch, bind, lift. rewrite Hparse.
  destruct (dispatch typed now data w) as [[[]|e] w']; reflexivity.
Qed.

Lemma swallow_run (m : M unit) (w : World) :
  swallow m w = (Ret tt, snd (m w)).
Proof.
  unfold swallow, try_catch, ret. destruct (m w) as [[[]|e] w']; reflexivity.
Qed.

(** With an entity to work on, no handler lets an exception out. *)
Lemma dispatch_with_payload typed now data e w :
  payload_of data = Some e ->
  exists w', dispatch typed now data w = (Ret tt, w').
Proof.
  intros Hp. unfold payload_of in Hp. unfold dispatch. cbv zeta. rewrite Hp.
  unfold bind, deref, ret.
  unfold razorpay_webhook.handleSubscriptionActivated,
    razorpay_webhook.handleSubscriptionPending,
    webhook.handleSubscriptionActivated, webhook.handleSubscriptionPending,
    handleSubscriptionHalted, handleSubscriptionCancelled,
    handlePaymentCaptured, handlePaymentFailed, mark_and_deactivate.
  repeat match goal with
         | |- context [if ?c then _ else _] => destruct c
         end;
    try rewrite swallow_run; eexists; reflexivity.
Qed.

(** X12: a correctly signed event that carries an entity is always
    acknowledged with 200, whatever the store does with it: what a
    handler throws is logged and dropped. No webhook calls the provider. *)
Theorem webhook_acknowledges_signed_events
    (JSON_parse : string -> outcome WebhookData) (typed : bool) (env : Env)
    (now : Z) (request : WebhookRequest) (w : World)
    (webhookData : WebhookData) (entity : RazorpayEntity) :
  signed_by env request ->
  JSON_parse (wr_body request) = Ret webhookData ->
  payload_of webhookData = Some entity ->
  exists w',
    webhook_POST JSON_parse typed env now request w =
    (Ret received_response, w') /\
    http_status received_response = 200 /\
    rzp_calls w' = rzp_calls w.
Proof.
  intros Hsig Hparse Hp.
  rewrite (webhook_POST_run _ _ _ _ _ _ _ Hsig Hparse).
  pose proof (dispatch_same_calls typed now webhookData w) as Hcalls.
  destruct (dispatch_with_payload typed now webhookData entity w Hp) as [w' Hd].
  rewrite Hd in Hcalls |- *. exists w'. repeat split. exact Hcalls.
Qed.

Lemma webhook_acknowledges_signed_events_witness :
  exists w',
    webhook_POST (SampleWebhook.parse_as "subscription.activated"
                    SampleWebhook.halted_entity)
      true Sample.env Sample.t0 (sign Sample.env "{}") Sample.empty_world =
    (Ret received_response, w') /\
    http_status received_response = 200 /\
    rzp_calls w' = rzp_calls Sample.empty_world.
Proof.
  apply (webhook_acknowledges_signed_events
           (SampleWebhook.parse_as "subscription.activated"
              SampleWebhook.halted_entity)
           true Sample.env Sample.t0 (sign Sample.env "{}") Sample.empty_world
           (mkWebhookData "subscription.activated"
              (Some SampleWebhook.halted_entity) None)
           SampleWebhook.halted_entity).
  - apply sign_signed_by.
  - reflexivity.
  - reflexivity.
Defined.

Lemma mem_handled_events (event : string) :
  mem event handled_events =
  String.eqb event "subscription.activated" ||
  String.eqb event "subscription.pending" ||
  String.eqb event "subscription.halted" ||
  String.eqb event "subscription.cancelled" ||
  String.eqb event "payment.captured" ||
  String.eqb event "payment.failed".
Proof.
  unfold mem, handled_events. cbn [existsb]. rewrite orb_false_r.
  rewrite !orb_assoc. reflexivity.
Qed.

Lemma dispatch_other_event typed now data w :
  mem (wd_event data) handled_events = false ->
  dispatch typed now data w = (Ret tt, w).
Proof.
  rewrite mem_handled_events. intros H.
  repeat (apply orb_false_iff in H; destruct H as [H ?]).
  unfold dispatch. cbv zeta.
  repeat match goal with
         | Heq : String.eqb _ _ = false |- _ => rewrite Heq; clear Heq
         end.
  reflexivity.
Qed.

Lemma dispatch_without_payload typed now data w :
  mem (wd_event data) handled_events = true ->
  payload_of data = None ->
  dispatch typed now data w = (Throw (TypeError_reading "entity"), w).
Proof.
  rewrite mem_handled_events. intros H Hp. unfold payload_of in Hp.
  unfold dispatch. cbv zeta. rewrite Hp. unfold bind, deref, throw.
  repeat match goal with
         | |- context [if ?c then _ else _] => destruct c
         end; try reflexivity.
  discriminate H.
Qed.

(** X13: an event the [switch] has no case for is acknowledged and
    changes nothing; an event it has a case for, but whose payload
    holds neither a subscription nor a payment, is answered 500 and
    changes nothing either. *)
Theorem webhook_events_without_effect
    (JSON_parse : string -> outcome WebhookData) (typed : bool) (env : Env)
    (now : Z) (request : WebhookRequest) (w : World)
    (webhookData : WebhookData) :
  signed_by env request ->
  JSON_parse (wr_body request) = Ret webhookData ->
  let answer := webhook_POST JSON_parse typed env now request w in
  (mem (wd_event webhookData) handled_events = false ->
   answer = (Ret received_response, w)) /\
  (mem (wd_event webhookData) handled_events = true ->
   payload_of webhookData = None ->
   exists message,
     answer =
     (Ret (NextResponse_json [("error", JString message)] 500), w)).
Proof.
  intros Hsig Hparse answer. subst answer.
  rewrite (webhook_POST_run _ _ _ _ _ _ _ Hsig Hparse).
  split.
  - intros Hev. rewrite (dispatch_other_event _ _ _ _ Hev). reflexivity.
  - intros Hev Hp. rewrite (dispatch_without_payload _ _ _ _ Hev Hp).
    eexists. reflexivity.
Qed.

Lemma webhook_events_without_effect_witness :
  webhook_POST (SampleWebhook.parse_bare "invoice.paid") false Sample.env
    Sample.t0 (sign Sample.env "{}") Sample.world_active =
  (Ret received_response, Sample.world_active) /\
  exists message,
    webhook_POST (SampleWebhook.parse_bare "payment.failed") false Sample.env
      Sample.t0 (sign Sample.env "{}") Sample.world_active =
    (Ret (NextResponse_json [("error", JString message)] 500),
     Sample.world_active).
Proof.
  split.
  - apply (webhook_events_without_effect
             (SampleWebhook.parse_bare "invoice.paid") false Sample.env
             Sample.t0 (sign Sample.env "{}") Sample.world_active
             (mkWebhookData "invoice.paid" None None)
             (sign_signed_by _ _) eq_refl).
    reflexivity.
  - apply (webhook_events_without_effect
             (SampleWebhook.parse_bare "payment.failed") false Sample.env
             Sample.t0 (sign Sample.env "{}") Sample.world_active
             (mkWebhookData "payment.failed" None None)
             (sign_signed_by _ _) eq_refl); reflexivity.
Defined.

(** X14: a request whose signature header is missing, empty or of any
    length other than the 64 characters of a hex SHA-256 digest is
    turned away with 401 before its body is parsed, whatever the secret
    and the body. *)
Theorem webhook_rejects_signature_of_wrong_length
    (JSON_parse : string -> outcome WebhookData) (typed : bool) (env : Env)
    (now : Z) (request : WebhookRequest) (w : World) :
  String.length (or_default (wr_signature request) "") <> 64%nat ->
  webhook_POST JSON_parse typed env now request w =
  (Ret webhook_unauthorized, w) /\
  http_status webhook_unauthorized = 401.
Proof.
  intros Hlen. split; [|reflexivity].
  apply webhook_rejects_bad_signature. intros Heq. apply Hlen.
  rewrite <- Heq. apply createHmac_sha256_hex_length.
Qed.

Lemma webhook_rejects_signature_of_wrong_length_witness :
  webhook_POST SampleSignature.parse true Sample.env Sample.t0
    (mkWebhookRequest "{}" None) SampleCaptured.world_created =
  (Ret webhook_unauthorized, SampleCaptured.world_created) /\
  http_status webhook_unauthorized = 401.
Proof.
  apply (webhook_rejects_signature_of_wrong_length SampleSignature.parse true
           Sample.env Sample.t0 (mkWebhookRequest "{}" None)
           SampleCaptured.world_created).
  cbn. discriminate.
Defined.

(** Suspending a profile never trips the unique index: the reference
    is not written. *)
Lemma profile_update_suspend_run now uid w q :
  find (prisma.has_userId uid) (profiles (db w)) = Some q ->
  prisma.profile_update now uid (prisma.p_set_active false) w =
  (Ret tt, mkWorld (suspend now uid (db w)) (rzp_calls w)).
Proof.
  intros Hq. unfold prisma.profile_update, bind, get_db, put_db, throw.
  rewrite Hq. cbn [prisma.p_set_active p_stripeSubscriptionId].
  rewrite opt_eqb_refl. reflexivity.
Qed.

Lemma suspend_shows now uid d q :
  find (prisma.has_userId uid) (profiles d) = Some q ->
  has_access uid (suspend now uid d) = Some false /\
  tier_of uid (suspend now uid d) = Some (p_subscriptionTier q) /\
  reference_of uid (suspend now uid d) = Some (p_stripeSubscriptionId q).
Proof.
  unfold has_access, tier_of, reference_of, suspend. cbn [profiles].
  intros Hq.
  rewrite (find_map_keeps (prisma.has_userId uid)
             (fun p => prisma.p_touch now (prisma.p_set_active false p))
             (fun _ => eq_refl)).
  rewrite Hq. repeat split.
Qed.

(** What [subscription.halted] and [subscription.cancelled] do to the
    store. *)
Lemma mark_and_deactivate_run now st e w row q :
  find (has_rid (e_id e)) (subscriptions (db w)) = Some row ->
  find (prisma.has_userId (s_userId row)) (profiles (db w)) = Some q ->
  mark_and_deactivate now st e w =
  (Ret tt,
   mkWorld (suspend now (s_userId row) (mark_status now st (e_id e) (db w)))
           (rzp_calls w)).
Proof.
  intros Hrow Hq. unfold mark_and_deactivate. cbv zeta. rewrite swallow_run.
  unfold prisma.findUnique, prisma.findFirst, bind at 1 2, get_db, ret.
  rewrite Hrow. cbv beta iota.
  unfold bind at 1, prisma.update, bind at 1, get_db.
  rewrite (find_some_existsb _ _ _ Hrow).
  unfold prisma.updateMany, bind, get_db, put_db. cbv beta iota.
  cbn [db profiles subscriptions next_id rzp_calls].
  fold (mark_status now st (e_id e) (db w)).
  rewrite (profile_update_suspend_run now (s_userId row)
             (mkWorld (mark_status now st (e_id e) (db w)) (rzp_calls w)) q)
    by exact Hq.
  reflexivity.
Qed.

Lemma mark_and_deactivate_unknown now st e w :
  find (has_rid (e_id e)) (subscriptions (db w)) = None ->
  mark_and_deactivate now st e w = (Ret tt, w).
Proof.
  intros Hrow. unfold mark_and_deactivate. cbv zeta. rewrite swallow_run.
  unfold prisma.findUnique, prisma.findFirst, bind, get_db, ret.
  rewrite Hrow. reflexivity.
Qed.

Lemma dispatch_halted typed now data e w :
  wd_event data = "subscription.halted" -> payload_of data = Some e ->
  dispatch typed now data w = handleSubscriptionHalted now e w.
Proof.
  intros Hev Hp. unfold payload_of in Hp. unfold dispatch. cbv zeta.
  rewrite Hev, Hp. reflexivity.
Qed.

Lemma dispatch_cancelled typed now data e w :
  wd_event data = "subscription.cancelled" -> payload_of data = Some e ->
  dispatch typed now data w = handleSubscriptionCancelled now e w.
Proof.
  intros Hev Hp. unfold payload_of in Hp. unfold dispatch. cbv zeta.
  rewrite Hev, Hp. reflexivity.
Qed.

(** X15: [subscription.halted] and [subscription.cancelled] give the
    rows of the subscription the new status and clear the access flag
    of the owner of the row, whose tier and provider reference stay as
    they were; for a subscription the store does not know they do
    nothing. *)
Theorem webhook_halt_or_cancel_suspends
    (JSON_parse : string -> outcome WebhookData) (typed : bool) (env : Env)
    (now : Z) (request : WebhookRequest) (w : World)
    (webhookData : WebhookData) (entity : RazorpayEntity) (st : string) :
  signed_by env request ->
  JSON_parse (wr_body request) = Ret webhookData ->
  payload_of webhookData = Some entity ->
  (st = "halted" \/ st = "cancelled") ->
  wd_event webhookData = "subscription." ++ st ->
  fk_ok (db w) = true ->
  let answer := webhook_POST JSON_parse typed env now request w in
  match find (has_rid (e_id entity)) (subscriptions (db w)) with
  | None => answer = (Ret received_response, w)
  | Some row =>
      let d := suspend now (s_userId row)
                 (mark_status now st (e_id entity) (db w)) in
      answer = (Ret received_response, mkWorld d (rzp_calls w)) /\
      has_access (s_userId row) d = Some false /\
      tier_of (s_userId row) d = tier_of (s_userId row) (db w) /\
      reference_of (s_userId row) d = reference_of (s_userId row) (db w)
  end.
Proof.
  intros Hsig Hparse Hp Hst Hev Hfk answer. subst answer.
  rewrite (webhook_POST_run _ _ _ _ _ _ _ Hsig Hparse).
  assert (Hd : dispatch typed now webhookData w =
               mark_and_deactivate now st entity w).
  { destruct Hst as [-> | ->].
    - exact (dispatch_halted _ _ _ _ _ Hev Hp).
    - exact (dispatch_cancelled _ _ _ _ _ Hev Hp). }
  rewrite Hd.
  destruct (find (has_rid (e_id entity)) (subscriptions (db w)))
    as [row|] eqn:Hrow.
  - cbv zeta.
    destruct (fk_profile (db w) row Hfk (proj1 (find_some _ _ Hrow)))
      as [q Hq].
    rewrite (mark_and_deactivate_run now st entity w row q Hrow Hq).
    split; [reflexivity|].
    assert (Hq' : find (prisma.has_userId (s_userId row))
                    (profiles (mark_status now st (e_id entity) (db w)))
                  = Some q) by exact Hq.
    destruct (suspend_shows now (s_userId row) _ q Hq') as [Ha [Ht Hr]].
    split; [exact Ha|]. unfold tier_of, reference_of in *.
    rewrite Ht, Hr, Hq. split; reflexivity.
  - rewrite (mark_and_deactivate_unknown now st entity w Hrow). reflexivity.
Qed.

Lemma webhook_halt_or_cancel_suspends_witness :
  let d := suspend Sample.t0 "U"
             (mark_status Sample.t0 "halted" "sub_1" (db Sample.world_active)) in
  webhook_POST (SampleWebhook.parse_as "subscription.halted"
                  SampleWebhook.halted_entity)
    true Sample.env Sample.t0 (sign Sample.env "{}") Sample.world_active =
  (Ret received_response, mkWorld d (rzp_calls Sample.world_active)) /\
  has_access "U" d = Some false /\
  tier_of "U" d = tier_of "U" (db Sample.world_active) /\
  reference_of "U" d = reference_of "U" (db Sample.world_active).
Proof.
  apply (webhook_halt_or_cancel_suspends
           (SampleWebhook.parse_as "subscription.halted"
              SampleWebhook.halted_entity)
           true Sample.env Sample.t0 (sign Sample.env "{}")
           Sample.world_active
           (mkWebhookData "subscription.halted"
              (Some SampleWebhook.halted_entity) None)
           SampleWebhook.halted_entity "halted"
           (sign_signed_by _ _) eq_refl eq_refl (or_introl eq_refl)
           eq_refl eq_refl).
Defined.

Lemma map_unselected {A} (P : A -> bool) (f : A -> A) (l : list A) :
  find P l = None -> map (fun x => if P x then f x else x) l = l.
Proof.
  induction l as [|x l IH]; cbn [find map]; [reflexivity|].
  destruct (P x); [discriminate|]. intros H. rewrite (IH H). reflexivity.
Qed.

Lemma mark_status_unknown now st sid d :
  find (has_rid sid) (subscriptions d) = None -> mark_status now st sid d = d.
Proof.
  intros H. unfold mark_status. rewrite (map_unselected _ _ _ H).
  destruct d; reflexivity.
Qed.

(** What [payment.failed] does to the store. *)
Lemma handlePaymentFailed_run now e sid w :
  e_subscription_id e = Some sid -> sid <> "" ->
  handlePaymentFailed now e w =
  match find (has_rid sid) (subscriptions (db w)) with
  | None => (Ret tt, w)
  | Some row =>
      match find (prisma.has_userId (s_userId row)) (profiles (db w)) with
      | Some _ =>
          (Ret tt,
           mkWorld (suspend now (s_userId row)
                      (mark_status now "halted" sid (db w)))
                   (rzp_calls w))
      | None =>
          (Ret tt, mkWorld (mark_status now "halted" sid (db w)) (rzp_calls w))
      end
  end.
Proof.
  intros He Hsid. unfold handlePaymentFailed. cbv zeta. rewrite He.
  rewrite (truthy_some _ Hsid), (or_default_some _ _ Hsid). cbn [negb].
  rewrite swallow_run.
  unfold prisma.updateMany, bind at 1 2, get_db, put_db. cbv beta iota.
  fold (mark_status now "halted" sid (db w)).
  unfold prisma.findFirst, bind at 1 2, get_db, ret. cbv beta iota.
  cbn [db].
  unfold mark_status at 1. cbn [subscriptions].
  rewrite (find_map_keeps (has_rid sid)
             (fun s => prisma.touch now (prisma.set_status "halted" s))
             (fun _ => eq_refl)).
  destruct (find (has_rid sid) (subscriptions (db w))) as [row|] eqn:Hrow;
    cbn [option_map].
  - change (s_userId (prisma.touch now (prisma.set_status "halted" row)))
      with (s_userId row).
    destruct (find (prisma.has_userId (s_userId row)) (profiles (db w)))
      as [q|] eqn:Hq.
    + rewrite (profile_update_suspend_run now (s_userId row)
                 (mkWorld (mark_status now "halted" sid (db w)) (rzp_calls w))
                 q) by exact Hq.
      reflexivity.
    + unfold prisma.profile_update, bind, get_db, throw.
      cbn [db mark_status profiles]. rewrite Hq. reflexivity.
  - cbn [snd]. rewrite (mark_status_unknown _ _ _ _ Hrow).
    destruct w; reflexivity.
Qed.

Lemma dispatch_payment_failed typed now data e w :
  wd_event data = "payment.failed" -> payload_of data = Some e ->
  dispatch typed now data w = handlePaymentFailed now e w.
Proof.
  intros Hev Hp. unfold payload_of in Hp. unfold dispatch. cbv zeta.
  rewrite Hev, Hp. reflexivity.
Qed.

(** X16: [payment.failed] halts the rows of the subscription the
    payment belongs to and clears the access flag of their owner, whose
    tier and provider reference stay; a payment of no subscription, or
    of one the store does not know, changes nothing. *)
Theorem webhook_payment_failed_suspends
    (JSON_parse : string -> outcome WebhookData) (typed : bool) (env : Env)
    (now : Z) (request : WebhookRequest) (w : World)
    (webhookData : WebhookData) (entity : RazorpayEntity) :
  signed_by env request ->
  JSON_parse (wr_body request) = Ret webhookData ->
  payload_of webhookData = Some entity ->
  wd_event webhookData = "payment.failed" ->
  fk_ok (db w) = true ->
  let answer := webhook_POST JSON_parse typed env now request w in
  match e_subscription_id entity with
  | None => answer = (Ret received_response, w)
  | Some sid =>
      match find (has_rid sid) (subscriptions (db w)) with
      | None => answer = (Ret received_response, w)
      | Some row =>
          sid <> "" ->
          let d := suspend now (s_userId row)
                     (mark_status now "halted" sid (db w)) in
          answer = (Ret received_response, mkWorld d (rzp_calls w)) /\
          has_access (s_userId row) d = Some false /\
          tier_of (s_userId row) d = tier_of (s_userId row) (db w) /\
          reference_of (s_userId row) d = reference_of (s_userId row) (db w)
      end
  end.
Proof.
  intros Hsig Hparse Hp Hev Hfk answer. subst answer.
  rewrite (webhook_POST_run _ _ _ _ _ _ _ Hsig Hparse).
  rewrite (dispatch_payment_failed _ _ _ _ _ Hev Hp).
  destruct (e_subscription_id entity) as [sid|] eqn:He.
  - destruct (String.eqb_spec sid "") as [->|Hsid].
    + destruct (find (has_rid "") (subscriptions (db w))) as [row|];
        [intros H; contradiction|].
      unfold handlePaymentFailed. rewrite He. reflexivity.
    + rewrite (handlePaymentFailed_run now entity sid w He Hsid).
      destruct (find (has_rid sid) (subscriptions (db w))) as [row|] eqn:Hrow;
        [|reflexivity].
      intros _. cbv zeta.
      destruct (fk_profile (db w) row Hfk (proj1 (find_some _ _ Hrow)))
        as [q Hq].
      rewrite Hq. split; [reflexivity|].
      assert (Hq' : find (prisma.has_userId (s_userId row))
                      (profiles (mark_status now "halted" sid (db w)))
                    = Some q) by exact Hq.
      destruct (suspend_shows now (s_userId row) _ q Hq') as [Ha [Ht Hr]].
      split; [exact Ha|]. unfold tier_of, reference_of in *.
      rewrite Ht, Hr, Hq. split; reflexivity.
  - unfold handlePaymentFailed. rewrite He. reflexivity.
Qed.

Lemma webhook_payment_failed_suspends_witness :
  let d := suspend Sample.t0 "U"
             (mark_status Sample.t0 "halted" "sub_1" (db Sample.world_active)) in
  webhook_POST (SampleWebhook.parse_payment "payment.failed"
                  SampleWebhook.failed_payment)
    false Sample.env Sample.t0 (sign Sample.env "{}") Sample.world_active =
  (Ret received_response, mkWorld d (rzp_calls Sample.world_active)) /\
  has_access "U" d = Some false /\
  tier_of "U" d = tier_of "U" (db Sample.world_active) /\
  reference_of "U" d = reference_of "U" (db Sample.world_active).
Proof.
  apply (webhook_payment_failed_suspends
           (SampleWebhook.parse_payment "payment.failed"
              SampleWebhook.failed_payment)
           false Sample.env Sample.t0 (sign Sample.env "{}")
           Sample.world_active
           (mkWebhookData "payment.failed" None
              (Some SampleWebhook.failed_payment))
           SampleWebhook.failed_payment
           (sign_signed_by _ _) eq_refl eq_refl eq_refl eq_refl).
  discriminate.
Defined.

(** *** Activation *)

(** Granting access never trips the unique index when no other
    profile holds the reference. *)
Lemma profile_update_activate_run t uid tier reference w :
  existsb (prisma.has_userId uid) (profiles (db w)) = true ->
  prisma.stripe_taken uid (Some reference) (profiles (db w)) = false ->
  prisma.profile_update t uid (activate tier reference) w =
  (Ret tt,
   mkWorld
     (mkDB (map (fun p => if prisma.has_userId uid p
                          then prisma.p_touch t (activate tier reference p)
                          else p)
                (profiles (db w)))
           (subscriptions (db w)) (next_id (db w)))
     (rzp_calls w)).
Proof.
  intros Hex Hfree. unfold prisma.profile_update, bind, get_db, put_db, throw.
  destruct (existsb_find _ _ Hex) as [q Hq]. rewrite Hq.
  cbn [activate prisma.p_set_stripe p_stripeSubscriptionId].
  rewrite Hfree, andb_false_r. reflexivity.
Qed.

(** The upsert of an activation followed by the grant of access, for
    a user who has a profile. *)
Lemma upsert_then_activate t sid uid tier data c w :
  prisma.sc_razorpaySubscriptionId c = sid ->
  prisma.sc_userId c = uid ->
  existsb (prisma.has_userId uid) (profiles (db w)) = true ->
  prisma.stripe_taken uid (Some sid) (profiles (db w)) = false ->
  exists rows n,
    (prisma.upsert t sid data c ;;;
     prisma.profile_update t uid (activate tier sid)) w =
    (Ret tt,
     mkWorld
       (mkDB (map (fun p => if prisma.has_userId uid p
                            then prisma.p_touch t (activate tier sid p)
                            else p)
                  (profiles (db w)))
             rows n)
       (rzp_calls w)) /\
    (if existsb (has_rid sid) (subscriptions (db w))
     then rows = map (fun s => if has_rid sid s
                               then prisma.touch t (data s) else s)
                     (subscriptions (db w))
     else rows =
          (subscriptions (db w) ++
           [mkSubscription (next_id (db w)) uid (prisma.sc_planId c)
              (Some sid) (prisma.sc_razorpayPaymentId c) (prisma.sc_status c)
              (prisma.sc_planType c) (prisma.sc_startDate c)
              (prisma.sc_endDate c) (prisma.sc_isRecurring c) t t])%list).
Proof.
  intros Hsid Huid Hex Hfree. unfold bind at 1.
  destruct (existsb (has_rid sid) (subscriptions (db w))) eqn:Hrow.
  - rewrite (upsert_present _ _ _ _ _ Hrow).
    rewrite profile_update_activate_run by assumption.
    eexists. eexists. split; reflexivity.
  - rewrite (upsert_absent _ _ _ _ _ Hrow).
    rewrite prisma_create_run
      by (rewrite ?Hsid, ?Huid; assumption).
    rewrite profile_update_activate_run by assumption.
    cbn [db profiles subscriptions next_id rzp_calls].
    rewrite Hsid, Huid. eexists. eexists. split; reflexivity.
Qed.

(** The store such an activation leaves. *)
Lemma activation_verified t sid uid pt data c (d : DB) rows n :
  (forall s, s_razorpaySubscriptionId (data s) = s_razorpaySubscriptionId s) ->
  (forall s, stamped t pt (prisma.touch t (data s))) ->
  prisma.sc_status c = "active" ->
  prisma.sc_startDate c = Some t ->
  prisma.sc_endDate c = Some (calculateEndDate_verify t (Some pt)) ->
  existsb (prisma.has_userId uid) (profiles d) = true ->
  (if existsb (has_rid sid) (subscriptions d)
   then rows = map (fun s => if has_rid sid s
                             then prisma.touch t (data s) else s)
                   (subscriptions d)
   else rows =
        (subscriptions d ++
         [mkSubscription (next_id d) uid (prisma.sc_planId c)
            (Some sid) (prisma.sc_razorpayPaymentId c) (prisma.sc_status c)
            (prisma.sc_planType c) (prisma.sc_startDate c)
            (prisma.sc_endDate c) (prisma.sc_isRecurring c) t t])%list) ->
  verified_at t sid uid pt
    (mkDB (map (fun p => if prisma.has_userId uid p
                         then prisma.p_touch t (activate pt sid p) else p)
               (profiles d))
          rows n).
Proof.
  intros Hrid Hdata Hst Hstart Hend Hex Hrows.
  destruct (profiles_granted t uid pt sid _ Hex) as [Hpe Hpg].
  assert (Hkeep : forall s, has_rid sid (prisma.touch t (data s)) = has_rid sid s).
  { intros s. unfold has_rid. cbn [prisma.touch s_razorpaySubscriptionId].
    rewrite Hrid. reflexivity. }
  unfold verified_at. cbn [subscriptions profiles].
  destruct (existsb (has_rid sid) (subscriptions d)) eqn:Hrow; subst rows.
  - split; [|split; [|split]]; [| |exact Hpe|exact Hpg].
    + etransitivity; [|exact Hrow].
      apply (existsb_map_keeps (has_rid sid)
               (fun s => prisma.touch t (data s)) Hkeep).
    + intros s Hin Hs.
      destruct (map_selected_In (has_rid sid)
                  (fun s => prisma.touch t (data s))
                  (subscriptions d) s Hkeep Hin Hs) as [y [_ ->]].
      apply Hdata.
  - split; [|split; [|split]]; [| |exact Hpe|exact Hpg].
    + rewrite existsb_app. apply orb_true_iff. right. cbn [existsb].
      unfold has_rid at 1. cbn [s_razorpaySubscriptionId opt_eqb].
      rewrite String.eqb_refl. reflexivity.
    + intros s Hin Hs. apply in_app_or in Hin. destruct Hin as [Hin|[<-|[]]].
      * rewrite (existsb_false_In _ _ _ Hrow Hin) in Hs. discriminate Hs.
      * unfold stamped.
        cbn [s_status s_startDate s_endDate s_updatedAt].
        repeat split; assumption.
Qed.

(** The activation handlers of both routes, past their guards. *)
Lemma activate_from_webhook_run now e uid pt planId w :
  entity_note n_userId e = Some uid -> uid <> "" ->
  entity_note n_planType e = Some pt -> pt <> "" ->
  e_plan_id e = Some planId ->
  existsb (prisma.has_userId uid) (profiles (db w)) = true ->
  prisma.stripe_taken uid (Some (e_id e)) (profiles (db w)) = false ->
  exists w1,
    activate_from_webhook now e w = (Ret tt, w1) /\
    rzp_calls w1 = rzp_calls w /\
    verified_at now (e_id e) uid pt (db w1).
Proof.
  intros Hu Huid Hpt Hptne Hplan Hex Hfree.
  unfold activate_from_webhook. cbv zeta. rewrite Hu, Hpt, Hplan.
  rewrite (or_default_some _ _ Huid).
  destruct (upsert_then_activate now (e_id e) uid pt
              (fun s => prisma.set_dates now (calculateEndDate now pt)
                          (prisma.set_status "active" s))
              (prisma.mkSubCreate uid planId (e_id e) None "active" pt
                 (Some now) (Some (calculateEndDate now pt)) false)
              w eq_refl eq_refl Hex Hfree) as [rows [n [Hrun Hrows]]].
  rewrite Hrun. eexists. split; [reflexivity|]. split; [reflexivity|].
  cbn [db].
  apply (activation_verified now (e_id e) uid pt
           (fun s => prisma.set_dates now (calculateEndDate now pt)
                       (prisma.set_status "active" s))
           (prisma.mkSubCreate uid planId (e_id e) None "active" pt
              (Some now) (Some (calculateEndDate now pt)) false)
           (db w) rows n).
  - intros s. reflexivity.
  - intros s. unfold stamped.
    cbn [prisma.touch prisma.set_dates prisma.set_status s_status s_startDate
         s_endDate s_updatedAt].
    rewrite (calculateEndDate_verify_some _ _ Hptne). repeat split.
  - reflexivity.
  - reflexivity.
  - cbn [prisma.sc_endDate].
    rewrite (calculateEndDate_verify_some _ _ Hptne). reflexivity.
  - exact Hex.
  - exact Hrows.
Qed.

Lemma dispatch_activated typed now data e w :
  wd_event data = "subscription.activated" -> payload_of data = Some e ->
  dispatch typed now data w =
  (if typed then razorpay_webhook.handleSubscriptionActivated now e
   else webhook.handleSubscriptionActivated now e) w.
Proof.
  intros Hev Hp. unfold payload_of in Hp. unfold dispatch. cbv zeta.
  rewrite Hev, Hp. cbn [String.eqb Ascii.eqb Bool.eqb]. unfold bind, deref, ret.
  destruct typed; reflexivity.
Qed.

(** X17: [subscription.activated] with a user, a plan type and a plan
    in its notes, for a user who has a profile, leaves the rows of the
    subscription active from now to the computed end date, whatever
    their status was (cancelled included), and the profile with access,
    the tier and the reference of the subscription. *)
Theorem webhook_activation_grants_access
    (JSON_parse : string -> outcome WebhookData) (typed : bool) (env : Env)
    (now : Z) (request : WebhookRequest) (w : World)
    (webhookData : WebhookData) (entity : RazorpayEntity)
    (uid planType planId : string) :
  signed_by env request ->
  JSON_parse (wr_body request) = Ret webhookData ->
  payload_of webhookData = Some entity ->
  wd_event webhookData = "subscription.activated" ->
  entity_note n_userId entity = Some uid -> uid <> "" ->
  entity_note n_planType entity = Some planType -> planType <> "" ->
  e_plan_id entity = Some planId -> planId <> "" ->
  existsb (prisma.has_userId uid) (profiles (db w)) = true ->
  prisma.stripe_taken uid (Some (e_id entity)) (profiles (db w)) = false ->
  exists w1,
    webhook_POST JSON_parse typed env now request w =
    (Ret received_response, w1) /\
    verified_at now (e_id entity) uid planType (db w1) /\
    locally_cancelled (e_id entity) (db w1) = false /\
    has_access uid (db w1) = Some true.
Proof.
  intros Hsig Hparse Hp Hev Hu Huid Hpt Hptne Hplan Hplanne Hex Hfree.
  rewrite (webhook_POST_run _ _ _ _ _ _ _ Hsig Hparse).
  rewrite (dispatch_activated _ _ _ _ _ Hev Hp).
  destruct (activate_from_webhook_run now entity uid planType planId w
              Hu Huid Hpt Hptne Hplan Hex Hfree) as [w1 [Hrun [_ Hv]]].
  assert (Hh : (if typed then razorpay_webhook.handleSubscriptionActivated now entity
                else webhook.handleSubscriptionActivated now entity) w
               = (Ret tt, w1)).
  { destruct typed;
      unfold razorpay_webhook.handleSubscriptionActivated,
        webhook.handleSubscriptionActivated;
      rewrite Hu, ?Hpt, ?Hplan, ?(truthy_some _ Huid), ?(truthy_some _ Hptne),
        ?(truthy_some _ Hplanne); cbn [negb orb];
      rewrite swallow_run, Hrun; reflexivity. }
  rewrite Hh. exists w1. split; [reflexivity|]. split; [exact Hv|].
  split; [exact (verified_not_cancelled _ _ _ _ _ Hv)|].
  destruct Hv as [_ [_ [Hpe Hpg]]]. unfold has_access.
  destruct (existsb_find _ _ Hpe) as [q Hq]. rewrite Hq. cbn [option_map].
  destruct (find_some _ _ Hq) as [Hin Hqu].
  destruct (Hpg q Hin Hqu) as [Ha _]. rewrite Ha. reflexivity.
Qed.

Lemma webhook_activation_grants_access_witness :
  exists w1,
    webhook_POST (SampleWebhook.parse_as "subscription.activated"
                    SampleWebhook.halted_entity)
      true Sample.env Sample.t0 (sign Sample.env "{}")
      SampleCancelled.world_cancelled =
    (Ret received_response, w1) /\
    verified_at Sample.t0 "sub_1" "U" "month" (db w1) /\
    locally_cancelled "sub_1" (db w1) = false /\
    has_access "U" (db w1) = Some true.
Proof.
  apply (webhook_activation_grants_access
           (SampleWebhook.parse_as "subscription.activated"
              SampleWebhook.halted_entity)
           true Sample.env Sample.t0 (sign Sample.env "{}")
           SampleCancelled.world_cancelled
           (mkWebhookData "subscription.activated"
              (Some SampleWebhook.halted_entity) None)
           SampleWebhook.halted_entity "U" "month" "plan_month"
           (sign_signed_by _ _) eq_refl eq_refl eq_refl eq_refl);
    try discriminate; reflexivity.
Defined.

(** *** The two routes side by side *)

Lemma activation_handlers_agree now e w :
  entity_note n_planType e <> Some "" -> e_plan_id e <> Some "" ->
  razorpay_webhook.handleSubscriptionActivated now e w =
  webhook.handleSubscriptionActivated now e w.
Proof.
  intros Hpt Hplan.
  unfold razorpay_webhook.handleSubscriptionActivated,
    webhook.handleSubscriptionActivated.
  destruct (truthy (entity_note n_userId e)); cbn [negb orb]; [|reflexivity].
  unfold activate_from_webhook. cbv zeta.
  destruct (entity_note n_planType e) as [pt|]; cbn [truthy negb orb].
  - destruct (String.eqb_spec pt "") as [->|_]; [contradiction|].
    cbn [negb orb].
    destruct (e_plan_id e) as [planId|]; cbn [truthy negb].
    + destruct (String.eqb_spec planId "") as [->|_]; [contradiction|].
      reflexivity.
    + rewrite swallow_run. reflexivity.
  - rewrite swallow_run. reflexivity.
Qed.

Lemma pending_handlers_agree now e w :
  entity_note n_planType e <> Some "" -> e_plan_id e <> Some "" ->
  razorpay_webhook.handleSubscriptionPending now e w =
  webhook.handleSubscriptionPending now e w.
Proof.
  intros Hpt Hplan.
  unfold razorpay_webhook.handleSubscriptionPending,
    webhook.handleSubscriptionPending.
  destruct (truthy (entity_note n_userId e)); cbn [negb orb]; [|reflexivity].
  unfold pending_from_webhook. cbv zeta.
  destruct (entity_note n_planType e) as [pt|]; cbn [truthy negb orb].
  - destruct (String.eqb_spec pt "") as [->|_]; [contradiction|].
    cbn [negb orb].
    destruct (e_plan_id e) as [planId|]; cbn [truthy negb].
    + destruct (String.eqb_spec planId "") as [->|_]; [contradiction|].
      reflexivity.
    + rewrite swallow_run. reflexivity.
  - rewrite swallow_run. reflexivity.
Qed.

Lemma dispatch_routes_agree now data w :
  (forall e, payload_of data = Some e ->
             entity_note n_planType e <> Some "" /\ e_plan_id e <> Some "") ->
  dispatch true now data w = dispatch false now data w.
Proof.
  intros Hnotes. unfold payload_of in Hnotes. unfold dispatch. cbv zeta.
  destruct (match wd_subscription data with
            | Some e => Some e
            | None => wd_payment data
            end) as [e|]; [|reflexivity].
  destruct (Hnotes e eq_refl) as [Hpt Hplan].
  unfold bind, deref, ret.
  destruct (String.eqb (wd_event data) "subscription.activated");
    [apply activation_handlers_agree; assumption|].
  destruct (String.eqb (wd_event data) "subscription.pending");
    [apply pending_handlers_agree; assumption|].
  reflexivity.
Qed.

(** X18: the two webhook routes answer alike and leave the same store
    on every event they can parse, unless the notes of its entity hold
    an empty plan type or the entity an empty plan: the stricter guard
    of the typed route only stops what the store would refuse anyway. *)
Theorem webhook_routes_agree
    (JSON_parse : string -> outcome WebhookData) (env : Env) (now : Z)
    (request : WebhookRequest) (w : World) (webhookData : WebhookData) :
  JSON_parse (wr_body request) = Ret webhookData ->
  (forall e, payload_of webhookData = Some e ->
             entity_note n_planType e <> Some "" /\ e_plan_id e <> Some "") ->
  webhook_POST JSON_parse true env now request w =
  webhook_POST JSON_parse false env now request w.
Proof.
  intros Hparse Hnotes.
  destruct (String.eqb_spec
              (createHmac_sha256_hex
                 (or_default (RAZORPAY_WEBHOOK_SECRET env) "")
                 (wr_body request))
              (or_default (wr_signature request) "")) as [Hsig|Hsig].
  - rewrite !(webhook_POST_run _ _ _ _ _ _ _ Hsig Hparse).
    rewrite (dispatch_routes_agree now webhookData w Hnotes).
    destruct (payload_of webhookData) as [e|] eqn:Hp.
    + destruct (dispatch_with_payload false now webhookData e w Hp)
        as [w1 ->]. reflexivity.
    + destruct (mem (wd_event webhookData) handled_events) eqn:Hev.
      * rewrite (dispatch_without_payload _ _ _ _ Hev Hp). reflexivity.
      * rewrite (dispatch_other_event _ _ _ _ Hev). reflexivity.
  - rewrite !(webhook_rejects_bad_signature _ _ _ _ _ _ Hsig). reflexivity.
Qed.

Lemma webhook_routes_agree_witness :
  webhook_POST (SampleWebhook.parse_as "subscription.activated"
                  (mkEntity "sub_1" None (Some Sample.notes_U) None))
    true Sample.env Sample.t0 (sign Sample.env "{}") Sample.world_pending =
  webhook_POST (SampleWebhook.parse_as "subscription.activated"
                  (mkEntity "sub_1" None (Some Sample.notes_U) None))
    false Sample.env Sample.t0 (sign Sample.env "{}") Sample.world_pending.
Proof.
  apply (webhook_routes_agree
           (SampleWebhook.parse_as "subscription.activated"
              (mkEntity "sub_1" None (Some Sample.notes_U) None))
           Sample.env Sample.t0 (sign Sample.env "{}") Sample.world_pending
           (mkWebhookData "subscription.activated"
              (Some (mkEntity "sub_1" None (Some Sample.notes_U) None)) None)
           eq_refl).
  intros e He. inversion He. subst e. split; discriminate.
Defined.

(* ================================================================== *)
(** ** More on payment verification *)
(* ================================================================== *)

Lemma active_family_not_pending (st : string) :
  mem st active_family = true ->
  String.eqb st "created" || String.eqb st "authenticated" = false /\
  String.eqb st "cancelled" = false /\
  String.eqb st "active" || String.eqb st "completed" = true.
Proof.
  rewrite mem_active_family. intros H.
  apply orb_true_iff in H. destruct H as [H|H];
    apply String.eqb_eq in H; subst st; repeat split.
Qed.

(** X19: the redirect flow does not revive a subscription the user
    cancelled: when the row of the store is cancelled, a provider that
    still reports the subscription active or completed only gets its
    status echoed, and nothing is written. *)
Theorem verify_redirect_respects_local_cancellation
    (env : Env) (rzp : Razorpay) (now : Z) (req : VerifyRequest) (w : World)
    (sid uid : string) (sub : RazorpaySubscription) :
  or_opt (vr_sessionId req) (vr_subscriptionId req) = Some sid -> sid <> "" ->
  rzp_fetch rzp sid = Ret (Some sub) ->
  note n_userId sub = Some uid -> uid <> "" ->
  mem (r_status sub) active_family = true ->
  locally_cancelled sid (db w) = true ->
  verify_payment_POST env rzp now (Ret req) w =
  (Ret (status_response sub), logged (Fetch sid) w) /\
  jget "success" (body (status_response sub)) = Some (JBool false).
Proof.
  intros Hs Hsid Hfetch Hnote Huid Hst Hl. split; [|reflexivity].
  rewrite (verify_payment_redirect_run _ _ _ _ _ _ Hs Hsid).
  destruct (active_family_not_pending _ Hst) as [Hc [Hx Ha]].
  unfold try_catch, verify_redirect.
  unfold bind at 1. rewrite fetch_run, Hfetch.
  unfold bind at 1, prisma.findFirst, bind at 1, get_db, ret at 1.
  cbv beta iota.
  rewrite Hnote, (truthy_some _ Huid), Hc, Hx, Ha.
  cbn [negb andb].
  unfold locally_cancelled in Hl. cbn [logged db]. rewrite Hl.
  reflexivity.
Qed.

Lemma verify_redirect_respects_local_cancellation_witness :
  verify_payment_POST Sample.env (Sample.provider "active") Sample.t0
    (Ret SampleVerify.redirect_request) SampleCancelled.world_cancelled =
  (Ret (status_response (Sample.sub_1 "active")),
   logged (Fetch "sub_1") SampleCancelled.world_cancelled) /\
  jget "success" (body (status_response (Sample.sub_1 "active"))) =
  Some (JBool false).
Proof.
  apply (verify_redirect_respects_local_cancellation Sample.env
           (Sample.provider "active") Sample.t0 SampleVerify.redirect_request
           SampleCancelled.world_cancelled "sub_1" "U" (Sample.sub_1 "active"));
    try discriminate; reflexivity.
Defined.

(** X20: the redirect flow writes to the store only when the provider
    reports the subscription active or completed and the store holds no
    cancelled row of it. *)
Theorem verify_redirect_writes_only_when_paid
    (env : Env) (rzp : Razorpay) (now : Z) (req : VerifyRequest) (w : World)
    (sid : string) :
  or_opt (vr_sessionId req) (vr_subscriptionId req) = Some sid -> sid <> "" ->
  db (snd (verify_payment_POST env rzp now (Ret req) w)) = db w \/
  (reported_paid rzp sid = true /\ locally_cancelled sid (db w) = false).
Proof.
  intros Hs Hsid.
  rewrite (verify_payment_redirect_run _ _ _ _ _ _ Hs Hsid).
  unfold reported_paid, locally_cancelled.
  destruct (rzp_fetch rzp sid) as [[sub|]|e] eqn:Hfetch.
  - destruct (mem (r_status sub) active_family &&
              negb (match find (has_rid sid) (subscriptions (db w)) with
                    | Some row => String.eqb (s_status row) "cancelled"
                    | None => false
                    end)) eqn:Hpaid.
    + right. apply andb_true_iff in Hpaid. destruct Hpaid as [H1 H2].
      apply negb_true_iff in H2. split; assumption.
    + left. rewrite mem_active_family in Hpaid.
      unfold try_catch, verify_redirect.
      unfold bind at 1. rewrite fetch_run, Hfetch.
      unfold bind at 1, prisma.findFirst, bind at 1, get_db, ret at 1.
      cbv beta iota. cbn [logged db]. rewrite Hpaid.
      repeat match goal with
             | |- context [if ?c then _ else _] => destruct c
             end; reflexivity.
  - left. unfold try_catch, verify_redirect.
    unfold bind at 1. rewrite fetch_run, Hfetch. reflexivity.
  - left. unfold try_catch, verify_redirect.
    unfold bind at 1. rewrite fetch_run, Hfetch. reflexivity.
Qed.

Lemma verify_redirect_writes_only_when_paid_witness :
  db (snd (verify_payment_POST Sample.env (Sample.provider "halted") Sample.t0
             (Ret SampleVerify.redirect_request) Sample.world_pending))
  = db Sample.world_pending \/
  (reported_paid (Sample.provider "halted") "sub_1" = true /\
   locally_cancelled "sub_1" (db Sample.world_pending) = false).
Proof.
  apply (verify_redirect_writes_only_when_paid Sample.env
           (Sample.provider "halted") Sample.t0 SampleVerify.redirect_request
           Sample.world_pending "sub_1").
  - reflexivity.
  - discriminate.
Defined.

Lemma verified_has_access t sid uid pt d :
  verified_at t sid uid pt d -> has_access uid d = Some true.
Proof.
  intros [_ [_ [Hpe Hpg]]]. unfold has_access.
  destruct (existsb_find _ _ Hpe) as [q Hq]. rewrite Hq. cbn [option_map].
  destruct (find_some _ _ Hq) as [Hin Hqu].
  destruct (Hpg q Hin Hqu) as [Ha _]. rewrite Ha. reflexivity.
Qed.

(** The writes of a verification succeed for a user who has a profile
    whose reference no other profile holds. *)
Lemma verify_writes_run t sid uid sub w :
  r_id sub = sid ->
  existsb (prisma.has_userId uid) (profiles (db w)) = true ->
  prisma.stripe_taken uid (Some sid) (profiles (db w)) = false ->
  exists w1,
    verify_writes t sid uid sub w = (Ret verified_response, w1) /\
    rzp_calls w1 = rzp_calls w /\
    verified_at t sid uid (or_default (note n_planType sub) "month") (db w1).
Proof.
  intros Hid Hex Hfree.
  set (pt := or_default (note n_planType sub) "month").
  destruct (upsert_then_activate t sid uid pt
              (fun s => prisma.set_dates t
                          (calculateEndDate_verify t (Some pt))
                          (prisma.set_status "active" s))
              (prisma.mkSubCreate uid (r_plan_id sub) (r_id sub) None "active"
                 pt (Some t) (Some (calculateEndDate_verify t (Some pt)))
                 false)
              w Hid eq_refl Hex Hfree) as [rows [n [Hrun Hrows]]].
  assert (Hw : verify_writes t sid uid sub w =
               (Ret verified_response,
                mkWorld
                  (mkDB (map (fun p => if prisma.has_userId uid p
                                       then prisma.p_touch t (activate pt sid p)
                                       else p)
                             (profiles (db w)))
                        rows n)
                  (rzp_calls w))).
  { unfold verify_writes. cbv zeta.
    rewrite (or_default_idem (note n_planType sub) "month") by discriminate.
    fold pt. rewrite Hid.
    unfold bind at 1 in Hrun. unfold bind at 1.
    rewrite Hid in Hrun.
    destruct (prisma.upsert t sid _ _ w) as [[[]|e] w0]; [|discriminate Hrun].
    unfold bind at 1. rewrite Hrun. reflexivity. }
  rewrite Hw. eexists. split; [reflexivity|]. split; [reflexivity|].
  cbn [db].
  apply (activation_verified t sid uid pt
           (fun s => prisma.set_dates t
                       (calculateEndDate_verify t (Some pt))
                       (prisma.set_status "active" s))
           (prisma.mkSubCreate uid (r_plan_id sub) (r_id sub) None "active"
              pt (Some t) (Some (calculateEndDate_verify t (Some pt)))
              false)
           (db w) rows n).
  - intros s. reflexivity.
  - intros s. repeat split.
  - reflexivity.
  - reflexivity.
  - reflexivity.
  - exact Hex.
  - exact Hrows.
Qed.

(** X21: the redirect flow, for a subscription the provider reports
    active or completed and the store does not hold as cancelled,
    answers success and leaves the rows of the subscription active from
    now to the computed end date and the profile of the user named in
    the provider's notes with access, the tier and the reference. *)
Theorem verify_redirect_activates_paid_subscription
    (env : Env) (rzp : Razorpay) (now : Z) (req : VerifyRequest) (w : World)
    (sid uid : string) (sub : RazorpaySubscription) :
  or_opt (vr_sessionId req) (vr_subscriptionId req) = Some sid -> sid <> "" ->
  rzp_fetch rzp sid = Ret (Some sub) -> r_id sub = sid ->
  note n_userId sub = Some uid -> uid <> "" ->
  mem (r_status sub) active_family = true ->
  locally_cancelled sid (db w) = false ->
  existsb (prisma.has_userId uid) (profiles (db w)) = true ->
  prisma.stripe_taken uid (Some sid) (profiles (db w)) = false ->
  exists w1,
    verify_payment_POST env rzp now (Ret req) w = (Ret verified_response, w1) /\
    rzp_calls w1 = (rzp_calls w ++ [Fetch sid])%list /\
    verified_at now sid uid (or_default (note n_planType sub) "month") (db w1) /\
    has_access uid (db w1) = Some true.
Proof.
  intros Hs Hsid Hfetch Hid Hnote Huid Hst Hl Hex Hfree.
  rewrite (verify_payment_redirect_run _ _ _ _ _ _ Hs Hsid).
  destruct (active_family_not_pending _ Hst) as [Hc [Hx Ha]].
  rewrite (verify_redirect_paid rzp now sid w sub uid _
             Hfetch Hnote Huid Hc Hx Ha Hl).
  destruct (verify_writes_run now sid uid sub (logged (Fetch sid) w)
              Hid Hex Hfree) as [w1 [Hrun [Hcalls Hv]]].
  unfold try_catch. rewrite Hrun. exists w1.
  split; [reflexivity|]. split; [exact Hcalls|]. split; [exact Hv|].
  exact (verified_has_access _ _ _ _ _ Hv).
Qed.

Lemma verify_redirect_activates_paid_subscription_witness :
  exists w1,
    verify_payment_POST Sample.env (Sample.provider "completed") Sample.t0
      (Ret SampleVerify.redirect_request) Sample.world_pending =
    (Ret verified_response, w1) /\
    rzp_calls w1 = (rzp_calls Sample.world_pending ++ [Fetch "sub_1"])%list /\
    verified_at Sample.t0 "sub_1" "U"
      (or_default (note n_planType (Sample.sub_1 "completed")) "month")
      (db w1) /\
    has_access "U" (db w1) = Some true.
Proof.
  apply (verify_redirect_activates_paid_subscription Sample.env
           (Sample.provider "completed") Sample.t0
           SampleVerify.redirect_request Sample.world_pending "sub_1" "U"
           (Sample.sub_1 "completed"));
    try discriminate; reflexivity.
Defined.

(** *** The signed flow *)

Lemma verify_payment_signed_run env rzp t req w :
  truthy (vr_sessionId req) = false ->
  truthy (vr_subscriptionId req) = false ->
  verify_payment_POST env rzp t (Ret req) w =
  try_catch (verify_signed env rzp t req)
    (fun e =>
       ret (NextResponse_json
              [("success", JBool false);
               ("error", JString (message_or e "Failed to verify payment"))]
              500)) w.
Proof.
  intros H1 H2. unfold verify_payment_POST.
  unfold try_catch, bind at 1, lift. rewrite H1, H2. reflexivity.
Qed.

(** X22: a checkout callback whose signature matches its payment and
    subscription identifiers under the key secret activates the
    subscription, records the payment on its rows and gives access to
    the user the request names in its body, whatever user the provider's
    notes name. *)
Theorem verify_signed_grants_access_to_named_user
    (env : Env) (rzp : Razorpay) (now : Z) (req : VerifyRequest) (w : World)
    (pid sid uid : string) (sub : RazorpaySubscription) :
  truthy (vr_sessionId req) = false ->
  truthy (vr_subscriptionId req) = false ->
  vr_razorpay_payment_id req = Text pid ->
  vr_razorpay_subscription_id req = Text sid ->
  vr_userId req = Text uid ->
  vr_razorpay_signature req =
  Some (createHmac_sha256_hex (or_default (RAZORPAY_KEY_SECRET env) "")
          (pid ++ "|" ++ sid)) ->
  rzp_fetch rzp sid = Ret (Some sub) -> r_id sub = sid ->
  existsb (prisma.has_userId uid) (profiles (db w)) = true ->
  prisma.stripe_taken uid (Some sid) (profiles (db w)) = false ->
  exists w1,
    verify_payment_POST env rzp now (Ret req) w =
    (Ret signed_verified_response, w1) /\
    verified_at now sid uid (or_default (note n_planType sub) "month") (db w1) /\
    (forall s, In s (subscriptions (db w1)) -> has_rid sid s = true ->
               s_razorpayPaymentId s = Some pid) /\
    has_access uid (db w1) = Some true.
Proof.
  intros H1 H2 Hpid Hsid Huid Hsig Hfetch Hid Hex Hfree.
  rewrite (verify_payment_signed_run _ _ _ _ _ H1 H2).
  set (pt := or_default (note n_planType sub) "month").
  unfold try_catch, verify_signed. cbv zeta.
  rewrite Hpid, Hsid, Huid, Hsig.
  cbn [interpolate nullable prisma.set_paymentId_field].
  rewrite opt_eqb_refl. cbn [negb].
  unfold bind at 1. rewrite fetch_run, Hfetch.
  unfold bind at 1, deref, ret at 1. cbv beta iota.
  rewrite (or_default_idem (note n_planType sub) "month") by discriminate.
  fold pt.
  destruct (upsert_then_activate now sid uid pt
              (fun s => prisma.set_dates now
                          (calculateEndDate_verify now (Some pt))
                          (prisma.set_paymentId (Some pid)
                             (prisma.set_status "active" s)))
              (prisma.mkSubCreate uid (r_plan_id sub) (r_id sub) (Some pid)
                 "active" pt (Some now)
                 (Some (calculateEndDate_verify now (Some pt))) false)
              (logged (Fetch sid) w) Hid eq_refl Hex Hfree)
    as [rows [n [Hrun Hrows]]].
  unfold bind at 1 in Hrun. unfold bind at 1.
  destruct (prisma.upsert now sid _ _ (logged (Fetch sid) w))
    as [[[]|e] w0]; [|discriminate Hrun].
  unfold bind at 1. rewrite Hrun. unfold ret. eexists.
  split; [reflexivity|]. cbn [db].
  assert (Hv : verified_at now sid uid pt
                 (mkDB (map (fun p => if prisma.has_userId uid p
                                      then prisma.p_touch now (activate pt sid p)
                                      else p)
                            (profiles (db w)))
                       rows n)).
  { apply (activation_verified now sid uid pt
             (fun s => prisma.set_dates now
                         (calculateEndDate_verify now (Some pt))
                         (prisma.set_paymentId (Some pid)
                            (prisma.set_status "active" s)))
             (prisma.mkSubCreate uid (r_plan_id sub) (r_id sub) (Some pid)
                "active" pt (Some now)
                (Some (calculateEndDate_verify now (Some pt))) false)
             (db w) rows n).
    - intros s. reflexivity.
    - intros s. repeat split.
    - reflexivity.
    - reflexivity.
    - reflexivity.
    - exact Hex.
    - exact Hrows. }
  split; [exact Hv|]. split; [|exact (verified_has_access _ _ _ _ _ Hv)].
  cbn [subscriptions]. cbn [logged db] in Hrows.
  intros s Hin Hs.
  destruct (existsb (has_rid sid) (subscriptions (db w))) eqn:Hrow; subst rows.
  - destruct (map_selected_In (has_rid sid)
                (fun s => prisma.touch now
                            (prisma.set_dates now
                               (calculateEndDate_verify now (Some pt))
                               (prisma.set_paymentId (Some pid)
                                  (prisma.set_status "active" s))))
                (subscriptions (db w)) s (fun _ => eq_refl) Hin Hs)
      as [y [_ ->]].
    reflexivity.
  - apply in_app_or in Hin. destruct Hin as [Hin|[<-|[]]].
    + rewrite (existsb_false_In _ _ _ Hrow Hin) in Hs. discriminate Hs.
    + reflexivity.
Qed.

Lemma verify_signed_grants_access_to_named_user_witness :
  exists w1,
    verify_payment_POST Sample.env (Sample.provider "active") Sample.t0
      (Ret SampleSigned.signed_checkout) Sample.world_pending =
    (Ret signed_verified_response, w1) /\
    verified_at Sample.t0 "sub_1" "U"
      (or_default (note n_planType (Sample.sub_1 "active")) "month") (db w1) /\
    (forall s, In s (subscriptions (db w1)) -> has_rid "sub_1" s = true ->
               s_razorpayPaymentId s = Some "pay_1") /\
    has_access "U" (db w1) = Some true.
Proof.
  apply (verify_signed_grants_access_to_named_user Sample.env
           (Sample.provider "active") Sample.t0 SampleSigned.signed_checkout
           Sample.world_pending "pay_1" "sub_1" "U" (Sample.sub_1 "active"));
    reflexivity.
Defined.

(** The identifiers are signed as they are rendered: a callback whose
    payment identifier is [null], signed over the text [null|sub_1],
    passes the check; the subscription is activated and its payment
    reference set to null. *)
Example verify_signed_null_payment_id :
  let req :=
    mkVerifyRequest None None Null (Text "sub_1")
      (Some (createHmac_sha256_hex "keysec" "null|sub_1")) (Text "U") in
  signed_payload req = "null|sub_1" /\
  exists w1,
    verify_payment_POST Sample.env (Sample.provider "active") Sample.t0
      (Ret req) SampleCaptured.world_captured =
    (Ret signed_verified_response, w1) /\
    has_access "U" (db w1) = Some true /\
    map s_razorpayPaymentId (subscriptions (db SampleCaptured.world_captured))
    = [Some "pay_1"] /\
    map s_razorpayPaymentId (subscriptions (db w1)) = [None].
Proof.
  cbv zeta. split; [reflexivity|].
  rewrite verify_payment_signed_run by reflexivity.
  unfold try_catch, verify_signed. cbv zeta.
  cbn [vr_razorpay_payment_id vr_razorpay_subscription_id
       vr_razorpay_signature vr_userId interpolate].
  change (or_default (RAZORPAY_KEY_SECRET Sample.env) "") with "keysec".
  change ("null" ++ "|" ++ "sub_1") with "null|sub_1".
  rewrite opt_eqb_refl. cbn [negb].
  eexists. split; [lazy; reflexivity|].
  split; [|split]; reflexivity.
Qed.

(* ================================================================== *)
(** ** Failures of checkout, cancellation and resumption *)
(* ================================================================== *)

(** The checkout route up to the provider call, for a request that
    passes every check. *)
Lemma checkout_run env rzp now req w planType uid email priceId :
  co_planType req = Some planType -> mem planType allowedPlans = true ->
  co_userId req = Some uid -> uid <> "" ->
  co_email req = Some email -> email <> "" ->
  getPriceIdFromType env planType = Some priceId -> priceId <> "" ->
  find (has_active_period uid now) (subscriptions (db w)) = None ->
  checkout_POST env rzp now req w =
  match rzp_create rzp (mkCreate priceId 1 1
                          (mkNotes (Some uid) (Some planType) (Some email)))
  with
  | Throw _ =>
      (Ret checkout_failed_response,
       logged (checkout_call priceId uid planType email) w)
  | Ret sub =>
      match prisma.create now
              (prisma.mkSubCreate uid (r_plan_id sub) (r_id sub) None
                 (r_status sub) planType None None false)
              (logged (checkout_call priceId uid planType email) w)
      with
      | (Ret _, w1) =>
          (Ret (checkout_response (resolve_origin env (co_origin req)) sub), w1)
      | (Throw _, w1) => (Ret checkout_failed_response, w1)
      end
  end.
Proof.
  intros Hpt Hmem Hu Huid He Hemail Hprice Hpid Hnone.
  assert (Hptne : planType <> "").
  { intros ->. discriminate Hmem. }
  unfold checkout_POST. rewrite Hpt, Hu, He.
  rewrite (truthy_some _ Hptne), (truthy_some _ Huid), (truthy_some _ Hemail).
  cbn [negb orb].
  rewrite (or_default_some _ _ Hptne), (or_default_some _ _ Huid),
    (or_default_some _ _ Hemail).
  rewrite Hmem, Hprice, (truthy_some _ Hpid), (or_default_some _ _ Hpid).
  cbn [negb].
  unfold try_catch, bind at 1, prisma.findFirst, bind at 1, get_db, ret at 1.
  cbv beta iota. rewrite Hnone.
  unfold bind at 1. rewrite create_call_run.
  fold (checkout_call priceId uid planType email).
  destruct (rzp_create rzp _) as [sub|e]; [|reflexivity].
  unfold bind at 1.
  destruct (prisma.create now _ _) as [[[]|e] w1]; reflexivity.
Qed.

(** X23: a checkout that passes every check and then fails answers
    500 and stores no row: when the provider refuses to create the
    subscription, and also when the provider created it but the user
    has no profile for the row to belong to. Either way the call was
    sent. *)
Theorem checkout_failure_stores_nothing (env : Env) (rzp : Razorpay) (now : Z)
    (req : CheckoutRequest) (w : World)
    (planType uid email priceId : string) :
  co_planType req = Some planType -> mem planType allowedPlans = true ->
  co_userId req = Some uid -> uid <> "" ->
  co_email req = Some email -> email <> "" ->
  getPriceIdFromType env planType = Some priceId -> priceId <> "" ->
  find (has_active_period uid now) (subscriptions (db w)) = None ->
  let call := mkCreate priceId 1 1
                (mkNotes (Some uid) (Some planType) (Some email)) in
  let failed := (Ret checkout_failed_response, logged (Create call) w) in
  (forall e, rzp_create rzp call = Throw e ->
             checkout_POST env rzp now req w = failed) /\
  (forall sub, rzp_create rzp call = Ret sub ->
               existsb (prisma.has_userId uid) (profiles (db w)) = false ->
               checkout_POST env rzp now req w = failed) /\
  http_status checkout_failed_response = 500.
Proof.
  intros Hpt Hmem Hu Huid He Hemail Hprice Hpid Hnone call failed.
  subst failed.
  rewrite (checkout_run env rzp now req w planType uid email priceId)
    by assumption.
  unfold checkout_call. fold call.
  split; [|split; [|reflexivity]].
  - intros e Hcreate. rewrite Hcreate. reflexivity.
  - intros sub Hcreate Hnoprofile. rewrite Hcreate.
    unfold prisma.create, bind, get_db, throw.
    cbn [logged db prisma.sc_userId].
    change (fun p : Profile => String.eqb (p_userId p) uid)
      with (prisma.has_userId uid).
    rewrite Hnoprofile. reflexivity.
Qed.

Lemma checkout_failure_stores_nothing_witness :
  checkout_POST Sample.env (Sample.provider "created") Sample.t0
    SampleOrphan.checkout_request Sample.empty_world =
  (Ret checkout_failed_response,
   logged (Create (mkCreate "plan_month" 1 1
                     (mkNotes (Some "U") (Some "month")
                        (Some "u@example.org"))))
          Sample.empty_world).
Proof.
  apply (proj1 (proj2
           (checkout_failure_stores_nothing Sample.env
              (Sample.provider "created") Sample.t0
              SampleOrphan.checkout_request Sample.empty_world
              "month" "U" "u@example.org" "plan_month"
              eq_refl eq_refl eq_refl ltac:(discriminate) eq_refl
              ltac:(discriminate) eq_refl ltac:(discriminate) eq_refl))
           Sample.sub_2 eq_refl eq_refl).
Defined.

(** X24: cancelling or resuming a subscription the caller does not own
    (no row of the store carries both the subscription and the caller)
    is answered 404 before the provider is contacted, and changes
    nothing. *)
Theorem cancel_and_resume_require_ownership (env : Env) (rzp : Razorpay)
    (now : Z) (req : SubscriptionRequest) (w : World) (sid uid : string) :
  sr_subscriptionId req = Some sid -> sid <> "" ->
  sr_userId req = Some uid -> uid <> "" ->
  find (owned_by sid uid) (subscriptions (db w)) = None ->
  (exists r, cancel_subscription_POST rzp now req w = (Ret r, w) /\
             http_status r = 404) /\
  (exists r, resume_payment_POST env rzp now req w = (Ret r, w) /\
             http_status r = 404).
Proof.
  intros Hs Hsid Hu Huid Hnone. split.
  - unfold cancel_subscription_POST. rewrite Hs, Hu.
    rewrite (truthy_some _ Hsid), (truthy_some _ Huid).
    rewrite (or_default_some _ _ Hsid), (or_default_some _ _ Huid).
    cbn [negb orb].
    unfold try_catch, bind at 1, prisma.findFirst, bind at 1, get_db, ret at 1.
    cbv beta iota. rewrite Hnone. eexists. split; reflexivity.
  - unfold resume_payment_POST. rewrite Hs, Hu.
    rewrite (truthy_some _ Hsid), (truthy_some _ Huid).
    rewrite (or_default_some _ _ Hsid), (or_default_some _ _ Huid).
    cbn [negb orb].
    unfold try_catch, bind at 1, prisma.findFirst, bind at 1, get_db, ret at 1.
    cbv beta iota. rewrite Hnone. eexists. split; reflexivity.
Qed.

Lemma cancel_and_resume_require_ownership_witness :
  (exists r, cancel_subscription_POST (Sample.provider "active") Sample.t0
               SampleOrphan.stranger_request Sample.world_active =
             (Ret r, Sample.world_active) /\ http_status r = 404) /\
  (exists r, resume_payment_POST Sample.env (Sample.provider "active")
               Sample.t0 SampleOrphan.stranger_request Sample.world_active =
             (Ret r, Sample.world_active) /\ http_status r = 404).
Proof.
  apply (cancel_and_resume_require_ownership Sample.env
           (Sample.provider "active") Sample.t0 SampleOrphan.stranger_request
           Sample.world_active "sub_1" "V");
    try discriminate; reflexivity.
Defined.

(** The resume route for a subscription the provider reports active. *)
Lemma resume_payment_active_run env rzp now req w sid uid row sub q :
  sr_subscriptionId req = Some sid -> sid <> "" ->
  sr_userId req = Some uid -> uid <> "" ->
  find (owned_by sid uid) (subscriptions (db w)) = Some row ->
  find (prisma.has_userId uid) (profiles (db w)) = Some q ->
  rzp_fetch rzp sid = Ret (Some sub) ->
  note n_userId sub = Some uid ->
  r_status sub = "active" ->
  resume_payment_POST env rzp now req w =
  (Ret resume_active_response,
   mkWorld (reconcile_active now uid row (db w))
           (rzp_calls w ++ [Fetch sid])).
Proof.
  intros Hs Hsid Hu Huid Hrow Hq Hfetch Hnote Hst.
  unfold resume_payment_POST. rewrite Hs, Hu.
  rewrite (truthy_some _ Hsid), (truthy_some _ Huid).
  rewrite (or_default_some _ _ Hsid), (or_default_some _ _ Huid).
  cbn [negb orb].
  unfold try_catch, bind at 1, prisma.findFirst, bind at 1, get_db, ret at 1.
  cbv beta iota. rewrite Hrow.
  unfold bind at 1. rewrite fetch_run, Hfetch.
  rewrite Hnote, opt_eqb_refl, Hst. cbn [negb String.eqb Ascii.eqb Bool.eqb].
  unfold bind at 1.
  rewrite (update_by_id_run now row (prisma.set_status "active")
             (logged (Fetch sid) w))
    by (exact (proj1 (find_some _ _ Hrow))).
  unfold bind at 1.
  unfold prisma.profile_update, bind at 1, get_db, put_db, throw.
  cbn [logged db profiles subscriptions next_id rzp_calls].
  rewrite Hq.
  cbn [prisma.p_set_tier prisma.p_set_active p_stripeSubscriptionId].
  rewrite opt_eqb_refl. reflexivity.
Qed.

(** X26: when the provider reports the subscription active, the resume
    route marks the row active and gives the profile access, but sets
    no dates: a user whose rows all belong to that row and carry no end
    date (as created at checkout) is sent to the application and then
    still reads as inactive in the status query. *)
Theorem resume_active_then_inactive (env : Env) (rzp : Razorpay)
    (now now' : Z) (req : SubscriptionRequest) (w : World) (sid uid : string)
    (row : Subscription) (sub : RazorpaySubscription) :
  sr_subscriptionId req = Some sid -> sid <> "" ->
  sr_userId req = Some uid -> uid <> "" ->
  fk_ok (db w) = true ->
  find (owned_by sid uid) (subscriptions (db w)) = Some row ->
  (forall s, In s (subscriptions (db w)) -> s_userId s = uid ->
             s_id s = s_id row /\ s_endDate s = None) ->
  rzp_fetch rzp sid = Ret (Some sub) ->
  note n_userId sub = Some uid ->
  r_status sub = "active" ->
  exists w1,
    resume_payment_POST env rzp now req w = (Ret resume_active_response, w1) /\
    jget "url" (body resume_active_response) = Some (JString "/mealplan") /\
    has_access uid (db w1) = Some true /\
    check_subscription_GET rzp now' (Some uid) w1 = (Ret inactive_shape, w1).
Proof.
  intros Hs Hsid Hu Huid Hfk Hrow Hall Hfetch Hnote Hst.
  destruct (find_some _ _ Hrow) as [Hin Howned].
  assert (Hru : s_userId row = uid).
  { unfold owned_by in Howned. apply andb_true_iff in Howned.
    apply String.eqb_eq. exact (proj2 Howned). }
  destruct (fk_profile (db w) row Hfk Hin) as [q Hq]. rewrite Hru in Hq.
  rewrite (resume_payment_active_run env rzp now req w sid uid row sub q)
    by assumption.
  eexists. split; [reflexivity|]. split; [reflexivity|]. split.
  - unfold has_access, reconcile_active. cbn [db profiles].
    rewrite (find_map_keeps (prisma.has_userId uid)
               (fun p => prisma.p_touch now
                           (prisma.p_set_tier (Some (s_planType row))
                              (prisma.p_set_active true p)))
               (fun _ => eq_refl)).
    rewrite Hq. reflexivity.
  - apply undated_active_rows_inactive; [exact Huid|].
    cbn [db reconcile_active subscriptions].
    intros s Hs' Hsu. apply in_map_iff in Hs'.
    destruct Hs' as [s0 [Heq Hin0]].
    destruct (Nat.eqb (s_id s0) (s_id row)) eqn:Hid; subst s.
    + cbn [prisma.touch prisma.set_status s_status s_endDate s_userId] in *.
      split; [reflexivity|]. exact (proj2 (Hall s0 Hin0 Hsu)).
    + destruct (Hall s0 Hin0 Hsu) as [Hsame _].
      rewrite Hsame, Nat.eqb_refl in Hid. discriminate Hid.
Qed.

Lemma resume_active_then_inactive_witness :
  exists w1,
    resume_payment_POST Sample.env (Sample.provider "active") Sample.t0
      SampleResume.resume_request SampleCaptured.world_created =
    (Ret resume_active_response, w1) /\
    jget "url" (body resume_active_response) = Some (JString "/mealplan") /\
    has_access "U" (db w1) = Some true /\
    check_subscription_GET (Sample.provider "active") Sample.t0 (Some "U") w1 =
    (Ret inactive_shape, w1).
Proof.
  apply (resume_active_then_inactive Sample.env (Sample.provider "active")
           Sample.t0 Sample.t0 SampleResume.resume_request
           SampleCaptured.world_created "sub_1" "U"
           SampleCaptured.row_created (Sample.sub_1 "active"));
    try discriminate; try reflexivity.
  intros s [<-|[]] _. split; reflexivity.
Defined.

(* ================================================================== *)
(** ** Client errors *)
(* ================================================================== *)
(** Unfolding of the handler monad and of the store operations. *)
Ltac unfold_ops_in H :=
  cbv beta iota zeta delta
    [bind try_catch ret throw lift get_db put_db log_call deref swallow
     subscriptions_fetch subscriptions_cancel subscriptions_create
     prisma.findFirst prisma.findFirst_desc prisma.findUnique
     prisma.update_by_id prisma.update prisma.updateMany prisma.create
     prisma.upsert prisma.profile_findUnique prisma.profile_update
     prisma.profile_create NextResponse_json] in H;
  cbn [db rzp_calls profiles subscriptions next_id] in H.

(** One case split on a scrutinee that is not a case split itself. *)
Ltac split_run H :=
  match type of H with
  | context [match ?x with _ => _ end] =>
      lazymatch x with
      | match _ with _ => _ end => fail
      | (match _ with _ => _ end) _ => fail
      | _ => destruct x eqn:?
      end
  end; cbv beta iota zeta in H;
  cbn [db rzp_calls profiles subscriptions next_id] in H.

Ltac client_error_case :=
  match goal with
  | Hrun : (_, _) = (Ret ?r, ?w'), Hst : 400 <= http_status ?r < 500 |- _ =>
      inversion Hrun; subst; clear Hrun; cbn in Hst |- *;
      first [reflexivity | exfalso; lia]
  | Hrun : (Throw _, _) = (Ret _, _) |- _ => discriminate Hrun
  end.


Ltac client_error H :=
  unfold_ops_in H; repeat split_run H; client_error_case.

Lemma create_profile_client_error now u w r w' :
  create_profile_POST now u w = (Ret r, w') ->
  400 <= http_status r < 500 -> db w' = db w.
Proof. intros Hrun Hst. unfold create_profile_POST in Hrun. client_error Hrun. Qed.

Lemma check_subscription_client_error rzp now uid w r w' :
  check_subscription_GET rzp now uid w = (Ret r, w') ->
  400 <= http_status r < 500 -> db w' = db w.
Proof.
  intros Hrun Hst. unfold check_subscription_GET, check_pending in Hrun.
  client_error Hrun.
Qed.

Lemma checkout_client_error env rzp now req w r w' :
  checkout_POST env rzp now req w = (Ret r, w') ->
  400 <= http_status r < 500 -> db w' = db w.
Proof. intros Hrun Hst. unfold checkout_POST in Hrun. client_error Hrun. Qed.

Lemma cancel_subscription_client_error rzp now req w r w' :
  cancel_subscription_POST rzp now req w = (Ret r, w') ->
  400 <= http_status r < 500 -> db w' = db w.
Proof.
  intros Hrun Hst.
  unfold cancel_subscription_POST, cancel_check_completed, cancel_at_provider,
    completed_message in Hrun.
  client_error Hrun.
Qed.

Lemma resume_payment_client_error env rzp now req w r w' :
  resume_payment_POST env rzp now req w = (Ret r, w') ->
  400 <= http_status r < 500 -> db w' = db w.
Proof. intros Hrun Hst. unfold resume_payment_POST in Hrun. client_error Hrun. Qed.

Lemma verify_payment_client_error env rzp now requestData w r w' :
  verify_payment_POST env rzp now requestData w = (Ret r, w') ->
  400 <= http_status r < 500 -> db w' = db w.
Proof.
  intros Hrun Hst.
  unfold verify_payment_POST, verify_redirect, verify_signed in Hrun.
  client_error Hrun.
Qed.

Lemma webhook_client_error JSON_parse typed env now request w r w' :
  webhook_POST JSON_parse typed env now request w = (Ret r, w') ->
  400 <= http_status r < 500 -> db w' = db w.
Proof. intros Hrun Hst. unfold webhook_POST in Hrun. client_error Hrun. Qed.

(** X27: on every route, an answer in the 4xx range means that the
    store was not written: a request is turned away before anything is
    stored. *)
Theorem client_errors_write_nothing (env : Env) (rzp : Razorpay) (now : Z)
    (w : World) (r : Response) (w1 : World) :
  400 <= http_status r < 500 ->
  (forall u, create_profile_POST now u w = (Ret r, w1) -> db w1 = db w) /\
  (forall uid, check_subscription_GET rzp now uid w = (Ret r, w1) ->
               db w1 = db w) /\
  (forall req, checkout_POST env rzp now req w = (Ret r, w1) -> db w1 = db w) /\
  (forall req, cancel_subscription_POST rzp now req w = (Ret r, w1) ->
               db w1 = db w) /\
  (forall req, resume_payment_POST env rzp now req w = (Ret r, w1) ->
               db w1 = db w) /\
  (forall requestData,
     verify_payment_POST env rzp now requestData w = (Ret r, w1) ->
     db w1 = db w) /\
  (forall JSON_parse typed request,
     webhook_POST JSON_parse typed env now request w = (Ret r, w1) ->
     db w1 = db w).
Proof.
  intros Hst. repeat split; intros.
  - eapply create_profile_client_error; eassumption.
  - eapply check_subscription_client_error; eassumption.
  - eapply checkout_client_error; eassumption.
  - eapply cancel_subscription_client_error; eassumption.
  - eapply resume_payment_client_error; eassumption.
  - eapply verify_payment_client_error; eassumption.
  - eapply webhook_client_error; eassumption.
Qed.

Lemma client_errors_write_nothing_witness :
  resume_payment_POST Sample.env (Sample.provider "halted") Sample.t0
    SampleResume.resume_request Sample.world_active =
  (Ret (cannot_resume_response "halted"),
   logged (Fetch "sub_1") Sample.world_active) /\
  db (logged (Fetch "sub_1") Sample.world_active) = db Sample.world_active.
Proof.
  split; [reflexivity|].
  exact (proj1 (proj2 (proj2 (proj2 (proj2
           (client_errors_write_nothing Sample.env (Sample.provider "halted")
              Sample.t0 Sample.world_active (cannot_resume_response "halted")
              (logged (Fetch "sub_1") Sample.world_active)
              ltac:(cbn; lia))))))
           SampleResume.resume_request eq_refl).
Defined.

(* ================================================================== *)
(** ** The history of the store *)
(* ================================================================== *)

Section ExtendsFacts.

Variable A : Type.
Variable R : A -> A -> Prop.
Hypothesis R_refl : forall x, R x x.
Hypothesis R_trans : forall x y z, R x y -> R y z -> R x z.

Lemma Forall2_same (l : list A) : Forall2 R l l.
Proof. induction l; constructor; auto. Qed.

Lemma Forall2_chain (l1 l2 l3 : list A) :
  Forall2 R l1 l2 -> Forall2 R l2 l3 -> Forall2 R l1 l3.
Proof.
  intros H. revert l3. induction H as [|x y l1 l2 Hxy _ IH]; intros l3 H3.
  - inversion H3. constructor.
  - inversion H3 as [|y' z l2' l3' Hyz Hrest]; subst.
    constructor; [exact (R_trans _ _ _ Hxy Hyz) | apply IH; exact Hrest].
Qed.

Lemma extends_refl (l : list A) : extends R l l.
Proof. exists l, []. split; [symmetry; apply app_nil_r | apply Forall2_same]. Qed.

Lemma extends_trans (l1 l2 l3 : list A) :
  extends R l1 l2 -> extends R l2 l3 -> extends R l1 l3.
Proof.
  intros [old1 [add1 [-> H1]]] [old2 [add2 [-> H2]]].
  apply Forall2_app_inv_l in H2.
  destruct H2 as [o2 [a2 [Ho [Ha ->]]]].
  exists o2, (a2 ++ add2)%list. split.
  - symmetry. apply app_assoc.
  - exact (Forall2_chain _ _ _ H1 Ho).
Qed.

Lemma extends_app (l added : list A) : extends R l (l ++ added).
Proof. exists l, added. split; [reflexivity | apply Forall2_same]. Qed.

Lemma extends_map (P : A -> bool) (f : A -> A) (l : list A) :
  (forall x, R x (f x)) ->
  extends R l (map (fun x => if P x then f x else x) l).
Proof.
  intros Hf. exists (map (fun x => if P x then f x else x) l), [].
  split; [symmetry; apply app_nil_r|].
  induction l as [|x l IH]; cbn [map]; constructor; [|exact IH].
  destruct (P x); [apply Hf | apply R_refl].
Qed.

End ExtendsFacts.

Lemma same_identity_refl s : same_identity s s.
Proof. repeat split. Qed.

Lemma same_identity_trans s1 s2 s3 :
  same_identity s1 s2 -> same_identity s2 s3 -> same_identity s1 s3.
Proof. unfold same_identity. intuition congruence. Qed.

Lemma same_owner_refl p : same_owner p p.
Proof. repeat split. Qed.

Lemma same_owner_trans p1 p2 p3 :
  same_owner p1 p2 -> same_owner p2 p3 -> same_owner p1 p3.
Proof. unfold same_owner. intuition congruence. Qed.

Lemma history_kept_refl w : history_kept w w.
Proof.
  repeat split;
    [apply (extends_refl _ _ same_identity_refl)
    |apply (extends_refl _ _ same_owner_refl)
    |apply (extends_refl _ _ (@eq_refl _))].
Qed.

Lemma history_kept_trans w1 w2 w3 :
  history_kept w1 w2 -> history_kept w2 w3 -> history_kept w1 w3.
Proof.
  intros [Hs1 [Hp1 Hc1]] [Hs2 [Hp2 Hc2]]. repeat split.
  - exact (extends_trans _ _ same_identity_trans _ _ _ Hs1 Hs2).
  - exact (extends_trans _ _ same_owner_trans _ _ _ Hp1 Hp2).
  - exact (extends_trans _ _ (@eq_trans _) _ _ _ Hc1 Hc2).
Qed.

(** *** The store operations and the provider calls *)

Lemma log_call_history c : keeps history_kept (log_call c).
Proof.
  intros w. cbn. repeat split;
    [apply (extends_refl _ _ same_identity_refl)
    |apply (extends_refl _ _ same_owner_refl)
    |apply (extends_app _ _ (@eq_refl _))].
Qed.

Lemma put_rows_history rows n w :
  extends same_identity (subscriptions (db w)) rows ->
  history_kept w (mkWorld (mkDB (profiles (db w)) rows n) (rzp_calls w)).
Proof.
  intros H. repeat split;
    [exact H
    |apply (extends_refl _ _ same_owner_refl)
    |apply (extends_refl _ _ (@eq_refl _))].
Qed.

Lemma put_profiles_history ps w :
  extends same_owner (profiles (db w)) ps ->
  history_kept w
    (mkWorld (mkDB ps (subscriptions (db w)) (next_id (db w))) (rzp_calls w)).
Proof.
  intros H. repeat split;
    [apply (extends_refl _ _ same_identity_refl)
    |exact H
    |apply (extends_refl _ _ (@eq_refl _))].
Qed.

Lemma updateMany_history now P data :
  (forall s, same_identity s (data s)) ->
  keeps history_kept (prisma.updateMany now P data).
Proof.
  intros Hdata w. cbn. apply put_rows_history.
  apply (extends_map _ _ same_identity_refl). intros s.
  exact (same_identity_trans _ _ _ (Hdata s) ltac:(repeat split)).
Qed.

Lemma update_history now P data :
  (forall s, same_identity s (data s)) ->
  keeps history_kept (prisma.update now P data).
Proof.
  intros Hdata w. unfold prisma.update, bind, get_db.
  destruct (existsb P (subscriptions (db w))).
  - apply (updateMany_history now P data Hdata).
  - apply history_kept_refl.
Qed.

Lemma create_history now c : keeps history_kept (prisma.create now c).
Proof.
  intros w. unfold prisma.create, bind, get_db, put_db, throw.
  destruct (negb _); [apply history_kept_refl|].
  destruct (existsb _ _); [apply history_kept_refl|].
  cbn [snd]. apply put_rows_history.
  apply (extends_app _ _ same_identity_refl).
Qed.

Lemma upsert_history now rid data c :
  (forall s, same_identity s (data s)) ->
  keeps history_kept (prisma.upsert now rid data c).
Proof.
  intros Hdata w. unfold prisma.upsert, bind at 1, get_db.
  destruct (existsb _ _).
  - apply (updateMany_history now _ data Hdata).
  - apply create_history.
Qed.

Lemma profile_update_history now uid data :
  (forall p, same_owner p (data p)) ->
  keeps history_kept (prisma.profile_update now uid data).
Proof.
  intros Hdata w. unfold prisma.profile_update, bind, get_db, put_db, throw.
  destruct (find _ _) as [q|]; [|apply history_kept_refl].
  destruct (negb _ && _); [apply history_kept_refl|].
  cbn [snd]. apply put_profiles_history.
  apply (extends_map _ _ same_owner_refl). intros p.
  exact (same_owner_trans _ _ _ (Hdata p) ltac:(repeat split)).
Qed.

Lemma profile_create_history now uid email active tier stripe :
  keeps history_kept (prisma.profile_create now uid email active tier stripe).
Proof.
  intros w. unfold prisma.profile_create, bind, get_db, put_db, throw.
  destruct (existsb _ _); [apply history_kept_refl|].
  destruct (prisma.stripe_taken _ _ _); [apply history_kept_refl|].
  cbn [snd]. apply put_profiles_history.
  apply (extends_app _ _ same_owner_refl).
Qed.

Ltac history_step :=
  first
    [ apply log_call_history
    | apply updateMany_history; [intros ?; repeat split]
    | apply update_history; [intros ?; repeat split]
    | apply upsert_history; [intros ?; repeat split]
    | apply profile_update_history; [intros ?; repeat split]
    | apply create_history
    | apply profile_create_history
    | keeps_step history_kept_refl history_kept_trans ].

Ltac history := repeat history_step.

Lemma dispatch_history typed now data :
  keeps history_kept (dispatch typed now data).
Proof.
  unfold dispatch. cbv zeta.
  unfold razorpay_webhook.handleSubscriptionActivated,
    razorpay_webhook.handleSubscriptionPending,
    webhook.handleSubscriptionActivated, webhook.handleSubscriptionPending,
    handleSubscriptionHalted, handleSubscriptionCancelled,
    handlePaymentCaptured, handlePaymentFailed, mark_and_deactivate,
    activate_from_webhook, pending_from_webhook.
  history.
Qed.

(** X28: no route deletes a row or a profile, moves one, or changes
    the columns that identify it: after any request each table holds
    the rows it held, in place, with the same key, owner, plan,
    provider reference, plan type, recurrence and creation time (for a
    profile: user, email and creation time), followed by the rows the
    request added. *)
Theorem routes_keep_history (env : Env) (rzp : Razorpay) (now : Z)
    (w : World) :
  (forall u, history_kept w (snd (create_profile_POST now u w))) /\
  (forall uid, history_kept w (snd (check_subscription_GET rzp now uid w))) /\
  (forall req, history_kept w (snd (checkout_POST env rzp now req w))) /\
  (forall req, history_kept w (snd (cancel_subscription_POST rzp now req w))) /\
  (forall req, history_kept w (snd (resume_payment_POST env rzp now req w))) /\
  (forall requestData,
     history_kept w (snd (verify_payment_POST env rzp now requestData w))) /\
  (forall JSON_parse typed request,
     history_kept w (snd (webhook_POST JSON_parse typed env now request w))).
Proof.
  assert (Hall :
    (forall u, keeps history_kept (create_profile_POST now u)) /\
    (forall uid, keeps history_kept (check_subscription_GET rzp now uid)) /\
    (forall req, keeps history_kept (checkout_POST env rzp now req)) /\
    (forall req, keeps history_kept (cancel_subscription_POST rzp now req)) /\
    (forall req, keeps history_kept (resume_payment_POST env rzp now req)) /\
    (forall requestData,
       keeps history_kept (verify_payment_POST env rzp now requestData)) /\
    (forall JSON_parse typed request,
       keeps history_kept (webhook_POST JSON_parse typed env now request))).
  { split; [|split; [|split; [|split; [|split; [|split]]]]]; intros.
    - unfold create_profile_POST. history.
    - unfold check_subscription_GET, check_pending, subscriptions_fetch,
        prisma.update_by_id.
      history.
    - unfold checkout_POST, subscriptions_create. history.
    - unfold cancel_subscription_POST, cancel_check_completed,
        cancel_at_provider, subscriptions_fetch, subscriptions_cancel,
        prisma.update_by_id.
      history.
    - unfold resume_payment_POST, subscriptions_fetch, subscriptions_create,
        prisma.update_by_id.
      history.
    - unfold verify_payment_POST, verify_redirect, verify_signed,
        subscriptions_fetch.
      history.
      all: destruct (vr_razorpay_payment_id _); reflexivity.
    - unfold webhook_POST. history. apply dispatch_history. }
  destruct Hall as [H1 [H2 [H3 [H4 [H5 [H6 H7]]]]]].
  split; [|split; [|split; [|split; [|split; [|split]]]]]; intros.
  - apply H1.
  - apply H2.
  - apply H3.
  - apply H4.
  - apply H5.
  - apply H6.
  - apply H7.
Qed.

(* ================================================================== *)
(** ** The subscription of a profile *)
(* ================================================================== *)

Lemma most_recent_copies (row : Subscription) (l : list Subscription) :
  l <> [] -> (forall s, In s l -> s = row) -> most_recent l = Some row.
Proof.
  induction l as [|x l IH]; intros Hne Hall; [contradiction|].
  cbn [most_recent].
  rewrite (Hall x (or_introl eq_refl)).
  destruct l as [|y l'].
  - reflexivity.
  - rewrite IH; [|discriminate|intros s Hs; apply Hall; right; exact Hs].
    rewrite Z.leb_refl. reflexivity.
Qed.

Lemma filter_In_nonempty {A} (P : A -> bool) (l : list A) (x : A) :
  In x l -> P x = true -> filter P l <> [].
Proof.
  intros Hin HP Hnil.
  assert (H : In x (filter P l)) by (apply filter_In; split; assumption).
  rewrite Hnil in H. exact H.
Qed.

(** The route for a signed-in user who has a profile. *)
Lemma subscription_status_GET_run plans_fetch now u w q :
  clerk_id u <> "" ->
  find (prisma.has_userId (clerk_id u)) (profiles (db w)) = Some q ->
  subscription_status_GET plans_fetch now (Some u) w =
  (let included :=
     take_most_recent
       (filter (current_clause (p_userId q) now) (subscriptions (db w))) in
   Ret (mkStatusResponse 200
          (SubscriptionOf q included (hd_error included)
             match hd_error included with
             | Some s =>
                 if String.eqb (s_planId s) "" then None
                 else fetch_plan_details plans_fetch (s_planId s)
             | None => None
             end)),
   w).
Proof.
  intros Hid Hq. unfold subscription_status_GET.
  destruct (String.eqb_spec (clerk_id u) ""); [contradiction|].
  unfold try_catch, bind, get_db, ret. rewrite Hq. reflexivity.
Qed.

(** X29: a subscription the user cancelled stays the current
    subscription of the profile route until its end date has passed,
    while the status query already reports the user inactive: for a
    user whose only row is cancelled with an end date not yet reached,
    the status query answers the inactive shape and the profile route
    answers that row, with the details of its plan when the provider
    can be asked and without them when it cannot; neither writes. *)
Theorem cancelled_subscription_stays_current
    (plans_fetch : string -> outcome RazorpayPlan) (rzp : Razorpay) (now : Z)
    (u : ClerkUser) (w : World) (q : Profile) (row : Subscription) (e : Z) :
  clerk_id u <> "" ->
  find (prisma.has_userId (clerk_id u)) (profiles (db w)) = Some q ->
  In row (subscriptions (db w)) ->
  (forall s, In s (subscriptions (db w)) -> s_userId s = clerk_id u -> s = row) ->
  s_userId row = clerk_id u ->
  s_status row = "cancelled" ->
  s_endDate row = Some e -> now <= e ->
  check_subscription_GET rzp now (Some (clerk_id u)) w = (Ret inactive_shape, w) /\
  subscription_status_GET plans_fetch now (Some u) w =
  (Ret (mkStatusResponse 200
          (SubscriptionOf q [row] (Some row)
             (if String.eqb (s_planId row) "" then None
              else match plans_fetch (s_planId row) with
                   | Ret plan =>
                       Some (mkPlanDetails (pl_id plan) (pl_period plan)
                               (it_amount (pl_item plan), 100)
                               (it_currency (pl_item plan))
                               (it_name (pl_item plan)))
                   | Throw _ => None
                   end))),
   w).
Proof.
  intros Hid Hq Hin Honly Hru Hst Hend Hnow. split.
  - rewrite (check_subscription_GET_run rzp now (clerk_id u) w Hid).
    assert (Ha : filter (active_query (clerk_id u) now) (subscriptions (db w)) = []).
    { apply filter_none. intros s Hs. unfold active_query.
      destruct (String.eqb_spec (s_userId s) (clerk_id u)) as [Hu|_];
        [|reflexivity].
      rewrite (Honly s Hs Hu), Hst. reflexivity. }
    assert (Hp : filter (pending_query (clerk_id u)) (subscriptions (db w)) = []).
    { apply filter_none. intros s Hs. unfold pending_query.
      destruct (String.eqb_spec (s_userId s) (clerk_id u)) as [Hu|_];
        [|reflexivity].
      rewrite (Honly s Hs Hu), Hst. reflexivity. }
    rewrite Ha, Hp. reflexivity.
  - rewrite (subscription_status_GET_run plans_fetch now u w q Hid Hq).
    assert (Hqu : p_userId q = clerk_id u).
    { apply find_some in Hq. destruct Hq as [_ Hq].
      apply String.eqb_eq. exact Hq. }
    assert (Hc : current_clause (p_userId q) now row = true).
    { unfold current_clause, endDate_gte. rewrite Hqu, Hru, Hst, Hend.
      rewrite String.eqb_refl. cbn [String.eqb Ascii.eqb Bool.eqb orb andb].
      apply Z.leb_le. exact Hnow. }
    assert (Hm : most_recent
                   (filter (current_clause (p_userId q) now)
                           (subscriptions (db w))) = Some row).
    { apply most_recent_copies.
      - exact (filter_In_nonempty _ _ row Hin Hc).
      - intros s Hs. apply filter_In in Hs. destruct Hs as [Hs Hcs].
        apply (Honly s Hs). unfold current_clause in Hcs.
        apply andb_true_iff in Hcs. destruct Hcs as [Hcs _].
        rewrite Hqu in Hcs. apply String.eqb_eq. exact Hcs. }
    cbv zeta. unfold take_most_recent. rewrite Hm. cbn [hd_error].
    reflexivity.
Qed.

Lemma cancelled_subscription_stays_current_witness :
  check_subscription_GET (Sample.provider "cancelled") Sample.t0 (Some "U")
    SampleCancelled.world_cancelled =
  (Ret inactive_shape, SampleCancelled.world_cancelled) /\
  subscription_status_GET SamplePlans.plans_down Sample.t0
    (Some Sample.user_U) SampleCancelled.world_cancelled =
  (Ret (mkStatusResponse 200
          (SubscriptionOf Sample.profile_U [SampleCancelled.row_cancelled]
             (Some SampleCancelled.row_cancelled) None)),
   SampleCancelled.world_cancelled).
Proof.
  apply (cancelled_subscription_stays_current SamplePlans.plans_down
           (Sample.provider "cancelled") Sample.t0 Sample.user_U
           SampleCancelled.world_cancelled Sample.profile_U
           SampleCancelled.row_cancelled (calculateEndDate Sample.t0 "month")).
  - discriminate.
  - reflexivity.
  - left. reflexivity.
  - intros s [<-|[]] _. reflexivity.
  - reflexivity.
  - reflexivity.
  - reflexivity.
  - rewrite calculateEndDate_month, JSDateMore.setMonth_next.
    pose proof (JSDateFacts.days_in_month_bound
                  (JSDate.getFullYear Sample.t0)
                  (JSDate.getMonth Sample.t0 + 1)).
    unfold JSDate.msPerDay. lia.
Defined.

(* ================================================================== *)
(** ** The answer of the model *)
(* ================================================================== *)

Module JSStringFacts.
Import JSString.
Local Open Scope list_scope.

Lemma trimStart_white (ws s : t) :
  white ws -> trimStart (ws ++ s) = trimStart s.
Proof.
  intros H. induction H as [|c ws Hc _ IH]; [reflexivity|].
  cbn [app trimStart]. rewrite Hc. exact IH.
Qed.

Lemma trimStart_solid (c : N) (s : t) :
  is_white c = false -> trimStart (c :: s) = c :: s.
Proof. intros H. cbn [trimStart]. rewrite H. reflexivity. Qed.

Lemma white_rev (ws : t) : white ws -> white (rev ws).
Proof. unfold white. intros H. apply Forall_rev. exact H. Qed.

Lemma trimEnd_white (s ws : t) : white ws -> trimEnd (s ++ ws) = trimEnd s.
Proof.
  intros H. unfold trimEnd. rewrite rev_app_distr.
  rewrite (trimStart_white _ _ (white_rev _ H)). reflexivity.
Qed.

Lemma trimEnd_solid (s : t) (c : N) :
  is_white c = false -> trimEnd (s ++ [c]) = s ++ [c].
Proof.
  intros H. unfold trimEnd. rewrite rev_app_distr. cbn [rev app].
  rewrite (trimStart_solid _ _ H).
  change (c :: rev s) with ([c] ++ rev s).
  rewrite rev_app_distr, rev_involutive. reflexivity.
Qed.

(** Text that starts and ends with a character that is no white space
    is what [trim] leaves of it, whatever white space surrounds it. *)
Lemma trim_surrounded (before after s : t) (c d : N) :
  white before -> white after ->
  is_white c = false -> is_white d = false ->
  trim (before ++ (c :: s ++ [d]) ++ after) = c :: s ++ [d].
Proof.
  intros Hb Ha Hc Hd. unfold trim.
  rewrite (trimStart_white _ _ Hb).
  cbn [app]. rewrite (trimStart_solid _ _ Hc).
  change (c :: (s ++ [d]) ++ after) with ((c :: s ++ [d]) ++ after).
  rewrite (trimEnd_white _ _ Ha).
  change (c :: s ++ [d]) with ((c :: s) ++ [d]).
  apply (trimEnd_solid _ _ Hd).
Qed.

Lemma startsWith_app (p s : t) : startsWith (p ++ s) p = true.
Proof.
  induction p as [|c p IH]; [reflexivity|].
  cbn [app startsWith]. rewrite N.eqb_refl. exact IH.
Qed.

Lemma strip_prefix_app (p s : t) : strip_prefix p (p ++ s) = s.
Proof.
  unfold strip_prefix. rewrite startsWith_app.
  rewrite skipn_app, skipn_all, Nat.sub_diag. reflexivity.
Qed.

Lemma strip_suffix_app (s p : t) : strip_suffix p (s ++ p) = s.
Proof.
  unfold strip_suffix, endsWith. rewrite rev_app_distr, startsWith_app.
  rewrite length_app, Nat.add_sub.
  rewrite firstn_app, firstn_all, Nat.sub_diag. cbn [firstn].
  apply app_nil_r.
Qed.

Lemma startsWith_longer (s p q : t) :
  startsWith s p = false -> startsWith s (p ++ q) = false.
Proof.
  revert s. induction p as [|c p IH]; intros s H; [discriminate H|].
  cbn [app startsWith] in *. destruct s as [|d s]; [reflexivity|].
  destruct (N.eqb c d); [|reflexivity]. cbn [andb] in *. apply IH. exact H.
Qed.

End JSStringFacts.

Lemma open_fence_units : open_fence = [96; 96; 96; 10]%N.
Proof. reflexivity. Qed.

(** Text that does not start with a backtick, followed by a closing
    fence, does not start with an opening fence. *)
Lemma no_open_fence (content : JSString.t) :
  hd_error content <> Some JSString.backtick ->
  JSString.strip_prefix open_fence (content ++ close_fence)%list
  = (content ++ close_fence)%list.
Proof.
  intros Hhd. unfold JSString.strip_prefix. rewrite open_fence_units.
  destruct content as [|c rest]; [reflexivity|].
  cbn [app JSString.startsWith].
  destruct (N.eqb_spec 96 c) as [<-|_]; [|reflexivity].
  exfalso. apply Hhd. reflexivity.
Qed.

Lemma cleanContent_fenced (tag content : JSString.t) :
  tag = [] \/ tag = JSString.lit "json" ->
  hd_error content <> Some JSString.backtick ->
  cleanContent (fenced tag content) = JSString.trim content.
Proof.
  intros Htag Hhd. unfold cleanContent.
  destruct Htag as [-> | ->].
  - change (fenced [] content)
      with (open_fence ++ (content ++ close_fence))%list.
    replace (JSString.startsWith (open_fence ++ content ++ close_fence)%list
               fence)
      with true by reflexivity.
    rewrite orb_true_r.
    replace (JSString.strip_prefix open_fence_json
               (open_fence ++ content ++ close_fence)%list)
      with (open_fence ++ content ++ close_fence)%list by reflexivity.
    rewrite JSStringFacts.strip_prefix_app.
    rewrite JSStringFacts.strip_suffix_app. reflexivity.
  - change (fenced (JSString.lit "json") content)
      with (open_fence_json ++ (content ++ close_fence))%list.
    replace (JSString.startsWith
               (open_fence_json ++ content ++ close_fence)%list fence_json)
      with true by reflexivity.
    rewrite orb_true_l.
    rewrite JSStringFacts.strip_prefix_app.
    rewrite (no_open_fence content Hhd).
    rewrite JSStringFacts.strip_suffix_app. reflexivity.
Qed.

Lemma fenced_shape (tag content : JSString.t) :
  exists middle,
    fenced tag content =
    (JSString.backtick :: middle ++ [JSString.backtick])%list.
Proof.
  exists ([96; 96]%N ++ tag ++ [JSString.line_feed] ++ content
          ++ [JSString.line_feed; 96; 96]%N)%list.
  unfold fenced, close_fence.
  change fence with [96; 96; 96]%N. change JSString.backtick with 96%N.
  repeat (rewrite <- app_assoc; cbn [app]). reflexivity.
Qed.

(** X30: an answer that comes wrapped in a Markdown code fence, with
    or without the [json] tag and whatever white space surrounds the
    fence, is read as the text between the fences, trimmed: the same
    text a bare answer is read as. *)
Theorem fenced_answer_is_unwrapped
    (JSON_parse : JSString.t -> outcome JsonValue)
    (tag content before after : JSString.t)
    (others : list (option JSString.t)) :
  tag = [] \/ tag = JSString.lit "json" ->
  JSString.white before -> JSString.white after ->
  hd_error content <> Some JSString.backtick ->
  generate_mealplan_POST JSON_parse
    (Ret (Some (before ++ fenced tag content ++ after)%list :: others)) =
  mealplan_answer JSON_parse (JSString.trim content) /\
  (JSString.startsWith (JSString.trim content) fence = false ->
   generate_mealplan_POST JSON_parse (Ret (Some content :: others)) =
   mealplan_answer JSON_parse (JSString.trim content)).
Proof.
  intros Htag Hb Ha Hhd. split.
  - unfold generate_mealplan_POST. cbv zeta.
    destruct (fenced_shape tag content) as [middle Hshape].
    rewrite Hshape.
    rewrite (JSStringFacts.trim_surrounded before after middle
               JSString.backtick JSString.backtick Hb Ha eq_refl eq_refl).
    rewrite <- Hshape.
    rewrite (cleanContent_fenced tag content Htag Hhd). reflexivity.
  - intros Hbare. unfold generate_mealplan_POST. cbv zeta.
    unfold cleanContent.
    assert (Hjson : JSString.startsWith (JSString.trim content) fence_json
                    = false).
    { exact (JSStringFacts.startsWith_longer _ fence (JSString.lit "json")
               Hbare). }
    rewrite Hjson, Hbare. reflexivity.
Qed.

Lemma fenced_answer_is_unwrapped_witness :
  generate_mealplan_POST SampleMealPlan.parse
    (Ret [Some ([32; 10]%N ++ fenced (JSString.lit "json")
                                SampleMealPlan.plan_text ++ [10]%N)%list]) =
  mealplan_answer SampleMealPlan.parse
    (JSString.trim SampleMealPlan.plan_text) /\
  (JSString.startsWith (JSString.trim SampleMealPlan.plan_text) fence = false ->
   generate_mealplan_POST SampleMealPlan.parse
     (Ret [Some SampleMealPlan.plan_text]) =
   mealplan_answer SampleMealPlan.parse
     (JSString.trim SampleMealPlan.plan_text)).
Proof.
  apply (fenced_answer_is_unwrapped SampleMealPlan.parse
           (JSString.lit "json") SampleMealPlan.plan_text [32; 10]%N [10]%N []).
  - right. reflexivity.
  - repeat constructor.
  - repeat constructor.
  - discriminate.
Defined.

(* ================================================================== *)
(** ** A visit of the subscribe page *)
(* ================================================================== *)

(** X25: for a user whose subscription is active and not expired, each
    visit of the subscribe page starts the paid period anew: the status
    query answers with the identifier of the subscription, the page
    posts it for verification, and as long as the provider reports the
    subscription active or completed the verification stamps its rows
    with the time of the visit as start date and the end date computed
    from it. *)
Theorem subscribe_page_visit_restarts_period (env : Env) (rzp : Razorpay)
    (t_status t_verify : Z) (uid : string) (w : World) (a : Subscription)
    (sid owner : string) (sub : RazorpaySubscription) :
  uid <> "" ->
  most_recent (filter (active_query uid t_status) (subscriptions (db w)))
  = Some a ->
  s_razorpaySubscriptionId a = Some sid -> sid <> "" ->
  rzp_fetch rzp sid = Ret (Some sub) -> r_id sub = sid ->
  note n_userId sub = Some owner -> owner <> "" ->
  mem (r_status sub) active_family = true ->
  locally_cancelled sid (db w) = false ->
  existsb (prisma.has_userId owner) (profiles (db w)) = true ->
  prisma.stripe_taken owner (Some sid) (profiles (db w)) = false ->
  let planType := or_default (note n_planType sub) "month" in
  exists w1,
    SubscribePage_visit env rzp t_status t_verify uid w = (Ret tt, w1) /\
    (forall s, In s (subscriptions (db w1)) -> has_rid sid s = true ->
               s_status s = "active" /\
               s_startDate s = Some t_verify /\
               s_endDate s =
               Some (calculateEndDate_verify t_verify (Some planType))) /\
    existsb (has_rid sid) (subscriptions (db w1)) = true.
Proof.
  intros Huid Ha Hrid Hsid Hfetch Hid Hnote Howner Hst Hl Hex Hfree planType.
  unfold SubscribePage_visit.
  destruct (String.eqb_spec uid "") as [|_]; [contradiction|].
  unfold bind at 1.
  rewrite (check_subscription_GET_run rzp t_status uid w Huid), Ha.
  fold (active_shape a).
  assert (Hv : verificationId (active_shape a) = Some sid).
  { unfold verificationId, active_shape, NextResponse_json. cbn [body jget].
    cbn [String.eqb Ascii.eqb Bool.eqb]. rewrite Hrid.
    cbn [jnullable json_string]. unfold or_opt.
    rewrite (truthy_some _ Hsid). reflexivity. }
  replace (ok (active_shape a)) with true by reflexivity.
  cbn [negb]. rewrite Hv, (truthy_some _ Hsid), (or_default_some _ _ Hsid).
  unfold bind at 1.
  assert (Hreq : or_opt (vr_sessionId (verifyPayment_body sid))
                        (vr_subscriptionId (verifyPayment_body sid))
                 = Some sid).
  { unfold verifyPayment_body, or_opt. cbn [vr_sessionId vr_subscriptionId].
    rewrite (truthy_some _ Hsid). reflexivity. }
  rewrite (verify_payment_redirect_run _ _ _ _ _ _ Hreq Hsid).
  destruct (active_family_not_pending _ Hst) as [Hc [Hx Hp]].
  rewrite (verify_redirect_paid rzp t_verify sid w sub owner _
             Hfetch Hnote Howner Hc Hx Hp Hl).
  destruct (verify_writes_run t_verify sid owner sub (logged (Fetch sid) w)
              Hid Hex Hfree) as [w1 [Hrun [_ Hver]]].
  unfold try_catch. rewrite Hrun. unfold ret. exists w1.
  split; [reflexivity|].
  destruct Hver as [Hrows [Hstamped _]]. fold planType in Hstamped.
  split; [|exact Hrows].
  intros s Hin Hs. destruct (Hstamped s Hin Hs) as [H1 [H2 [H3 _]]].
  repeat split; assumption.
Qed.

Lemma subscribe_page_visit_restarts_period_witness :
  exists w1,
    SubscribePage_visit Sample.env (Sample.provider "completed")
      SampleVerify.t1 SampleVerify.t2 "U" Sample.world_active = (Ret tt, w1) /\
    (forall s, In s (subscriptions (db w1)) -> has_rid "sub_1" s = true ->
               s_status s = "active" /\
               s_startDate s = Some SampleVerify.t2 /\
               s_endDate s =
               Some (calculateEndDate_verify SampleVerify.t2
                       (Some (or_default
                                (note n_planType (Sample.sub_1 "completed"))
                                "month")))) /\
    existsb (has_rid "sub_1") (subscriptions (db w1)) = true.
Proof.
  apply (subscribe_page_visit_restarts_period Sample.env
           (Sample.provider "completed") SampleVerify.t1 SampleVerify.t2 "U"
           Sample.world_active Sample.row_active "sub_1" "U"
           (Sample.sub_1 "completed"));
    try discriminate; reflexivity.
Defined.
